(** * Panel corners: cached geometry engine and its invalidation protocol

    A shallow embedding of [src/utils.js] (the [debounce] helper and the three
    [lookup_for_*] functions) and of the panel-corner module that follows it
    in the same file (the [PanelCorners] controller and the [PanelCorner]
    drawing area), together with the properties of the specification.

    Modelling conventions.
    - JavaScript numbers are rationals ([Q]); the properties below depend on
      the control flow only, never on rounding.
    - Objects that are shared and mutated (corner elements, debounced
      closures) live in stores indexed by an allocation counter; a reference
      is the index.
    - Every function of the source is a state transformer on [World], the
      state of the shell as far as the code reads or writes it.  A trace of
      the effects performed is kept in the world, newest entry first.
    - The host (GLib main loop, panel actor, settings store, connection
      registry) is modelled only as far as the code calls it. *)

From Stdlib Require Import QArith.
From Stdlib Require Import Ascii String.
From stdpp Require Import base decidable option list functions strings gmap.

Open Scope string_scope.
Open Scope nat_scope.

(** Rational arithmetic stays folded in goals. *)
#[local] Arguments Qmult : simpl never.
#[local] Arguments Qplus : simpl never.
#[local] Arguments Qminus : simpl never.
#[local] Arguments Qopp : simpl never.

(** ** Values *)

(** [Clutter.Color]: four channels. *)
Record Color := RGBA { red : N; green : N; blue : N; alpha : N }.

Definition opaque_black : Color := RGBA 0 0 0 255.

(** [St.Side], as far as the corners use it. *)
Inductive Side := LEFT | RIGHT.

(** [Clutter.ActorBox]. *)
Record ActorBox := { x1 : Q; x2 : Q; y1 : Q; y2 : Q }.

(** The path that [vfunc_repaint] fills: from the origin, an arc (centre,
    radius, and the two angles counted in quarter turns, so that 2 stands for
    pi and 3 for 3 pi / 2), then a line to a point, and back. *)
Record Path := {
  arc_x : Q; arc_y : Q; arc_radius : Q;
  arc_from : nat; arc_to : nat;
  line_x : Q; line_y : Q
}.

(** The three kinds of style value. *)
Inductive Kind := Length | Double | ColorKind.

(** A theme node: [node.lookup_<kind>(prop, inherit)] answers with the array
    [[found, value]]. *)
Record ThemeNode := {
  lookup_length : string -> bool -> bool * Q;
  lookup_double : string -> bool -> bool * Q;
  lookup_color : string -> bool -> bool * Color
}.

(** A key of the settings schema, [key.name]. *)
Record Key := { name : string }.

(** Modelled from the spec: the settings store is outside src/; it "exposes a
    FORCE_EXTENSION_VALUES boolean flag, a DEBUG boolean flag, a collection
    of named properties (lengths, doubles, color strings) addressable by
    name, and a change-notification stream keyed by property name".  Here:
    the two flags, what [get_property(name).get()] answers for the numeric
    and for the string properties, and the keys of the schema. *)
Record Settings := {
  FORCE_EXTENSION_VALUES : bool;
  DEBUG : bool;
  numbers : string -> Q;
  texts : string -> string;
  keys : list Key
}.

(** ** Objects *)

(** The arrow function given to [debounce] in [update_corner]; it captures the
    corner. *)
Inductive Callback := StyleUpdate (corner : nat).

(** The closure state of one [debounce] call: the [timeoutId] cell, the
    callback and the delay. *)
Record Debounced := {
  timeoutId : option nat;
  callback : Callback;
  wait : nat
}.

(** A timeout source of the GLib main loop: its id, the instant it is due and
    the debounced closure whose timer it is. *)
Record Source := { source_id : nat; due : nat; owner : nat }.

(** A [PanelCorner] instance: the private fields of the class and the state
    of the actor that the code writes. *)
Record PanelCorner := {
  side : Side;
  position_changed_id : option nat;
  size_changed_id : option nat;
  cachedRadius : option Q;
  cachedBorderWidth : option Q;
  cachedBackgroundColor : option Color;
  cachedOpacity : option Q;
  natural_width : Q;
  natural_height : Q;
  allocation : option ActorBox;
  translation_y : Q;
  opacity_target : option Q;
  painted : option Color;
  destroyed : bool
}.

(** A handler connected on the panel: its id, the signal, and the corner whose
    [#update_allocation] is bound. *)
Record Handler := { handler_id : nat; signal : string; bound : nat }.

(** [Main.panel]. *)
Record Panel := {
  width : Q;
  height : Q;
  style_pseudo_class : option string;
  children : list nat;
  handlers : list Handler;
  next_handler : nat;
  _leftCorner : option nat;
  _rightCorner : option nat
}.

(** A subscription kept by the connection registry: the signal name and the
    debounced wrapper connected to the settings object. *)
Record Connection := { conn_signal : string; conn_handler : nat }.

(** ** Trace of effects *)

(** What the code does to the host and to its own objects, as far as the
    properties speak of it: calls of the lookups and of the node, writes to
    the settings, the life of a corner (construction, invalidation,
    allocation with a note on whether radius and border width were cached,
    start and end of a style-changed pass, transitions, painting, removal and
    destruction), the timers, and the debug log. *)
Inductive Event :=
| EvLookup (k : Kind) (prop : string)
| EvNativeLookup (k : Kind) (prop : string)
| EvSettingSet (key : string) (value : string)
| EvConstruct (c : nat)
| EvInvalidate (c : nat)
| EvAllocate (c : nat) (filled : bool) (box : ActorBox)
| EvStyleChangedBegin (c : nat)
| EvStyleChangedEnd (c : nat)
| EvRemoveTransition (c : nat)
| EvEase (c : nat) (target : Q) (duration : nat)
| EvPaint (c : nat) (path : Path) (fill : Color)
| EvTimeoutAdd (id : nat) (deadline : nat)
| EvSourceRemove (id : nat)
| EvTimerFired (id : nat)
| EvBindStyle (c : nat)
| EvAddChild (c : nat)
| EvRemoveChild (c : nat)
| EvDisconnect (h : nat)
| EvDestroy (c : nat)
| EvLog (msg : string).

(** ** The world *)

Record World := {
  settings : Settings;
  scale_factor : Q;
  theme_node : option ThemeNode;
  panel : Panel;
  corners : gmap nat PanelCorner;
  next_corner : nat;
  closures : gmap nat Debounced;
  next_closure : nat;
  sources : list Source;
  next_source : nat;
  connections : list Connection;
  debouncedStyleUpdate : option nat;
  now : nat;
  trace : list Event
}.

Definition set_settings (s : Settings) (w : World) : World :=
  {| settings := s; scale_factor := scale_factor w;
     theme_node := theme_node w; panel := panel w; corners := corners w;
     next_corner := next_corner w; closures := closures w;
     next_closure := next_closure w; sources := sources w;
     next_source := next_source w; connections := connections w;
     debouncedStyleUpdate := debouncedStyleUpdate w; now := now w;
     trace := trace w |}.

Definition set_panel (p : Panel) (w : World) : World :=
  {| settings := settings w; scale_factor := scale_factor w;
     theme_node := theme_node w; panel := p; corners := corners w;
     next_corner := next_corner w; closures := closures w;
     next_closure := next_closure w; sources := sources w;
     next_source := next_source w; connections := connections w;
     debouncedStyleUpdate := debouncedStyleUpdate w; now := now w;
     trace := trace w |}.

Definition set_corners (h : gmap nat PanelCorner) (n : nat) (w : World) : World :=
  {| settings := settings w; scale_factor := scale_factor w;
     theme_node := theme_node w; panel := panel w; corners := h;
     next_corner := n; closures := closures w;
     next_closure := next_closure w; sources := sources w;
     next_source := next_source w; connections := connections w;
     debouncedStyleUpdate := debouncedStyleUpdate w; now := now w;
     trace := trace w |}.

Definition set_closures (h : gmap nat Debounced) (n : nat) (w : World) : World :=
  {| settings := settings w; scale_factor := scale_factor w;
     theme_node := theme_node w; panel := panel w; corners := corners w;
     next_corner := next_corner w; closures := h;
     next_closure := n; sources := sources w;
     next_source := next_source w; connections := connections w;
     debouncedStyleUpdate := debouncedStyleUpdate w; now := now w;
     trace := trace w |}.

Definition set_sources (l : list Source) (n : nat) (w : World) : World :=
  {| settings := settings w; scale_factor := scale_factor w;
     theme_node := theme_node w; panel := panel w; corners := corners w;
     next_corner := next_corner w; closures := closures w;
     next_closure := next_closure w; sources := l;
     next_source := n; connections := connections w;
     debouncedStyleUpdate := debouncedStyleUpdate w; now := now w;
     trace := trace w |}.

Definition set_connections (l : list Connection) (w : World) : World :=
  {| settings := settings w; scale_factor := scale_factor w;
     theme_node := theme_node w; panel := panel w; corners := corners w;
     next_corner := next_corner w; closures := closures w;
     next_closure := next_closure w; sources := sources w;
     next_source := next_source w; connections := l;
     debouncedStyleUpdate := debouncedStyleUpdate w; now := now w;
     trace := trace w |}.

Definition set_debouncedStyleUpdate (d : option nat) (w : World) : World :=
  {| settings := settings w; scale_factor := scale_factor w;
     theme_node := theme_node w; panel := panel w; corners := corners w;
     next_corner := next_corner w; closures := closures w;
     next_closure := next_closure w; sources := sources w;
     next_source := next_source w; connections := connections w;
     debouncedStyleUpdate := d; now := now w;
     trace := trace w |}.

Definition set_now (t : nat) (w : World) : World :=
  {| settings := settings w; scale_factor := scale_factor w;
     theme_node := theme_node w; panel := panel w; corners := corners w;
     next_corner := next_corner w; closures := closures w;
     next_closure := next_closure w; sources := sources w;
     next_source := next_source w; connections := connections w;
     debouncedStyleUpdate := debouncedStyleUpdate w; now := t;
     trace := trace w |}.

Definition emit (e : Event) (w : World) : World :=
  {| settings := settings w; scale_factor := scale_factor w;
     theme_node := theme_node w; panel := panel w; corners := corners w;
     next_corner := next_corner w; closures := closures w;
     next_closure := next_closure w; sources := sources w;
     next_source := next_source w; connections := connections w;
     debouncedStyleUpdate := debouncedStyleUpdate w; now := now w;
     trace := e :: trace w |}.


Definition set_theme (node : option ThemeNode) (scale : Q) (w : World)
  : World :=
  {| settings := settings w; scale_factor := scale;
     theme_node := node; panel := panel w; corners := corners w;
     next_corner := next_corner w; closures := closures w;
     next_closure := next_closure w; sources := sources w;
     next_source := next_source w; connections := connections w;
     debouncedStyleUpdate := debouncedStyleUpdate w; now := now w;
     trace := trace w |}.

(** *** Field updates of a corner *)

Definition fresh_corner (s : Side) : PanelCorner :=
  {| side := s; position_changed_id := None; size_changed_id := None;
     cachedRadius := None; cachedBorderWidth := None;
     cachedBackgroundColor := None; cachedOpacity := None;
     natural_width := 0; natural_height := 0; allocation := None;
     translation_y := 0; opacity_target := None; painted := None;
     destroyed := false |}.

Definition set_position_changed_id (i : option nat) (c : PanelCorner)
  : PanelCorner :=
  {| side := side c; position_changed_id := i;
     size_changed_id := size_changed_id c;
     cachedRadius := cachedRadius c; cachedBorderWidth := cachedBorderWidth c;
     cachedBackgroundColor := cachedBackgroundColor c;
     cachedOpacity := cachedOpacity c;
     natural_width := natural_width c; natural_height := natural_height c;
     allocation := allocation c; translation_y := translation_y c;
     opacity_target := opacity_target c; painted := painted c;
     destroyed := destroyed c |}.

Definition set_size_changed_id (i : option nat) (c : PanelCorner)
  : PanelCorner :=
  {| side := side c; position_changed_id := position_changed_id c;
     size_changed_id := i;
     cachedRadius := cachedRadius c; cachedBorderWidth := cachedBorderWidth c;
     cachedBackgroundColor := cachedBackgroundColor c;
     cachedOpacity := cachedOpacity c;
     natural_width := natural_width c; natural_height := natural_height c;
     allocation := allocation c; translation_y := translation_y c;
     opacity_target := opacity_target c; painted := painted c;
     destroyed := destroyed c |}.

Definition set_cachedRadius (v : option Q) (c : PanelCorner) : PanelCorner :=
  {| side := side c; position_changed_id := position_changed_id c;
     size_changed_id := size_changed_id c;
     cachedRadius := v; cachedBorderWidth := cachedBorderWidth c;
     cachedBackgroundColor := cachedBackgroundColor c;
     cachedOpacity := cachedOpacity c;
     natural_width := natural_width c; natural_height := natural_height c;
     allocation := allocation c; translation_y := translation_y c;
     opacity_target := opacity_target c; painted := painted c;
     destroyed := destroyed c |}.

Definition set_cachedBorderWidth (v : option Q) (c : PanelCorner)
  : PanelCorner :=
  {| side := side c; position_changed_id := position_changed_id c;
     size_changed_id := size_changed_id c;
     cachedRadius := cachedRadius c; cachedBorderWidth := v;
     cachedBackgroundColor := cachedBackgroundColor c;
     cachedOpacity := cachedOpacity c;
     natural_width := natural_width c; natural_height := natural_height c;
     allocation := allocation c; translation_y := translation_y c;
     opacity_target := opacity_target c; painted := painted c;
     destroyed := destroyed c |}.

Definition set_cachedBackgroundColor (v : option Color) (c : PanelCorner)
  : PanelCorner :=
  {| side := side c; position_changed_id := position_changed_id c;
     size_changed_id := size_changed_id c;
     cachedRadius := cachedRadius c; cachedBorderWidth := cachedBorderWidth c;
     cachedBackgroundColor := v;
     cachedOpacity := cachedOpacity c;
     natural_width := natural_width c; natural_height := natural_height c;
     allocation := allocation c; translation_y := translation_y c;
     opacity_target := opacity_target c; painted := painted c;
     destroyed := destroyed c |}.

Definition set_cachedOpacity (v : option Q) (c : PanelCorner) : PanelCorner :=
  {| side := side c; position_changed_id := position_changed_id c;
     size_changed_id := size_changed_id c;
     cachedRadius := cachedRadius c; cachedBorderWidth := cachedBorderWidth c;
     cachedBackgroundColor := cachedBackgroundColor c;
     cachedOpacity := v;
     natural_width := natural_width c; natural_height := natural_height c;
     allocation := allocation c; translation_y := translation_y c;
     opacity_target := opacity_target c; painted := painted c;
     destroyed := destroyed c |}.

(** [set_size(width, height)]: fixes the natural size that
    [get_preferred_width] and [get_preferred_height] answer. *)
Definition set_size (nw nh : Q) (c : PanelCorner) : PanelCorner :=
  {| side := side c; position_changed_id := position_changed_id c;
     size_changed_id := size_changed_id c;
     cachedRadius := cachedRadius c; cachedBorderWidth := cachedBorderWidth c;
     cachedBackgroundColor := cachedBackgroundColor c;
     cachedOpacity := cachedOpacity c;
     natural_width := nw; natural_height := nh;
     allocation := allocation c; translation_y := translation_y c;
     opacity_target := opacity_target c; painted := painted c;
     destroyed := destroyed c |}.

(** [allocate(box)]. *)
Definition allocate (box : ActorBox) (c : PanelCorner) : PanelCorner :=
  {| side := side c; position_changed_id := position_changed_id c;
     size_changed_id := size_changed_id c;
     cachedRadius := cachedRadius c; cachedBorderWidth := cachedBorderWidth c;
     cachedBackgroundColor := cachedBackgroundColor c;
     cachedOpacity := cachedOpacity c;
     natural_width := natural_width c; natural_height := natural_height c;
     allocation := Some box; translation_y := translation_y c;
     opacity_target := opacity_target c; painted := painted c;
     destroyed := destroyed c |}.

Definition set_translation_y (ty : Q) (c : PanelCorner) : PanelCorner :=
  {| side := side c; position_changed_id := position_changed_id c;
     size_changed_id := size_changed_id c;
     cachedRadius := cachedRadius c; cachedBorderWidth := cachedBorderWidth c;
     cachedBackgroundColor := cachedBackgroundColor c;
     cachedOpacity := cachedOpacity c;
     natural_width := natural_width c; natural_height := natural_height c;
     allocation := allocation c; translation_y := ty;
     opacity_target := opacity_target c; painted := painted c;
     destroyed := destroyed c |}.

Definition set_opacity_target (t : option Q) (c : PanelCorner)
  : PanelCorner :=
  {| side := side c; position_changed_id := position_changed_id c;
     size_changed_id := size_changed_id c;
     cachedRadius := cachedRadius c; cachedBorderWidth := cachedBorderWidth c;
     cachedBackgroundColor := cachedBackgroundColor c;
     cachedOpacity := cachedOpacity c;
     natural_width := natural_width c; natural_height := natural_height c;
     allocation := allocation c; translation_y := translation_y c;
     opacity_target := t; painted := painted c;
     destroyed := destroyed c |}.

Definition set_painted (fill : Color) (c : PanelCorner) : PanelCorner :=
  {| side := side c; position_changed_id := position_changed_id c;
     size_changed_id := size_changed_id c;
     cachedRadius := cachedRadius c; cachedBorderWidth := cachedBorderWidth c;
     cachedBackgroundColor := cachedBackgroundColor c;
     cachedOpacity := cachedOpacity c;
     natural_width := natural_width c; natural_height := natural_height c;
     allocation := allocation c; translation_y := translation_y c;
     opacity_target := opacity_target c; painted := Some fill;
     destroyed := destroyed c |}.

Definition set_destroyed (c : PanelCorner) : PanelCorner :=
  {| side := side c; position_changed_id := position_changed_id c;
     size_changed_id := size_changed_id c;
     cachedRadius := cachedRadius c; cachedBorderWidth := cachedBorderWidth c;
     cachedBackgroundColor := cachedBackgroundColor c;
     cachedOpacity := cachedOpacity c;
     natural_width := natural_width c; natural_height := natural_height c;
     allocation := allocation c; translation_y := translation_y c;
     opacity_target := opacity_target c; painted := painted c;
     destroyed := true |}.

Definition set_timeoutId (i : option nat) (d : Debounced) : Debounced :=
  {| timeoutId := i; callback := callback d; wait := wait d |}.

(** *** Field updates of the panel *)

Definition set_children (l : list nat) (p : Panel) : Panel :=
  {| width := width p; height := height p;
     style_pseudo_class := style_pseudo_class p;
     children := l; handlers := handlers p; next_handler := next_handler p;
     _leftCorner := _leftCorner p; _rightCorner := _rightCorner p |}.

Definition set_handlers (l : list Handler) (n : nat) (p : Panel) : Panel :=
  {| width := width p; height := height p;
     style_pseudo_class := style_pseudo_class p;
     children := children p; handlers := l; next_handler := n;
     _leftCorner := _leftCorner p; _rightCorner := _rightCorner p |}.

Definition set_leftCorner (c : option nat) (p : Panel) : Panel :=
  {| width := width p; height := height p;
     style_pseudo_class := style_pseudo_class p;
     children := children p; handlers := handlers p;
     next_handler := next_handler p;
     _leftCorner := c; _rightCorner := _rightCorner p |}.

Definition set_rightCorner (c : option nat) (p : Panel) : Panel :=
  {| width := width p; height := height p;
     style_pseudo_class := style_pseudo_class p;
     children := children p; handlers := handlers p;
     next_handler := next_handler p;
     _leftCorner := _leftCorner p; _rightCorner := c |}.

Definition set_geometry (nw nh : Q) (p : Panel) : Panel :=
  {| width := nw; height := nh;
     style_pseudo_class := style_pseudo_class p;
     children := children p; handlers := handlers p;
     next_handler := next_handler p;
     _leftCorner := _leftCorner p; _rightCorner := _rightCorner p |}.

Definition set_style_pseudo_class (pc : option string) (p : Panel) : Panel :=
  {| width := width p; height := height p;
     style_pseudo_class := pc;
     children := children p; handlers := handlers p;
     next_handler := next_handler p;
     _leftCorner := _leftCorner p; _rightCorner := _rightCorner p |}.

(** *** The two stores *)

#[global] Instance PanelCorner_inhabited : Inhabited PanelCorner :=
  populate (fresh_corner LEFT).

#[global] Instance Debounced_inhabited : Inhabited Debounced :=
  populate {| timeoutId := None; callback := StyleUpdate 0; wait := 0 |}.

(** In-place update of the object behind a reference. *)
Definition modify_corner (c : nat) (f : PanelCorner -> PanelCorner)
    (w : World) : World :=
  set_corners (<[c := f (corners w !!! c)]> (corners w)) (next_corner w) w.

Definition modify_closure (d : nat) (f : Debounced -> Debounced)
    (w : World) : World :=
  set_closures (<[d := f (closures w !!! d)]> (closures w)) (next_closure w) w.

Definition modify_panel (f : Panel -> Panel) (w : World) : World :=
  set_panel (f (panel w)) w.

(** ** GLib main loop *)

Definition detach (id : nat) (l : list Source) : list Source :=
  List.filter (fun s => negb (Nat.eqb (source_id s) id)) l.

(** [GLib.timeout_add(priority, delay, function)]: attaches a new source, due
    [delay] milliseconds from now, and answers its id. *)
Definition timeout_add (delay : nat) (d : nat) (w : World) : nat * World :=
  let id := next_source w in
  let src := {| source_id := id; due := now w + delay; owner := d |} in
  (id, emit (EvTimeoutAdd id (now w + delay))
         (set_sources (sources w ++ [src]) (S id) w)).

(** [GLib.source_remove(id)]. *)
Definition source_remove (id : nat) (w : World) : World :=
  emit (EvSourceRemove id)
    (set_sources (detach id (sources w)) (next_source w) w).

(** ** utils.js: debounce *)

Definition SETTINGS_DEBOUNCE_MS : nat := 50.

(** [debounce(callback, wait)]: a fresh closure whose [timeoutId] is [null];
    the result is the reference to the debounced function. *)
Definition debounce (cb : Callback) (delay : nat) (w : World) : nat * World :=
  let d := next_closure w in
  (d, set_closures
        (<[d := {| timeoutId := None; callback := cb; wait := delay |}]>
           (closures w))
        (S d) w).

(** [debounced(...args)]: removes the pending source, if any, and attaches a
    new one whose id it keeps. *)
Definition debounced (d : nat) (w : World) : World :=
  let w := match timeoutId (closures w !!! d) with
           | Some id => source_remove id w
           | None => w
           end in
  let '(id, w) := timeout_add (wait (closures w !!! d)) d w in
  modify_closure d (set_timeoutId (Some id)) w.

(** [debounced.cancel()]. *)
Definition cancel (d : nat) (w : World) : World :=
  match timeoutId (closures w !!! d) with
  | Some id => modify_closure d (set_timeoutId None) (source_remove id w)
  | None => w
  end.

(** ** Settings store and connection registry *)

(** [prop.slice(1)]: the property name without its first character. *)
Definition slice1 (s : string) : string :=
  match s with
  | EmptyString => EmptyString
  | String _ rest => rest
  end.

Definition set_text (key value : string) (s : Settings) : Settings :=
  {| FORCE_EXTENSION_VALUES := FORCE_EXTENSION_VALUES s; DEBUG := DEBUG s;
     numbers := numbers s; texts := <[key := value]> (texts s);
     keys := keys s |}.

(** The user's edit of the store: every value may change, the schema does
    not. *)
Definition edit (s : Settings) (old : Settings) : Settings :=
  {| FORCE_EXTENSION_VALUES := FORCE_EXTENSION_VALUES s; DEBUG := DEBUG s;
     numbers := numbers s; texts := texts s; keys := keys old |}.

(** The settings object emits [changed::<key>]: every wrapper connected under
    that signal is invoked, in connection order. *)
Definition notify_changed (key : string) (w : World) : World :=
  fold_left
    (fun acc c =>
       if String.eqb (conn_signal c) ("changed::" ++ key)
       then debounced (conn_handler c) acc else acc)
    (connections w) w.

(** [settings.get_property(key).set(value)] for a string key: stores the
    value, then the store notifies the change. *)
Definition property_set (key value : string) (w : World) : World :=
  notify_changed key
    (emit (EvSettingSet key value)
       (set_settings (set_text key value (settings w)) w)).

(** Modelled from the spec: the connection registry is outside src/; it
    "tracks arbitrary (object, event-name, callback) subscriptions and exposes
    connect, disconnect_all".  The only object ever given is the settings
    object, so a subscription is the pair of the signal and the wrapper. *)
Definition connect (sig : string) (d : nat) (w : World) : World :=
  set_connections
    (connections w ++ [{| conn_signal := sig; conn_handler := d |}]) w.

Definition disconnect_all (w : World) : World := set_connections [] w.

(** ** JavaScript arrays returned by the native lookups *)

(** [lookup] is either the empty array or [[found, value]]; this is the truth
    value of [lookup[0]]. *)
Definition elt0 {V} (lookup : option (bool * V)) : bool :=
  match lookup with
  | Some (found, _) => found
  | None => false
  end.

(** [lookup[1]]; on the empty array JavaScript answers [undefined], for which
    [dflt] stands (that case is never read: [lookup[0]] is falsy there). *)
Definition elt1 {V} (dflt : V) (lookup : option (bool * V)) : V :=
  match lookup with
  | Some (_, v) => v
  | None => dflt
  end.

(** [node && settings.FORCE_EXTENSION_VALUES.get()], as a truth value. *)
Definition use_extension (node : option ThemeNode) (s : Settings) : bool :=
  match node with
  | Some _ => FORCE_EXTENSION_VALUES s
  | None => false
  end.

(** [let lookup = []; if (use_extension_values) lookup =
    node.lookup_<kind>(prop, false)]. *)
Definition native {V} (k : Kind) (f : ThemeNode -> string -> bool -> bool * V)
    (node : option ThemeNode) (prop : string) (w : World)
  : option (bool * V) * World :=
  if use_extension node (settings w) then
    match node with
    | Some n => (Some (f n prop false), emit (EvNativeLookup k prop) w)
    | None => (None, w)
    end
  else (None, w).

Section Host.

(** [Clutter.color_from_string] (or [Cogl.color_from_string], whichever the
    shell provides): answers [[ok, color]]. *)
Variable color_from_string : string -> bool * Color.

(** [ANIMATION_TIME] of the shell's overview. *)
Variable ANIMATION_TIME : nat.

(** ** utils.js: the three lookups *)

Definition lookup_for_length (node : option ThemeNode) (prop : string)
    (w : World) : Q * World :=
  let w := emit (EvLookup Length prop) w in
  let use_extension_values := use_extension node (settings w) in
  let '(lookup, w) := native Length lookup_length node prop w in
  if use_extension_values || negb (elt0 lookup) then
    let scale := scale_factor w in
    let length := numbers (settings w) (slice1 prop) in
    ((length * scale)%Q, w)
  else (elt1 0%Q lookup, w).

Definition lookup_for_double (node : option ThemeNode) (prop : string)
    (w : World) : Q * World :=
  let w := emit (EvLookup Double prop) w in
  let use_extension_values := use_extension node (settings w) in
  let '(lookup, w) := native Double lookup_double node prop w in
  if use_extension_values || negb (elt0 lookup) then
    (numbers (settings w) (slice1 prop), w)
  else (elt1 0%Q lookup, w).

Definition lookup_for_color (node : option ThemeNode) (prop : string)
    (w : World) : Color * World :=
  let w := emit (EvLookup ColorKind prop) w in
  let use_extension_values := use_extension node (settings w) in
  let '(lookup, w) := native ColorKind lookup_color node prop w in
  if use_extension_values || negb (elt0 lookup) then
    let color_str := texts (settings w) (slice1 prop) in
    let color_parsed := color_from_string color_str in
    if fst color_parsed then (snd color_parsed, w)
    else
      (* could not parse color, defaulting to black *)
      let w := property_set (slice1 prop) "#000000ff" w in
      (snd (color_from_string "#000000ff"), w)
  else (elt1 opaque_black lookup, w).

(** ** PanelCorner *)

(** [Main.panel.connect(signal, this.#update_allocation.bind(this))]; handler
    ids are positive. *)
Definition panel_connect (sig : string) (c : nat) (w : World) : nat * World :=
  let id := S (next_handler (panel w)) in
  (id, modify_panel
         (fun p => set_handlers
            (handlers p ++ [{| handler_id := id; signal := sig; bound := c |}])
            id p) w).

(** [Main.panel.disconnect(id)]. *)
Definition panel_disconnect (id : nat) (w : World) : World :=
  emit (EvDisconnect id)
    (modify_panel
       (fun p => set_handlers
          (List.filter (fun h => negb (Nat.eqb (handler_id h) id))
             (handlers p))
          (next_handler p) p) w).

(** [invalidateCache()]. *)
Definition invalidateCache (c : nat) (w : World) : World :=
  emit (EvInvalidate c)
    (modify_corner c
       (fun o => set_cachedOpacity None
                   (set_cachedBackgroundColor None
                      (set_cachedBorderWidth None
                         (set_cachedRadius None o)))) w).

(** [#getRadius(node)]. *)
Definition getRadius (c : nat) (node : option ThemeNode) (w : World)
  : Q * World :=
  match cachedRadius (corners w !!! c) with
  | None =>
      let '(v, w) := lookup_for_length node "-panel-corner-radius" w in
      (v, modify_corner c (set_cachedRadius (Some v)) w)
  | Some v => (v, w)
  end.

(** [#getBorderWidth(node)]. *)
Definition getBorderWidth (c : nat) (node : option ThemeNode) (w : World)
  : Q * World :=
  match cachedBorderWidth (corners w !!! c) with
  | None =>
      let '(v, w) := lookup_for_length node "-panel-corner-border-width" w in
      (v, modify_corner c (set_cachedBorderWidth (Some v)) w)
  | Some v => (v, w)
  end.

(** [#getBackgroundColor(node)]. *)
Definition getBackgroundColor (c : nat) (node : option ThemeNode) (w : World)
  : Color * World :=
  match cachedBackgroundColor (corners w !!! c) with
  | None =>
      let '(v, w) :=
        lookup_for_color node "-panel-corner-background-color" w in
      (v, modify_corner c (set_cachedBackgroundColor (Some v)) w)
  | Some v => (v, w)
  end.

(** [#getOpacity(node)]. *)
Definition getOpacity (c : nat) (node : option ThemeNode) (w : World)
  : Q * World :=
  match cachedOpacity (corners w !!! c) with
  | None =>
      let '(v, w) := lookup_for_double node "-panel-corner-opacity" w in
      (v, modify_corner c (set_cachedOpacity (Some v)) w)
  | Some v => (v, w)
  end.

(** [remove_connections()], one [if] at a time; a handler id is truthy when
    it is neither [null] nor [0]. *)
Definition disconnect_position (c : nat) (w : World) : World :=
  match position_changed_id (corners w !!! c) with
  | Some (S i) =>
      modify_corner c (set_position_changed_id None)
        (panel_disconnect (S i) w)
  | _ => w
  end.

Definition disconnect_size (c : nat) (w : World) : World :=
  match size_changed_id (corners w !!! c) with
  | Some (S i) =>
      modify_corner c (set_size_changed_id None) (panel_disconnect (S i) w)
  | _ => w
  end.

Definition remove_connections (c : nat) (w : World) : World :=
  disconnect_size c (disconnect_position c w).

(** Whether radius and border width are both cached. *)
Definition geometry_cached (o : PanelCorner) : bool :=
  match cachedRadius o, cachedBorderWidth o with
  | Some _, Some _ => true
  | _, _ => false
  end.

(** The rectangle computed by [#update_allocation()]. *)
Definition childBox (s : Side) (cornerWidth cornerHeight : Q)
    (allocWidth allocHeight : Q) : ActorBox :=
  match s with
  | LEFT => {| x1 := 0; x2 := cornerWidth;
               y1 := allocHeight; y2 := allocHeight + cornerHeight |}
  | RIGHT => {| x1 := allocWidth - cornerWidth; x2 := allocWidth;
                y1 := allocHeight; y2 := allocHeight + cornerHeight |}
  end%Q.

(** [#update_allocation()]: the preferred (natural) size of the element and
    the size of the panel give the box, which is then allocated.  The trace
    entry also notes whether radius and border width were cached then. *)
Definition update_allocation (c : nat) (w : World) : World :=
  let o := corners w !!! c in
  let cornerWidth := natural_width o in
  let cornerHeight := natural_height o in
  let allocWidth := width (panel w) in
  let allocHeight := height (panel w) in
  let box := childBox (side o) cornerWidth cornerHeight
               allocWidth allocHeight in
  emit (EvAllocate c (geometry_cached o) box)
    (modify_corner c (allocate box) w).

(** [new PanelCorner(side, settings)]. *)
Definition new_PanelCorner (s : Side) (w : World) : nat * World :=
  let c := next_corner w in
  let w := emit (EvConstruct c)
             (set_corners (<[c := fresh_corner s]> (corners w)) (S c) w) in
  let '(id, w) := panel_connect "notify::position" c w in
  let w := modify_corner c (set_position_changed_id (Some id)) w in
  let '(id, w) := panel_connect "notify::size" c w in
  let w := modify_corner c (set_size_changed_id (Some id)) w in
  (c, update_allocation c w).

(** Truth value of a string-or-null: [null] and the empty string are falsy. *)
Definition truthy_string (s : option string) : bool :=
  match s with
  | Some (String _ _) => true
  | _ => false
  end.

(** [s.includes(sub)]: [sub] starts at some position of [s]. *)
Fixpoint includes (s sub : string) : bool :=
  String.prefix sub s ||
  match s with
  | EmptyString => false
  | String _ rest => includes rest sub
  end.

(** The test of [vfunc_style_changed]: forcing is on and the panel's pseudo
    class is a non-empty string that includes "overview". *)
Definition in_overview (w : World) : bool :=
  FORCE_EXTENSION_VALUES (settings w) &&
  truthy_string (style_pseudo_class (panel w)) &&
  includes (default "" (style_pseudo_class (panel w))) "overview".

(** The path of [vfunc_repaint()]: a quarter circle from pi to 3 pi / 2
    around [(radius, borderWidth + radius)] on the left, from 3 pi / 2 to
    2 pi around [(0, borderWidth + radius)] on the right, then the line to
    [(radius, 0)]. *)
Definition corner_path (s : Side) (cornerRadius borderWidth : Q) : Path :=
  match s with
  | LEFT => {| arc_x := cornerRadius; arc_y := borderWidth + cornerRadius;
               arc_radius := cornerRadius; arc_from := 2; arc_to := 3;
               line_x := cornerRadius; line_y := 0 |}
  | RIGHT => {| arc_x := 0; arc_y := borderWidth + cornerRadius;
                arc_radius := cornerRadius; arc_from := 3; arc_to := 4;
                line_x := cornerRadius; line_y := 0 |}
  end%Q.

(** [vfunc_repaint()]: the path is filled with the background colour. *)
Definition vfunc_repaint (c : nat) (w : World) : World :=
  let node := theme_node w in
  let '(cornerRadius, w) := getRadius c node w in
  let '(borderWidth, w) := getBorderWidth c node w in
  let '(backgroundColor, w) := getBackgroundColor c node w in
  let path := corner_path (side (corners w !!! c)) cornerRadius borderWidth in
  emit (EvPaint c path backgroundColor)
    (modify_corner c (set_painted backgroundColor) w).

(** [vfunc_style_changed()]. *)
Definition vfunc_style_changed (c : nat) (w : World) : World :=
  let w := emit (EvStyleChangedBegin c) w in
  let w := invalidateCache c w in
  let node := theme_node w in
  let '(cornerRadius, w) := getRadius c node w in
  let '(borderWidth, w) := getBorderWidth c node w in
  let '(opacity, w) := getOpacity c node w in
  let opacity := if in_overview w then 0%Q else opacity in
  let w := update_allocation c w in
  let w := modify_corner c
             (set_size cornerRadius (borderWidth + cornerRadius)%Q) w in
  let w := modify_corner c (set_translation_y (- borderWidth)%Q) w in
  let w := emit (EvRemoveTransition c) w in
  let w := emit (EvEase c (opacity * 255)%Q ANIMATION_TIME)
             (modify_corner c (set_opacity_target (Some (opacity * 255)%Q))
                w) in
  emit (EvStyleChangedEnd c) w.

(** [destroy()] of the actor. *)
Definition destroy (c : nat) (w : World) : World :=
  emit (EvDestroy c) (modify_corner c set_destroyed w).

(** ** Timers firing *)

(** The body of the arrow function of [update_corner]. *)
Definition run_callback (cb : Callback) (w : World) : World :=
  match cb with
  | StyleUpdate corner => vfunc_style_changed corner (invalidateCache corner w)
  end.

(** The function given to [GLib.timeout_add] by the debounced wrapper [d]:
    clears [timeoutId], applies the callback, answers [SOURCE_REMOVE]. *)
Definition timeout_expired (d : nat) (w : World) : World :=
  let w := modify_closure d (set_timeoutId None) w in
  run_callback (callback (closures w !!! d)) w.

Definition attached (id : nat) (w : World) : bool :=
  existsb (fun s => Nat.eqb (source_id s) id) (sources w).

(** One source is dispatched if it is still attached; as its function answers
    [SOURCE_REMOVE], the main loop then detaches it. *)
Definition dispatch_source (s : Source) (w : World) : World :=
  if attached (source_id s) w then
    let w := timeout_expired (owner s) (emit (EvTimerFired (source_id s)) w) in
    set_sources (detach (source_id s) (sources w)) (next_source w) w
  else w.

(** One iteration of the main loop: the sources that are due are dispatched
    in the order in which they were attached. *)
Definition dispatch (w : World) : World :=
  fold_left (fun acc s => dispatch_source s acc)
    (List.filter (fun s => Nat.leb (due s) (now w)) (sources w)) w.

(** [ms] milliseconds pass. *)
Fixpoint advance (ms : nat) (w : World) : World :=
  match ms with
  | O => w
  | S k => advance k (dispatch (set_now (S (now w)) w))
  end.

(** ** PanelCorners *)

(** [#log(str)]. *)
Definition log (str : string) (w : World) : World :=
  if DEBUG (settings w) then emit (EvLog ("[Panel corners] " ++ str)) w
  else w.

(** [Main.panel.add_child(corner)] and [Main.panel.remove_child(corner)]. *)
Definition add_child (c : nat) (w : World) : World :=
  emit (EvAddChild c)
    (modify_panel (fun p => set_children (children p ++ [c]) p) w).

Definition remove_child (c : nat) (w : World) : World :=
  emit (EvRemoveChild c)
    (modify_panel
       (fun p => set_children
          (List.filter (fun c' => negb (Nat.eqb c' c)) (children p)) p) w).

(** [remove_corner(corner)]. *)
Definition remove_corner (corner : nat) (w : World) : World :=
  let w := remove_connections corner w in
  let w := remove_child corner w in
  destroy corner w.

(** [remove()], one statement at a time. *)
Definition cancel_pending (w : World) : World :=
  match debouncedStyleUpdate w with
  | Some d => set_debouncedStyleUpdate None (cancel d w)
  | None => w
  end.

Definition remove_left (w : World) : World :=
  match _leftCorner (panel w) with
  | Some corner =>
      modify_panel (set_leftCorner None) (remove_corner corner w)
  | None => w
  end.

Definition remove_right (w : World) : World :=
  match _rightCorner (panel w) with
  | Some corner =>
      modify_panel (set_rightCorner None) (remove_corner corner w)
  | None => w
  end.

Definition remove (w : World) : World :=
  remove_right (remove_left (disconnect_all (cancel_pending w))).

(** [update_corner(corner)]. *)
Definition update_corner (corner : nat) (w : World) : World :=
  let w := emit (EvBindStyle corner) w in
  let w := add_child corner w in
  let w := vfunc_style_changed corner w in
  let '(d, w) := debounce (StyleUpdate corner) SETTINGS_DEBOUNCE_MS w in
  let w := set_debouncedStyleUpdate (Some d) w in
  fold_left
    (fun acc key => connect ("changed::" ++ name key) d acc)
    (keys (settings w)) w.

(** [update()]. *)
Definition update (w : World) : World :=
  let w := log "updating panel corners..." w in
  let w := remove w in
  let '(l, w) := new_PanelCorner LEFT w in
  let w := modify_panel (set_leftCorner (Some l)) w in
  let '(r, w) := new_PanelCorner RIGHT w in
  let w := modify_panel (set_rightCorner (Some r)) w in
  let w := update_corner l w in
  let w := update_corner r w in
  log "corners updated." w.

(** ** The shell around the extension *)

(** What can happen to a running extension: calls of the controller's two
    public methods, and what the host does on its own. *)
Inductive Action :=
| Update
| Remove
| Edit (store : Settings) (key : string)
| PanelNotify (sig : string) (new_width new_height : Q)
| PseudoClass (pc : option string)
| Theme (node : option ThemeNode) (scale : Q)
| StyleChanged (c : nat)
| Repaint (c : nat)
| Elapse (ms : nat).

(** The panel emits [sig]: the bound [#update_allocation] of every handler
    connected under it runs, in connection order. *)
Definition panel_emit (sig : string) (w : World) : World :=
  fold_left
    (fun acc h =>
       if String.eqb (signal h) sig then update_allocation (bound h) acc
       else acc)
    (handlers (panel w)) w.

Definition is_child (c : nat) (w : World) : bool :=
  existsb (Nat.eqb c) (children (panel w)).

Definition step (w : World) (a : Action) : World :=
  match a with
  | Update => update w
  | Remove => remove w
  | Edit s key =>
      notify_changed key (set_settings (edit s (settings w)) w)
  | PanelNotify sig nw nh =>
      panel_emit sig (modify_panel (set_geometry nw nh) w)
  | PseudoClass pc => modify_panel (set_style_pseudo_class pc) w
  | Theme node scale => set_theme node scale w
  | StyleChanged c => if is_child c w then vfunc_style_changed c w else w
  | Repaint c => if is_child c w then vfunc_repaint c w else w
  | Elapse ms => advance ms w
  end.

Definition run (acts : list Action) (w : World) : World :=
  fold_left step acts w.

(** The shell before the extension has done anything: a panel without
    corners, no closure, no timer, no subscription. *)
Definition initial (s : Settings) (scale : Q) (node : option ThemeNode)
    (panel_width panel_height : Q) (pc : option string) : World :=
  {| settings := s; scale_factor := scale; theme_node := node;
     panel := {| width := panel_width; height := panel_height;
                 style_pseudo_class := pc; children := [];
                 handlers := []; next_handler := 0;
                 _leftCorner := None; _rightCorner := None |};
     corners := ∅; next_corner := 0;
     closures := ∅; next_closure := 0;
     sources := []; next_source := 1;
     connections := []; debouncedStyleUpdate := None; now := 0;
     trace := [] |}.

End Host.

(** ** A concrete host *)

(** A parser for the [#rrggbbaa] notation, the one notation the code itself
    writes; every other string is rejected. *)
Definition hex_digit (a : ascii) : option N :=
  let n := N_of_ascii a in
  if (48 <=? n)%N && (n <=? 57)%N then Some (n - 48)%N
  else if (97 <=? n)%N && (n <=? 102)%N then Some (n - 87)%N
  else if (65 <=? n)%N && (n <=? 70)%N then Some (n - 55)%N
  else None.

Definition hex_byte (a b : ascii) : option N :=
  match hex_digit a, hex_digit b with
  | Some h, Some l => Some (16 * h + l)%N
  | _, _ => None
  end.

Definition hex_color_from_string (s : string) : bool * Color :=
  match s with
  | String "#" (String r1 (String r2 (String g1 (String g2
      (String b1 (String b2 (String a1 (String a2 EmptyString)))))))) =>
      match hex_byte r1 r2, hex_byte g1 g2, hex_byte b1 b2, hex_byte a1 a2 with
      | Some r, Some g, Some b, Some a => (true, RGBA r g b a)
      | _, _, _, _ => (false, RGBA 0 0 0 0)
      end
  | _ => (false, RGBA 0 0 0 0)
  end.

(** Settings with the given flag, radius, border width and colour string, and
    a theme that answers every lookup. *)
Definition demo_settings (force : bool) (radius border : Q) (color : string)
  : Settings :=
  {| FORCE_EXTENSION_VALUES := force; DEBUG := false;
     numbers := fun k =>
       if String.eqb k "panel-corner-radius" then radius
       else if String.eqb k "panel-corner-border-width" then border
       else if String.eqb k "panel-corner-opacity" then 1%Q
       else 0%Q;
     texts := fun _ => color;
     keys := [ {| name := "panel-corner-radius" |};
               {| name := "panel-corner-border-width" |};
               {| name := "panel-corner-background-color" |};
               {| name := "panel-corner-opacity" |};
               {| name := "force-extension-values" |} ] |}.

Definition demo_theme : ThemeNode :=
  {| lookup_length := fun _ _ => (true, 7%Q);
     lookup_double := fun _ _ => (true, (1 # 2)%Q);
     lookup_color := fun _ _ => (true, RGBA 255 255 255 255) |}.

Definition demo_world (force : bool) (radius border : Q) (color : string)
    (pc : option string) : World :=
  initial (demo_settings force radius border color) 1%Q (Some demo_theme)
    1000%Q 40%Q pc.

(** * Derived notions

    Closed forms and observations used to state and prove the properties;
    none of them belongs to the source. *)

(** Several trace entries at once, newest first. *)
Definition log_events (l : list Event) (w : World) : World :=
  {| settings := settings w; scale_factor := scale_factor w;
     theme_node := theme_node w; panel := panel w; corners := corners w;
     next_corner := next_corner w; closures := closures w;
     next_closure := next_closure w; sources := sources w;
     next_source := next_source w; connections := connections w;
     debouncedStyleUpdate := debouncedStyleUpdate w; now := now w;
     trace := l ++ trace w |}.

(** The trace entries of one lookup: the call itself and, when forcing is on
    and there is a node, the native lookup. *)
Definition lookup_events (k : Kind) (node : option ThemeNode) (prop : string)
    (s : Settings) : list Event :=
  if use_extension node s then [EvNativeLookup k prop; EvLookup k prop]
  else [EvLookup k prop].

(** What a style-changed pass resolves from the settings. *)
Definition radius_of (w : World) : Q :=
  (numbers (settings w) "panel-corner-radius" * scale_factor w)%Q.

Definition border_width_of (w : World) : Q :=
  (numbers (settings w) "panel-corner-border-width" * scale_factor w)%Q.

Definition opacity_of (w : World) : Q :=
  numbers (settings w) "panel-corner-opacity".

Definition ease_target (w : World) : Q :=
  ((if in_overview w then 0 else opacity_of w) * 255)%Q.

(** The box that [#update_allocation()] gives the corner [c] in [w]. *)
Definition box_of (c : nat) (w : World) : ActorBox :=
  let o := corners w !!! c in
  childBox (side o) (natural_width o) (natural_height o)
    (width (panel w)) (height (panel w)).

(** The corner after a style-changed pass. *)
Definition styled (c : nat) (w : World) (o : PanelCorner) : PanelCorner :=
  set_opacity_target (Some (ease_target w))
    (set_translation_y (- border_width_of w)%Q
       (set_size (radius_of w) (border_width_of w + radius_of w)%Q
          (allocate (box_of c w)
             (set_cachedOpacity (Some (opacity_of w))
                (set_cachedBorderWidth (Some (border_width_of w))
                   (set_cachedRadius (Some (radius_of w))
                      (set_cachedOpacity None
                         (set_cachedBackgroundColor None
                            (set_cachedBorderWidth None
                               (set_cachedRadius None o)))))))))).

(** The trace of a style-changed pass, newest first. *)
Definition style_events (duration : nat) (c : nat) (w : World)
  : list Event :=
  [EvStyleChangedEnd c; EvEase c (ease_target w) duration;
   EvRemoveTransition c; EvAllocate c true (box_of c w)] ++
  lookup_events Double (theme_node w) "-panel-corner-opacity" (settings w) ++
  lookup_events Length (theme_node w) "-panel-corner-border-width"
    (settings w) ++
  lookup_events Length (theme_node w) "-panel-corner-radius" (settings w) ++
  [EvInvalidate c; EvStyleChangedBegin c].

(** The condition of the overview claim, in its words: forcing is enabled and
    the panel's pseudo class is a string that contains "overview". *)
Definition forced_overview (w : World) : bool :=
  FORCE_EXTENSION_VALUES (settings w) &&
  match style_pseudo_class (panel w) with
  | Some s => includes s "overview"
  | None => false
  end.

(** Trace entries of the timer bookkeeping. *)
Definition timer_event (e : Event) : bool :=
  match e with
  | EvTimeoutAdd _ _ | EvSourceRemove _ => true
  | _ => false
  end.

(** [w'] differs from [w] at most in the timers (sources, closure cells) and
    by timer entries in the trace. *)
Definition timers_only (w w' : World) : Prop :=
  settings w' = settings w /\ scale_factor w' = scale_factor w /\
  theme_node w' = theme_node w /\ panel w' = panel w /\
  corners w' = corners w /\ next_corner w' = next_corner w /\
  connections w' = connections w /\
  debouncedStyleUpdate w' = debouncedStyleUpdate w /\ now w' = now w /\
  next_closure w' = next_closure w /\
  exists seg : list Event, trace w' = (seg ++ trace w)%list /\
              Forall (fun e => timer_event e = true) seg.

(** The four cached fields, a value of either type, and the getter of a
    field. *)
Inductive Field := Radius | BorderWidth | BackgroundColor | Opacity.

Inductive Value := Number (q : Q) | Colour (c : Color).

#[global] Instance Field_eq_dec : EqDecision Field.
Proof. solve_decision. Defined.

Definition getter (cfs : string -> bool * Color) (f : Field) (c : nat)
    (node : option ThemeNode) (w : World) : Value * World :=
  match f with
  | Radius => let '(v, w) := getRadius c node w in (Number v, w)
  | BorderWidth => let '(v, w) := getBorderWidth c node w in (Number v, w)
  | BackgroundColor =>
      let '(v, w) := getBackgroundColor cfs c node w in (Colour v, w)
  | Opacity => let '(v, w) := getOpacity c node w in (Number v, w)
  end.

(** The cached value of a field, if any. *)
Definition cached (f : Field) (o : PanelCorner) : option Value :=
  match f with
  | Radius => Number <$> cachedRadius o
  | BorderWidth => Number <$> cachedBorderWidth o
  | BackgroundColor => Colour <$> cachedBackgroundColor o
  | Opacity => Number <$> cachedOpacity o
  end.

(** The trace entry of the lookup behind a field. *)
Definition is_lookup (f : Field) (e : Event) : bool :=
  match f, e with
  | Radius, EvLookup Length p => String.eqb p "-panel-corner-radius"
  | BorderWidth, EvLookup Length p =>
      String.eqb p "-panel-corner-border-width"
  | BackgroundColor, EvLookup ColorKind p =>
      String.eqb p "-panel-corner-background-color"
  | Opacity, EvLookup Double p => String.eqb p "-panel-corner-opacity"
  | _, _ => false
  end.

Definition lookups (f : Field) (tr : list Event) : nat :=
  length (List.filter (is_lookup f) tr).

(** What may happen between two invalidations: a getter is called on the
    corner with some node, or the settings and the scale change under it. *)
Inductive Access :=
| Get (f : Field) (node : option ThemeNode)
| Change (s : Settings) (scale : Q).

(** A sequence of accesses to the corner [c]; the values returned for the
    field [f] are collected, oldest first. *)
Fixpoint accesses (cfs : string -> bool * Color) (c : nat) (f : Field)
    (l : list Access) (w : World) : list Value * World :=
  match l with
  | [] => ([], w)
  | Get g node :: rest =>
      let '(v, w) := getter cfs g c node w in
      let '(vs, w) := accesses cfs c f rest w in
      (if decide (g = f) then v :: vs else vs, w)
  | Change s scale :: rest =>
      accesses cfs c f rest
        (set_theme (theme_node w) scale (set_settings s w))
  end.

(** The value that the lookup behind a field answers in [w]. *)
Definition fresh (cfs : string -> bool * Color) (f : Field)
    (node : option ThemeNode) (w : World) : Value :=
  match f with
  | Radius =>
      Number (fst (lookup_for_length node "-panel-corner-radius" w))
  | BorderWidth =>
      Number (fst (lookup_for_length node "-panel-corner-border-width" w))
  | BackgroundColor =>
      Colour (fst (lookup_for_color cfs node
                     "-panel-corner-background-color" w))
  | Opacity =>
      Number (fst (lookup_for_double node "-panel-corner-opacity" w))
  end.

(** Whether an access is a call of the getter of [f]. *)
Definition reads (f : Field) (a : Access) : bool :=
  match a with
  | Get g _ => bool_decide (g = f)
  | Change _ _ => false
  end.

(** The number of writes to the settings recorded in a trace. *)
Definition writes (tr : list Event) : nat :=
  length (List.filter
            (fun e => match e with EvSettingSet _ _ => true | _ => false end)
            tr).

(** The wrappers that the settings object invokes for [changed::<key>], in
    order. *)
Definition targets (key : string) (l : list Connection) : list nat :=
  map conn_handler
    (List.filter
       (fun c => String.eqb (conn_signal c) ("changed::" ++ key)) l).

(** The subscriptions that [update_corner] makes for the wrapper [d]. *)
Definition subscribe (d : nat) (ks : list Key) : list Connection :=
  map (fun k => {| conn_signal := "changed::" ++ name k;
                   conn_handler := d |}) ks.

(** The sources that do not belong to the wrapper [d]. *)
Definition others (d : nat) (l : list Source) : list Source :=
  List.filter (fun s => negb (Nat.eqb (owner s) d)) l.

(** Source ids are handed out in increasing order. *)
Definition fresh_ids (w : World) : Prop :=
  Forall (fun s => source_id s < next_source w) (sources w).

(** The [timeoutId] cell of the wrapper [d] names its pending source, if it
    has one, and it has no other. *)
Definition tidy (d : nat) (w : World) : Prop :=
  match timeoutId (closures w !!! d) with
  | Some a => a < next_source w /\
              detach a (sources w) = others d (sources w)
  | None => others d (sources w) = sources w
  end.

(** [w'] has the timers, the clock, the settings and the subscriptions of
    [w]. *)
Definition same_timers (w w' : World) : Prop :=
  closures w' = closures w /\ next_closure w' = next_closure w /\
  sources w' = sources w /\ next_source w' = next_source w /\
  now w' = now w /\ settings w' = settings w /\
  connections w' = connections w.

(** The controller is wired for the corners [l] and [r]: each has its
    debounced wrapper ([dL], [dR]), subscribed to every key, and the timers
    are in order. *)
Definition wired (dL dR l r : nat) (ks : list Key) (w : World) : Prop :=
  dL <> dR /\
  callback (closures w !!! dL) = StyleUpdate l /\
  wait (closures w !!! dL) = SETTINGS_DEBOUNCE_MS /\
  callback (closures w !!! dR) = StyleUpdate r /\
  wait (closures w !!! dR) = SETTINGS_DEBOUNCE_MS /\
  connections w = (subscribe dL ks ++ subscribe dR ks)%list /\
  fresh_ids w /\ tidy dL w /\ tidy dR w /\
  Forall (fun s => owner s = dL \/ owner s = dR) (sources w).

(** Both wrappers have a timer pending, due at [t]. *)
Definition armed (dL dR : nat) (t : nat) (w : World) : Prop :=
  exists a b,
    sources w = [ {| source_id := a; due := t; owner := dL |};
                  {| source_id := b; due := t; owner := dR |} ] /\
    timeoutId (closures w !!! dL) = Some a /\
    timeoutId (closures w !!! dR) = Some b.

(** Counting trace entries. *)
Definition tally (p : Event -> bool) (tr : list Event) : nat :=
  length (List.filter p tr).

Definition is_fired (e : Event) : bool :=
  match e with EvTimerFired _ => true | _ => false end.

Definition is_invalidate (c : nat) (e : Event) : bool :=
  match e with EvInvalidate c' => Nat.eqb c' c | _ => false end.

Definition is_style_pass (c : nat) (e : Event) : bool :=
  match e with EvStyleChangedEnd c' => Nat.eqb c' c | _ => false end.

(** Timers fired, calls of [invalidateCache] on the corner [c], and completed
    style-changed passes of [c], as recorded in a trace. *)
Definition fired (tr : list Event) : nat := tally is_fired tr.

Definition invalidations (c : nat) (tr : list Event) : nat :=
  tally (is_invalidate c) tr.

Definition style_passes (c : nat) (tr : list Event) : nat :=
  tally (is_style_pass c) tr.

(** A burst of settings changes: before each change some time passes (the
    gap); the change replaces the stored values and notifies a key. *)
Definition burst_actions (b : list (nat * Settings * string)) : list Action :=
  flat_map (fun '(gap, s, key) => [Elapse gap; Edit s key]) b.

(** Every gap is shorter than the debounce delay and every key is one of the
    schema. *)
Definition within_window (ks : list Key) (b : list (nat * Settings * string))
  : Prop :=
  Forall (fun '(gap, _, key) =>
            gap < SETTINGS_DEBOUNCE_MS /\ In key (map name ks)) b.

(** Trace entries of a given corner. *)
Definition is_allocate (e : Event) : bool :=
  match e with EvAllocate _ _ _ => true | _ => false end.

Definition is_begin (c : nat) (e : Event) : bool :=
  match e with EvStyleChangedBegin c' => Nat.eqb c' c | _ => false end.

(** The claim about allocation, as stated: every allocation of a corner has
    a completed style-changed pass of that corner before it (the trace is
    newest first, so before means further down the list). *)
Fixpoint after_style_pass (tr : list Event) : bool :=
  match tr with
  | [] => true
  | EvAllocate c _ _ :: older =>
      existsb (is_style_pass c) older && after_style_pass older
  | _ :: older => after_style_pass older
  end.

(** An allocation is in order if it is the one made by the constructor (the
    entry just before it is the construction of that corner), or if a
    style-changed pass of the corner has started before it and radius and
    border width were cached when it ran. *)
Definition allocation_in_order (c : nat) (filled : bool)
    (older : list Event) : bool :=
  match older with
  | EvConstruct c' :: _ => Nat.eqb c' c
  | _ => false
  end || (filled && existsb (is_begin c) older).

Fixpoint allocations_in_order (tr : list Event) : bool :=
  match tr with
  | [] => true
  | EvAllocate c filled _ :: older =>
      allocation_in_order c filled older && allocations_in_order older
  | _ :: older => allocations_in_order older
  end.

(** A piece of trace that keeps the allocations in order whatever came
    before. *)
Definition segment_ok (seg : list Event) : Prop :=
  forall older : list Event,
    allocations_in_order older = true ->
    allocations_in_order (seg ++ older) = true.

(** The handlers on the panel only ever run on corners that have been
    styled. *)
Definition handlers_styled (w : World) : Prop :=
  Forall (fun h =>
            bound h < next_corner w /\
            geometry_cached (corners w !!! bound h) = true /\
            existsb (is_begin (bound h)) (trace w) = true)
    (handlers (panel w)).

Definition in_order (w : World) : Prop :=
  allocations_in_order (trace w) = true /\ handlers_styled w.

(** From [w] to [w']: no handler is added, no corner is created, no corner
    loses its cached geometry, and the trace grows by a piece that keeps the
    allocations in order. *)
Definition grows (w w' : World) : Prop :=
  (forall h, In h (handlers (panel w')) -> In h (handlers (panel w))) /\
  next_corner w' = next_corner w /\
  (forall c, geometry_cached (corners w !!! c) = true ->
             geometry_cached (corners w' !!! c) = true) /\
  exists seg : list Event,
    trace w' = (seg ++ trace w)%list /\ segment_ok seg.

(** Handler ids on the panel are handed out in increasing order. *)
Definition handlers_fresh (w : World) : Prop :=
  Forall (fun h => handler_id h <= next_handler (panel w)) (handlers (panel w)).

(** Truth value of a handler id: [null] and [0] are falsy. *)
Definition truthy_id (i : option nat) : bool :=
  match i with
  | Some (S _) => true
  | _ => false
  end.

(** [remove_connections()] and [remove_corner()] in closed form: a handler
    is taken off the panel if its id is truthy, and the id is then cleared. *)
Definition without_handler (i : option nat) (l : list Handler)
  : list Handler :=
  match i with
  | Some (S k) =>
      List.filter (fun h => negb (Nat.eqb (handler_id h) (S k))) l
  | _ => l
  end.

Definition disconnect_events (i : option nat) : list Event :=
  match i with
  | Some (S k) => [EvDisconnect (S k)]
  | _ => []
  end.

Definition cleared (i : option nat) : option nat :=
  match i with
  | Some (S _) => None
  | _ => i
  end.

(** The corner and the panel after [remove_corner(corner)]. *)
Definition removed (o : PanelCorner) : PanelCorner :=
  {| side := side o;
     position_changed_id := cleared (position_changed_id o);
     size_changed_id := cleared (size_changed_id o);
     cachedRadius := cachedRadius o; cachedBorderWidth := cachedBorderWidth o;
     cachedBackgroundColor := cachedBackgroundColor o;
     cachedOpacity := cachedOpacity o;
     natural_width := natural_width o; natural_height := natural_height o;
     allocation := allocation o; translation_y := translation_y o;
     opacity_target := opacity_target o; painted := painted o;
     destroyed := true |}.

Definition panel_without (c : nat) (o : PanelCorner) (p : Panel) : Panel :=
  {| width := width p; height := height p;
     style_pseudo_class := style_pseudo_class p;
     children := List.filter (fun c' => negb (Nat.eqb c' c)) (children p);
     handlers :=
       without_handler (size_changed_id o)
         (without_handler (position_changed_id o) (handlers p));
     next_handler := next_handler p;
     _leftCorner := _leftCorner p; _rightCorner := _rightCorner p |}.

(** The corner that the constructor makes, and the panel with its two
    handlers. *)
Definition constructed (s : Side) (n : nat) (p : Panel) : PanelCorner :=
  allocate (childBox s 0 0 (width p) (height p))
    (set_size_changed_id (Some (S (S n)))
       (set_position_changed_id (Some (S n)) (fresh_corner s))).

Definition panel_with (c : nat) (p : Panel) : Panel :=
  set_handlers
    (handlers p ++
     [ {| handler_id := S (next_handler p); signal := "notify::position";
          bound := c |};
       {| handler_id := S (S (next_handler p)); signal := "notify::size";
          bound := c |} ])
    (S (S (next_handler p))) p.

(** The corners that the panel refers to by [_leftCorner] and
    [_rightCorner]. *)
Definition current (w : World) : list nat :=
  option_list (_leftCorner (panel w)) ++ option_list (_rightCorner (panel w)).

(** The two handlers of a corner, as its handler ids name them. *)
Definition own_handlers (w : World) (c : nat) : list Handler :=
  match position_changed_id (corners w !!! c),
        size_changed_id (corners w !!! c) with
  | Some a, Some b =>
      [ {| handler_id := a; signal := "notify::position"; bound := c |};
        {| handler_id := b; signal := "notify::size"; bound := c |} ]
  | _, _ => []
  end.

(** What makes a corner the actor it is: its side, its two handler ids and
    whether it has been destroyed. *)
Definition identity_of (o : PanelCorner)
  : Side * option nat * option nat * bool :=
  (side o, position_changed_id o, size_changed_id o, destroyed o).

(** From [w] to [w']: the panel has the children, the handlers and the corner
    references it had, no corner is created, and every corner keeps its
    identity. *)
Definition keeps (w w' : World) : Prop :=
  children (panel w') = children (panel w) /\
  handlers (panel w') = handlers (panel w) /\
  _leftCorner (panel w') = _leftCorner (panel w) /\
  _rightCorner (panel w') = _rightCorner (panel w) /\
  next_corner w' = next_corner w /\
  forall c, identity_of (corners w' !!! c) = identity_of (corners w !!! c).

(** The panel holds exactly the corners it refers to: none, or a left and a
    right one made by the same [update()], each with its two handlers; every
    other corner ever made has been destroyed. *)
Definition settled (w : World) : Prop :=
  (forall c, c < next_corner w ->
     destroyed (corners w !!! c) = negb (existsb (Nat.eqb c) (current w))) /\
  ((_leftCorner (panel w) = None /\ _rightCorner (panel w) = None /\
    children (panel w) = [] /\ handlers (panel w) = []) \/
   exists l n,
     _leftCorner (panel w) = Some l /\ _rightCorner (panel w) = Some (S l) /\
     S l < next_corner w /\
     children (panel w) = [l; S l] /\
     handlers (panel w) =
       [ {| handler_id := S n; signal := "notify::position"; bound := l |};
         {| handler_id := S (S n); signal := "notify::size"; bound := l |};
         {| handler_id := S (S (S n)); signal := "notify::position";
            bound := S l |};
         {| handler_id := S (S (S (S n))); signal := "notify::size";
            bound := S l |} ] /\
     identity_of (corners w !!! l) =
       (LEFT, Some (S n), Some (S (S n)), false) /\
     identity_of (corners w !!! S l) =
       (RIGHT, Some (S (S (S n))), Some (S (S (S (S n)))), false)).

(** The sources that belong to the wrapper [d]. *)
Definition mine (d : nat) (l : list Source) : list Source :=
  List.filter (fun s => Nat.eqb (owner s) d) l.

(** The pending sources of the wrapper [d] are exactly the one that its
    [timeoutId] cell names: none when the cell is [null]. *)
Definition linked (d : nat) (w : World) : Prop :=
  map source_id (mine d (sources w)) =
  option_list (timeoutId (closures w !!! d)).

(** The timers are in order: ids are fresh, every wrapper's cell agrees with
    its pending source, no wrapper that is yet to be made has a cell set, and
    the subscriptions only name wrappers that have been made. *)
Definition timers_ok (w : World) : Prop :=
  fresh_ids w /\
  (forall d, tidy d w /\ linked d w) /\
  (forall d, next_closure w <= d -> timeoutId (closures w !!! d) = None) /\
  Forall (fun c => conn_handler c < next_closure w) (connections w).

(** [w'] has the wrappers, the timers and the subscriptions of [w]. *)
Definition same_sources (w w' : World) : Prop :=
  closures w' = closures w /\ next_closure w' = next_closure w /\
  sources w' = sources w /\ next_source w' = next_source w /\
  connections w' = connections w.

(** [w'] resolves the styles as [w] does: same settings, scale and theme
    node, same geometry and pseudo class of the panel. *)
Definition same_style (w w' : World) : Prop :=
  settings w' = settings w /\ scale_factor w' = scale_factor w /\
  theme_node w' = theme_node w /\
  width (panel w') = width (panel w) /\
  height (panel w') = height (panel w) /\
  style_pseudo_class (panel w') = style_pseudo_class (panel w).

(** A corner of side [s] that has been styled for the world [w] and is on
    show: radius, border width and opacity are cached as [w] resolves them,
    the colour is not, size, translation and opacity target are set from
    them, and the corner is not destroyed. *)
Definition fitted (s : Side) (w : World) (o : PanelCorner) : Prop :=
  side o = s /\
  cachedRadius o = Some (radius_of w) /\
  cachedBorderWidth o = Some (border_width_of w) /\
  cachedOpacity o = Some (opacity_of w) /\
  cachedBackgroundColor o = None /\
  natural_width o = radius_of w /\
  natural_height o = (border_width_of w + radius_of w)%Q /\
  translation_y o = (- border_width_of w)%Q /\
  opacity_target o = Some (ease_target w) /\
  destroyed o = false.

(** From [w] to [w'] the trace grows by entries that all satisfy [P]. *)
Definition emits (P : Event -> bool) (w w' : World) : Prop :=
  exists seg : list Event,
    trace w' = (seg ++ trace w)%list /\ Forall (fun e => P e = true) seg.

(** Kinds of trace entries. *)
Definition is_source_remove (e : Event) : bool :=
  match e with EvSourceRemove _ => true | _ => false end.

Definition is_log (e : Event) : bool :=
  match e with EvLog _ => true | _ => false end.

(** What taking a corner off the panel consists of. *)
Definition corner_removal_event (e : Event) : bool :=
  match e with
  | EvDisconnect _ | EvRemoveChild _ | EvDestroy _ => true
  | _ => false
  end.

(** What [remove()] may do: cancel a timer and take corners off the panel. *)
Definition removal_event (e : Event) : bool :=
  is_source_remove e || corner_removal_event e.

(** What [update()] never does: it starts and fires no timer, writes no
    setting, and paints nothing; its log entries are counted apart. *)
Definition update_event (e : Event) : bool :=
  match e with
  | EvTimeoutAdd _ _ | EvTimerFired _ | EvSettingSet _ _ | EvPaint _ _ _
  | EvLog _ => false
  | _ => true
  end.

(** The trace entry of [#log(str)], if debugging is on. *)
Definition log_entry (s : Settings) (str : string) : list Event :=
  if DEBUG s then [EvLog ("[Panel corners] " ++ str)] else [].

(** The corner that the callback of the wrapper [d] captures, and the corner
    that the timer [s] restyles when it fires. *)
Definition wrapper_corner (w : World) (d : nat) : nat :=
  match callback (closures w !!! d) with
  | StyleUpdate c => c
  end.

Definition target_corner (w : World) (s : Source) : nat :=
  wrapper_corner w (owner s).

(** The timers pending for the corner [c]. *)
Definition timers_of (c : nat) (w : World) : list Source :=
  List.filter (fun s => Nat.eqb (target_corner w s) c) (sources w).

(** The trace entries that concern the corner [c], and what has happened to
    [c] so far, newest first. *)
Definition about (c : nat) (e : Event) : bool :=
  match e with
  | EvConstruct c' | EvInvalidate c' | EvAllocate c' _ _
  | EvStyleChangedBegin c' | EvStyleChangedEnd c' | EvRemoveTransition c'
  | EvEase c' _ _ | EvPaint c' _ _ | EvBindStyle c' | EvAddChild c'
  | EvRemoveChild c' | EvDestroy c' => Nat.eqb c' c
  | _ => false
  end.

Definition history (c : nat) (w : World) : list Event :=
  List.filter (about c) (trace w).

(** One run of the callback that [update_corner] debounces, as the corner
    [c] sees it in the world [w], newest first: [invalidateCache()], then the
    style-changed pass, which starts, invalidates again, allocates, removes
    the transition, starts the opacity animation and ends. *)
Definition callback_history (duration c : nat) (w : World) : list Event :=
  [ EvStyleChangedEnd c; EvEase c (ease_target w) duration;
    EvRemoveTransition c; EvAllocate c true (box_of c w);
    EvInvalidate c; EvStyleChangedBegin c; EvInvalidate c ].

(** [w'] has the wrappers of [w], with their callbacks and delays, the same
    subscriptions, schema and left corner, and no new corner. *)
Definition same_wiring (w w' : World) : Prop :=
  next_closure w' = next_closure w /\ next_corner w' = next_corner w /\
  (forall d, callback (closures w' !!! d) = callback (closures w !!! d) /\
             wait (closures w' !!! d) = wait (closures w !!! d)) /\
  connections w' = connections w /\
  keys (settings w') = keys (settings w) /\
  _leftCorner (panel w') = _leftCorner (panel w).

(** The controller's wiring: every wrapper made so far waits for the
    debounce delay and captures a corner made so far; and while the panel
    refers to corners, the last two wrappers made are those of its two
    corners, subscribed to every key of the schema, and every earlier wrapper
    captures an earlier corner. *)
Definition wiring (w : World) : Prop :=
  (forall d, d < next_closure w ->
     wait (closures w !!! d) = SETTINGS_DEBOUNCE_MS /\
     wrapper_corner w d < next_corner w) /\
  match _leftCorner (panel w) with
  | Some l =>
      exists dL,
        next_closure w = S (S dL) /\
        wrapper_corner w dL = l /\ wrapper_corner w (S dL) = S l /\
        connections w =
          (subscribe dL (keys (settings w)) ++
           subscribe (S dL) (keys (settings w)))%list /\
        forall d, d < dL -> wrapper_corner w d < l
  | None => True
  end.

(** What holds of the shell in every execution. *)
Definition running (w : World) : Prop :=
  timers_ok w /\ settled w /\ wiring w.

(** The wrappers [dL] and [S dL] are those of the corners [l] and [S l]:
    the last two made, waiting for the debounce delay, subscribed to every
    key; every earlier wrapper captures an earlier corner. *)
Definition plugged (l dL : nat) (w : World) : Prop :=
  next_closure w = S (S dL) /\
  wrapper_corner w dL = l /\ wrapper_corner w (S dL) = S l /\
  wait (closures w !!! dL) = SETTINGS_DEBOUNCE_MS /\
  wait (closures w !!! S dL) = SETTINGS_DEBOUNCE_MS /\
  connections w =
    (subscribe dL (keys (settings w)) ++
     subscribe (S dL) (keys (settings w)))%list /\
  forall d, d < dL -> wrapper_corner w d < l.

(** The wrappers [dL] and [S dL] have the timers [a] and [b] pending, both
    due at [t], attached last; every other timer belongs to an earlier
    wrapper. *)
Definition pending_pair (dL t a b : nat) (w : World) : Prop :=
  exists X,
    sources w =
      (X ++ [ {| source_id := a; due := t; owner := dL |};
              {| source_id := b; due := t; owner := S dL |} ])%list /\
    Forall (fun s => owner s < dL) X.

(** From [w] to [w'] nothing has happened to the corners from [l] on, and
    nothing to the style, the panel's children and the wiring. *)
Definition calm (l : nat) (w w' : World) : Prop :=
  same_style w w' /\ keeps w w' /\ same_wiring w w' /\
  forall c, l <= c ->
    corners w' !!! c = corners w !!! c /\ history c w' = history c w.

(** * Properties *)

(** The operations of the source are unfolded on demand only. *)
#[local] Arguments lookup_for_length : simpl never.
#[local] Arguments lookup_for_double : simpl never.
#[local] Arguments lookup_for_color : simpl never.
#[local] Arguments getRadius : simpl never.
#[local] Arguments getBorderWidth : simpl never.
#[local] Arguments getBackgroundColor : simpl never.
#[local] Arguments getOpacity : simpl never.
#[local] Arguments invalidateCache : simpl never.
#[local] Arguments update_allocation : simpl never.
#[local] Arguments vfunc_style_changed : simpl never.
#[local] Arguments vfunc_repaint : simpl never.
#[local] Arguments remove_connections : simpl never.
#[local] Arguments remove_corner : simpl never.
#[local] Arguments remove : simpl never.
#[local] Arguments new_PanelCorner : simpl never.
#[local] Arguments update_corner : simpl never.
#[local] Arguments update : simpl never.
#[local] Arguments debounced : simpl never.
#[local] Arguments cancel : simpl never.
#[local] Arguments notify_changed : simpl never.
#[local] Arguments property_set : simpl never.
#[local] Arguments timeout_expired : simpl never.
#[local] Arguments dispatch_source : simpl never.
#[local] Arguments dispatch : simpl never.
#[local] Arguments panel_emit : simpl never.
#[local] Arguments lookups : simpl never.
#[local] Arguments writes : simpl never.

(** ** The model at work *)

Example slice1_drops_the_dash :
  slice1 "-panel-corner-radius" = "panel-corner-radius".
Proof. reflexivity. Qed.

Example includes_overview :
  includes "overview" "overview" = true /\
  includes "focus overview active" "overview" = true /\
  includes "" "overview" = false /\
  includes "over view" "overview" = false.
Proof. by vm_compute. Qed.

Example hex_colors :
  hex_color_from_string "#000000ff" = (true, opaque_black) /\
  hex_color_from_string "#112233FF" = (true, RGBA 17 34 51 255) /\
  fst (hex_color_from_string "zork") = false /\
  fst (hex_color_from_string "#12345g78") = false.
Proof. by vm_compute. Qed.

(** [update()] on a fresh shell: two corners, children of the panel, each
    with its two handlers, no timer pending, and the wrapper of the right
    corner in the controller. *)
Example update_at_work :
  let w := update 250 (demo_world false 12 2 "#112233ff" None) in
  _leftCorner (panel w) = Some 0 /\ _rightCorner (panel w) = Some 1 /\
  children (panel w) = [0; 1] /\
  map bound (handlers (panel w)) = [0; 0; 1; 1] /\
  sources w = [] /\ debouncedStyleUpdate w = Some 1 /\
  length (connections w) = 10 /\
  opacity_target (corners w !!! 0) = Some 255%Q /\
  translation_y (corners w !!! 1) = (- 2)%Q.
Proof. by vm_compute. Qed.

(** ** Closed forms of the operations *)

Lemma modify_corner_lookup c c' f w :
  corners (modify_corner c f w) !!! c' =
  if decide (c = c') then f (corners w !!! c) else corners w !!! c'.
Proof.
  unfold modify_corner; cbn.
  destruct (decide (c = c')) as [->|Hne].
  - apply lookup_total_insert_eq.
  - by apply lookup_total_insert_ne.
Qed.

Lemma modify_corner_same c f w :
  corners (modify_corner c f w) !!! c = f (corners w !!! c).
Proof. rewrite modify_corner_lookup. by destruct (decide (c = c)). Qed.

Lemma modify_corner_other c c' f w :
  c ≠ c' -> corners (modify_corner c f w) !!! c' = corners w !!! c'.
Proof. intros. rewrite modify_corner_lookup. by destruct (decide (c = c')). Qed.

Lemma modify_corner_fuse c f g w :
  modify_corner c f (modify_corner c g w) =
  modify_corner c (fun o => f (g o)) w.
Proof.
  unfold modify_corner, set_corners; cbn.
  by rewrite lookup_total_insert_eq, insert_insert_eq.
Qed.

Lemma modify_closure_lookup d d' f w :
  closures (modify_closure d f w) !!! d' =
  if decide (d = d') then f (closures w !!! d) else closures w !!! d'.
Proof.
  unfold modify_closure; cbn.
  destruct (decide (d = d')) as [->|Hne].
  - apply lookup_total_insert_eq.
  - by apply lookup_total_insert_ne.
Qed.

Lemma native_spec {V} k (f : ThemeNode -> string -> bool -> bool * V)
    node prop w :
  use_extension node (settings w) ||
    negb (elt0 (fst (native k f node prop w))) = true
  /\ snd (native k f node prop w) =
     log_events
       (if use_extension node (settings w) then [EvNativeLookup k prop]
        else []) w.
Proof.
  unfold native. destruct node as [n|]; cbn.
  - destruct (FORCE_EXTENSION_VALUES (settings w)); cbn; split; try done;
      by destruct w.
  - split; [done | by destruct w].
Qed.

Lemma lookup_for_length_eq node prop w :
  lookup_for_length node prop w =
  ((numbers (settings w) (slice1 prop) * scale_factor w)%Q,
   log_events (lookup_events Length node prop (settings w)) w).
Proof.
  unfold lookup_for_length, lookup_events.
  pose proof (native_spec Length lookup_length node prop
                (emit (EvLookup Length prop) w)) as [H1 H2].
  destruct (native Length lookup_length node prop _) as [l w'].
  cbn in H1, H2 |- *. rewrite H1, H2.
  by destruct (use_extension node (settings w)).
Qed.

Lemma lookup_for_double_eq node prop w :
  lookup_for_double node prop w =
  (numbers (settings w) (slice1 prop),
   log_events (lookup_events Double node prop (settings w)) w).
Proof.
  unfold lookup_for_double, lookup_events.
  pose proof (native_spec Double lookup_double node prop
                (emit (EvLookup Double prop) w)) as [H1 H2].
  destruct (native Double lookup_double node prop _) as [l w'].
  cbn in H1, H2 |- *. rewrite H1, H2.
  by destruct (use_extension node (settings w)).
Qed.

Lemma lookup_for_color_eq cfs node prop w :
  lookup_for_color cfs node prop w =
  let w' := log_events (lookup_events ColorKind node prop (settings w)) w in
  if fst (cfs (texts (settings w) (slice1 prop)))
  then (snd (cfs (texts (settings w) (slice1 prop))), w')
  else (snd (cfs "#000000ff"), property_set (slice1 prop) "#000000ff" w').
Proof.
  unfold lookup_for_color, lookup_events.
  pose proof (native_spec ColorKind lookup_color node prop
                (emit (EvLookup ColorKind prop) w)) as [H1 H2].
  destruct (native ColorKind lookup_color node prop _) as [l w'].
  cbn in H1, H2 |- *. rewrite H1, H2.
  by destruct (use_extension node (settings w)).
Qed.

Lemma getRadius_eq c node w :
  getRadius c node w =
  match cachedRadius (corners w !!! c) with
  | None =>
      let v := (numbers (settings w) "panel-corner-radius" *
                scale_factor w)%Q in
      (v, modify_corner c (set_cachedRadius (Some v))
            (log_events
               (lookup_events Length node "-panel-corner-radius" (settings w))
               w))
  | Some v => (v, w)
  end.
Proof. unfold getRadius. by rewrite lookup_for_length_eq. Qed.

Lemma getBorderWidth_eq c node w :
  getBorderWidth c node w =
  match cachedBorderWidth (corners w !!! c) with
  | None =>
      let v := (numbers (settings w) "panel-corner-border-width" *
                scale_factor w)%Q in
      (v, modify_corner c (set_cachedBorderWidth (Some v))
            (log_events
               (lookup_events Length node "-panel-corner-border-width"
                  (settings w)) w))
  | Some v => (v, w)
  end.
Proof. unfold getBorderWidth. by rewrite lookup_for_length_eq. Qed.

Lemma getOpacity_eq c node w :
  getOpacity c node w =
  match cachedOpacity (corners w !!! c) with
  | None =>
      let v := numbers (settings w) "panel-corner-opacity" in
      (v, modify_corner c (set_cachedOpacity (Some v))
            (log_events
               (lookup_events Double node "-panel-corner-opacity"
                  (settings w)) w))
  | Some v => (v, w)
  end.
Proof. unfold getOpacity. by rewrite lookup_for_double_eq. Qed.

Lemma getBackgroundColor_eq cfs c node w :
  getBackgroundColor cfs c node w =
  match cachedBackgroundColor (corners w !!! c) with
  | None =>
      let r := lookup_for_color cfs node "-panel-corner-background-color" w in
      (fst r, modify_corner c (set_cachedBackgroundColor (Some (fst r)))
                (snd r))
  | Some v => (v, w)
  end.
Proof.
  unfold getBackgroundColor.
  destruct (cachedBackgroundColor _); [done|].
  by destruct (lookup_for_color _ _ _ _).
Qed.

Lemma world_eq (w w' : World) :
  settings w = settings w' -> scale_factor w = scale_factor w' ->
  theme_node w = theme_node w' -> panel w = panel w' ->
  corners w = corners w' -> next_corner w = next_corner w' ->
  closures w = closures w' -> next_closure w = next_closure w' ->
  sources w = sources w' -> next_source w = next_source w' ->
  connections w = connections w' ->
  debouncedStyleUpdate w = debouncedStyleUpdate w' -> now w = now w' ->
  trace w = trace w' -> w = w'.
Proof. destruct w, w'; cbn; intros; by subst. Qed.

Lemma vfunc_style_changed_eq duration c w :
  vfunc_style_changed duration c w =
  log_events (style_events duration c w) (modify_corner c (styled c w) w).
Proof.
  unfold vfunc_style_changed, invalidateCache.
  rewrite getRadius_eq. cbn. rewrite lookup_total_insert_eq. cbn.
  rewrite getBorderWidth_eq. cbn. rewrite !lookup_total_insert_eq. cbn.
  rewrite getOpacity_eq. cbn. rewrite !lookup_total_insert_eq. cbn.
  unfold in_overview, update_allocation. cbn.
  rewrite !lookup_total_insert_eq. cbn.
  apply world_eq; cbn; try reflexivity.
  - by rewrite !lookup_total_insert_eq, !insert_insert_eq.
  - unfold style_events, ease_target, in_overview, box_of. cbn.
    by rewrite <- !app_assoc.
Qed.

(** ** The lookups *)

(** C1 (the code departs from the claim).  The claim: each lookup returns the
    theme-native result exactly when forcing is disabled and the native
    lookup succeeded.  On every input the three lookups return what the
    settings hold (scaled for a length, parsed for a colour); in particular,
    evaluated with forcing disabled, a theme node present and native lookups
    that would succeed (length 7, double 1/2, colour white), they return the
    settings values (12 times the scale 1, 1, and the parsed colour string)
    and never ask the node. *)
Theorem C1_settings_value_despite_theme :
  (forall cfs node prop w,
     fst (lookup_for_length node prop w) =
       (numbers (settings w) (slice1 prop) * scale_factor w)%Q /\
     fst (lookup_for_double node prop w) =
       numbers (settings w) (slice1 prop) /\
     fst (lookup_for_color cfs node prop w) =
       if fst (cfs (texts (settings w) (slice1 prop)))
       then snd (cfs (texts (settings w) (slice1 prop)))
       else snd (cfs "#000000ff")) /\
  let w := demo_world false 12 2 "#112233ff" None in
  let node := Some demo_theme in
  FORCE_EXTENSION_VALUES (settings w) = false /\
  lookup_length demo_theme "-panel-corner-radius" false = (true, 7%Q) /\
  lookup_double demo_theme "-panel-corner-opacity" false = (true, (1 # 2)%Q) /\
  lookup_color demo_theme "-panel-corner-background-color" false =
    (true, RGBA 255 255 255 255) /\
  lookup_for_length node "-panel-corner-radius" w =
    (12%Q, emit (EvLookup Length "-panel-corner-radius") w) /\
  lookup_for_double node "-panel-corner-opacity" w =
    (1%Q, emit (EvLookup Double "-panel-corner-opacity") w) /\
  lookup_for_color hex_color_from_string node
    "-panel-corner-background-color" w =
    (RGBA 17 34 51 255,
     emit (EvLookup ColorKind "-panel-corner-background-color") w).
Proof.
  split.
  - intros cfs node prop w.
    rewrite lookup_for_length_eq, lookup_for_double_eq, lookup_for_color_eq.
    cbn zeta. by destruct (fst (cfs _)).
  - repeat split.
Qed.

(** ** Timers that outlive the controller *)

(** C2 (the code departs from the claim).  The claim: at most one debounced
    callback is outstanding and none can fire once [remove()] has returned.
    After [update()] and one settings change two timers are pending, one per
    corner, while the controller only holds the wrapper of the right corner;
    [remove()] cancels that one, the timer of the left corner stays attached
    and, 50 ms later, runs [invalidateCache] and a style-changed pass on the
    destroyed left corner. *)
Theorem C2_left_timer_fires_after_remove :
  let edited := demo_settings false 10 2 "#112233ff" in
  let w1 := run hex_color_from_string 250
              [Update; Edit edited "panel-corner-radius"]
              (demo_world false 12 2 "#112233ff" None) in
  let w2 := remove w1 in
  let w3 := advance 250 50 w2 in
  sources w1 = [ {| source_id := 1; due := 50; owner := 0 |};
                 {| source_id := 2; due := 50; owner := 1 |} ] /\
  debouncedStyleUpdate w1 = Some 1 /\
  sources w2 = [ {| source_id := 1; due := 50; owner := 0 |} ] /\
  connections w2 = [] /\
  destroyed (corners w2 !!! 0) = true /\
  take 11 (trace w3) =
    [ EvStyleChangedEnd 0; EvEase 0 255 250; EvRemoveTransition 0;
      EvAllocate 0 true {| x1 := 0; x2 := 12; y1 := 40; y2 := 54 |};
      EvLookup Double "-panel-corner-opacity";
      EvLookup Length "-panel-corner-border-width";
      EvLookup Length "-panel-corner-radius";
      EvInvalidate 0; EvStyleChangedBegin 0; EvInvalidate 0;
      EvTimerFired 1 ] /\
  drop 11 (trace w3) = trace w2.
Proof. vm_compute. repeat split. Qed.

(** ** Allocation *)

(** C3, the claim as stated fails: with radius 10 and border width 2 resolved
    by the style-changed pass of [update()], so that the preferred size is
    10 by 2 + 10, and a panel of 1000 by 40, [#update_allocation] does not
    produce y from 40 to 50, for neither side. *)
Lemma C3_counterexample :
  let w := update 250 (demo_world false 10 2 "#112233ff" None) in
  cachedRadius (corners w !!! 0) = Some 10%Q /\
  cachedBorderWidth (corners w !!! 0) = Some 2%Q /\
  side (corners w !!! 0) = LEFT /\ side (corners w !!! 1) = RIGHT /\
  natural_width (corners w !!! 0) = 10%Q /\
  natural_height (corners w !!! 0) = (2 + 10)%Q /\
  width (panel w) = 1000%Q /\ height (panel w) = 40%Q /\
  allocation (corners (update_allocation 0 w) !!! 0) <>
    Some {| x1 := 0; x2 := 10; y1 := 40; y2 := 50 |} /\
  allocation (corners (update_allocation 1 w) !!! 1) <>
    Some {| x1 := 990; x2 := 1000; y1 := 40; y2 := 50 |}.
Proof. vm_compute. repeat split; discriminate. Qed.

(** C3, amended: for a corner whose style-changed pass resolved radius 10 and
    border width 2 (which sets its preferred size to 10 by 2 + 10), on a
    panel of width 1000 and height 40, [#update_allocation] produces x from 0
    to 10 and y from 40 to 52 on the LEFT side, x from 990 to 1000 and y from
    40 to 52 on the RIGHT side. *)
Theorem C3_allocation_box duration c w :
  let w1 := vfunc_style_changed duration c w in
  cachedRadius (corners w1 !!! c) = Some 10%Q ->
  cachedBorderWidth (corners w1 !!! c) = Some 2%Q ->
  width (panel w1) = 1000%Q -> height (panel w1) = 40%Q ->
  natural_width (corners w1 !!! c) = 10%Q /\
  natural_height (corners w1 !!! c) = (2 + 10)%Q /\
  allocation (corners (update_allocation c w1) !!! c) =
    Some match side (corners w !!! c) with
         | LEFT => {| x1 := 0; x2 := 10; y1 := 40; y2 := 52 |}
         | RIGHT => {| x1 := 990; x2 := 1000; y1 := 40; y2 := 52 |}
         end.
Proof.
  cbn zeta. rewrite vfunc_style_changed_eq.
  unfold update_allocation. cbn.
  rewrite !lookup_total_insert_eq. cbn.
  intros Hr Hb Hw Hh. apply (inj Some) in Hr, Hb.
  rewrite Hr, Hb, Hw, Hh. repeat split.
Qed.

(** C3, amended, at work: the two corners made by [update()] with radius 10,
    border width 2 and a panel of 1000 by 40. *)
Lemma C3_allocation_box_witness :
  let w0 := update 250 (demo_world false 10 2 "#112233ff" None) in
  allocation (corners (update_allocation 0 (vfunc_style_changed 250 0 w0))
                !!! 0) =
    Some {| x1 := 0; x2 := 10; y1 := 40; y2 := 52 |} /\
  allocation (corners (update_allocation 1 (vfunc_style_changed 250 1 w0))
                !!! 1) =
    Some {| x1 := 990; x2 := 1000; y1 := 40; y2 := 52 |}.
Proof.
  split.
  - apply (C3_allocation_box 250 0
             (update 250 (demo_world false 10 2 "#112233ff" None)));
      reflexivity.
  - apply (C3_allocation_box 250 1
             (update 250 (demo_world false 10 2 "#112233ff" None)));
      reflexivity.
Defined.

(** ** The style-changed pass *)

Lemma in_overview_forced w : in_overview w = forced_overview w.
Proof.
  unfold in_overview, forced_overview.
  destruct (FORCE_EXTENSION_VALUES (settings w)); [|done].
  by destruct (style_pseudo_class (panel w)) as [[|a s]|].
Qed.

(** C8: in the style-changed handler, when forcing is enabled and the panel's
    pseudo class contains "overview", the target of the opacity animation
    started by the handler is 0, whatever opacity the lookup derives;
    otherwise the target is the derived opacity times 255. *)
Theorem C8_overview_opacity duration c w :
  let derived :=
    fst (lookup_for_double (theme_node w) "-panel-corner-opacity" w) in
  let target := if forced_overview w then 0%Q else (derived * 255)%Q in
  let w' := vfunc_style_changed duration c w in
  opacity_target (corners w' !!! c) = Some target /\
  exists older,
    trace w' =
    EvStyleChangedEnd c :: EvEase c target duration ::
    EvRemoveTransition c :: older.
Proof.
  cbn zeta. rewrite vfunc_style_changed_eq, lookup_for_double_eq.
  cbn. rewrite lookup_total_insert_eq. cbn.
  unfold ease_target. rewrite in_overview_forced.
  split; [|eexists]; by destruct (forced_overview w).
Qed.

(** ** Removal *)

Lemma remove_corner_frame c w :
  debouncedStyleUpdate (remove_corner c w) = debouncedStyleUpdate w /\
  connections (remove_corner c w) = connections w /\
  _leftCorner (panel (remove_corner c w)) = _leftCorner (panel w) /\
  _rightCorner (panel (remove_corner c w)) = _rightCorner (panel w).
Proof.
  unfold remove_corner, destroy, remove_child, remove_connections,
    disconnect_size, disconnect_position.
  destruct (position_changed_id (corners w !!! c)) as [[|i]|];
    match goal with
    | |- context [size_changed_id ?o] =>
        destruct (size_changed_id o) as [[|j]|]
    end; done.
Qed.

Lemma remove_left_frame w :
  debouncedStyleUpdate (remove_left w) = debouncedStyleUpdate w /\
  connections (remove_left w) = connections w /\
  _leftCorner (panel (remove_left w)) = None.
Proof.
  unfold remove_left.
  destruct (_leftCorner (panel w)) as [l|] eqn:E; [|done].
  destruct (remove_corner_frame l w) as (Ha & Hb & _).
  revert Ha Hb. generalize (remove_corner l w). intros x Ha Hb.
  cbn. by rewrite Ha, Hb.
Qed.

Lemma remove_right_frame w :
  debouncedStyleUpdate (remove_right w) = debouncedStyleUpdate w /\
  connections (remove_right w) = connections w /\
  _leftCorner (panel (remove_right w)) = _leftCorner (panel w) /\
  _rightCorner (panel (remove_right w)) = None.
Proof.
  unfold remove_right.
  destruct (_rightCorner (panel w)) as [r|] eqn:E; [|done].
  destruct (remove_corner_frame r w) as (Ha & Hb & Hc & _).
  revert Ha Hb Hc. generalize (remove_corner r w). intros x Ha Hb Hc.
  cbn. by rewrite Ha, Hb, Hc.
Qed.

Lemma remove_absent w :
  debouncedStyleUpdate w = None -> connections w = [] ->
  _leftCorner (panel w) = None -> _rightCorner (panel w) = None ->
  remove w = w.
Proof.
  intros Hd Hc Hl Hr.
  unfold remove, cancel_pending. rewrite Hd.
  assert (disconnect_all w = w) as ->.
  { destruct w; cbn in *. by subst. }
  unfold remove_left. rewrite Hl. unfold remove_right. by rewrite Hr.
Qed.

Lemma remove_clears w :
  debouncedStyleUpdate (remove w) = None /\
  connections (remove w) = [] /\
  _leftCorner (panel (remove w)) = None /\
  _rightCorner (panel (remove w)) = None.
Proof.
  unfold remove.
  assert (H1 : debouncedStyleUpdate (cancel_pending w) = None).
  { unfold cancel_pending. by destruct (debouncedStyleUpdate w) eqn:E. }
  revert H1. generalize (cancel_pending w). intros w1 H1.
  destruct (remove_left_frame (disconnect_all w1)) as (Ha & Hb & Hc).
  revert Ha Hb Hc. generalize (remove_left (disconnect_all w1)).
  intros w3 Ha Hb Hc.
  destruct (remove_right_frame w3) as (Ha' & Hb' & Hc' & Hd').
  by rewrite Ha', Hb', Hc', Hd', Ha, Hb, Hc.
Qed.

(** C10: [remove()] is idempotent and total: a second call in a row changes
    nothing in the world (no timer is cancelled, no corner is destroyed, no
    child is removed, the trace does not grow), and neither does a call on a
    controller that never ran [update()]. *)
Theorem C10_remove_idempotent :
  (forall w, remove (remove w) = remove w) /\
  (forall s scale node panel_width panel_height pc,
     let w := initial s scale node panel_width panel_height pc in
     remove w = w).
Proof.
  split.
  - intros w. destruct (remove_clears w) as (Ha & Hb & Hc & Hd).
    by apply remove_absent.
  - intros. by apply remove_absent.
Qed.

(** ** What the timer bookkeeping leaves alone *)

Lemma timers_only_refl w : timers_only w w.
Proof. repeat split; try done. by exists []. Qed.

Lemma timers_only_trans w1 w2 w3 :
  timers_only w1 w2 -> timers_only w2 w3 -> timers_only w1 w3.
Proof.
  intros (A1&A2&A3&A4&A5&A6&A7&A8&A9&A10&s1&E1&F1)
         (B1&B2&B3&B4&B5&B6&B7&B8&B9&B10&s2&E2&F2).
  repeat split; try congruence.
  exists (s2 ++ s1)%list. split.
  - by rewrite E2, E1, app_assoc.
  - by apply Forall_app.
Qed.

Lemma debounced_timers_only d w : timers_only w (debounced d w).
Proof.
  unfold debounced.
  destruct (timeoutId (closures w !!! d)) as [id|]; cbn;
    repeat split; try done.
  - exists [EvTimeoutAdd (next_source w) (now w + wait (closures w !!! d));
            EvSourceRemove id].
    split; [done | by repeat constructor].
  - exists [EvTimeoutAdd (next_source w) (now w + wait (closures w !!! d))].
    split; [done | by repeat constructor].
Qed.

Lemma notify_from_timers_only key l w0 w :
  timers_only w0 w ->
  timers_only w0
    (fold_left
       (fun acc c =>
          if String.eqb (conn_signal c) ("changed::" ++ key)
          then debounced (conn_handler c) acc else acc) l w).
Proof.
  revert w. induction l as [|c l IH]; intros w H; [done|].
  cbn [fold_left]. apply IH.
  destruct (String.eqb _ _); [|done].
  eapply timers_only_trans; [exact H | apply debounced_timers_only].
Qed.

Lemma notify_changed_timers_only key w : timers_only w (notify_changed key w).
Proof. apply notify_from_timers_only, timers_only_refl. Qed.

(** ** The cache *)

Lemma lookups_app f (l1 l2 : list Event) :
  lookups f (l1 ++ l2) = lookups f l1 + lookups f l2.
Proof. unfold lookups. by rewrite List.filter_app, length_app. Qed.

Lemma lookups_timer_events f (seg : list Event) :
  Forall (fun e => timer_event e = true) seg -> lookups f seg = 0.
Proof.
  unfold lookups. induction 1 as [|e seg He _ IH]; [done|].
  cbn. by destruct f, e.
Qed.

Lemma lookups_lookup_events f k node prop s :
  lookups f (lookup_events k node prop s) =
  if is_lookup f (EvLookup k prop) then 1 else 0.
Proof.
  unfold lookup_events, lookups.
  destruct (use_extension node s); cbn;
    destruct (is_lookup f (EvLookup k prop)) eqn:E; try done;
    by destruct f.
Qed.

(** A getter on a filled field answers the cached value and does nothing. *)
Lemma getter_hit cfs f c node w v :
  cached f (corners w !!! c) = Some v ->
  getter cfs f c node w = (v, w).
Proof.
  destruct f; cbn; intros H.
  - rewrite getRadius_eq.
    destruct (cachedRadius _); by simplify_eq/=.
  - rewrite getBorderWidth_eq.
    destruct (cachedBorderWidth _); by simplify_eq/=.
  - rewrite getBackgroundColor_eq.
    destruct (cachedBackgroundColor _); by simplify_eq/=.
  - rewrite getOpacity_eq.
    destruct (cachedOpacity _); by simplify_eq/=.
Qed.

(** The world after the colour lookup: the corners are those of before, and
    the trace has grown by the lookup and by timer entries. *)
Lemma lookup_for_color_frame cfs node prop w :
  let w' := snd (lookup_for_color cfs node prop w) in
  corners w' = corners w /\
  exists seg : list Event,
    trace w' =
      (seg ++ lookup_events ColorKind node prop (settings w) ++ trace w)%list
    /\
    Forall (fun e =>
              timer_event e ||
              match e with EvSettingSet _ _ => true | _ => false end = true)
      seg.
Proof.
  rewrite lookup_for_color_eq. cbn zeta.
  destruct (fst (cfs _)); cbn.
  - split; [done|]. by exists [].
  - unfold property_set.
    match goal with |- context [notify_changed ?k ?x] =>
      destruct (notify_changed_timers_only k x)
        as (_&_&_&_&Hc&_&_&_&_&_&seg&Ht&Hf) end.
    rewrite Hc, Ht. cbn. split; [done|].
    exists (seg ++ [EvSettingSet (slice1 prop) "#000000ff"])%list.
    split; [by rewrite <- app_assoc|].
    apply Forall_app. split.
    + eapply Forall_impl; [exact Hf|]. cbn. by intros e ->.
    + by repeat constructor.
Qed.

(** A getter on an empty field fills it with the value it answers, by one
    lookup of that field. *)
Lemma getter_miss cfs f c node w :
  cached f (corners w !!! c) = None ->
  let '(v, w') := getter cfs f c node w in
  cached f (corners w' !!! c) = Some v /\
  lookups f (trace w') = S (lookups f (trace w)).
Proof.
  destruct f; cbn; intros H.
  - rewrite getRadius_eq.
    destruct (cachedRadius _); [done|]. cbn.
    rewrite lookup_total_insert_eq. split; [done|].
    rewrite lookups_app, lookups_lookup_events. done.
  - rewrite getBorderWidth_eq.
    destruct (cachedBorderWidth _); [done|]. cbn.
    rewrite lookup_total_insert_eq. split; [done|].
    rewrite lookups_app, lookups_lookup_events. done.
  - rewrite getBackgroundColor_eq.
    destruct (cachedBackgroundColor _); [done|]. cbn.
    rewrite lookup_total_insert_eq. split; [done|].
    destruct (lookup_for_color_frame cfs node
                "-panel-corner-background-color" w) as (_&seg&Ht&Hf).
    cbn zeta in Ht. rewrite Ht, !lookups_app, lookups_lookup_events.
    assert (lookups BackgroundColor seg = 0) as ->; [|done].
    clear Ht. unfold lookups. induction Hf as [|e seg He _ IH]; [done|].
    cbn. by destruct e.
  - rewrite getOpacity_eq.
    destruct (cachedOpacity _); [done|]. cbn.
    rewrite lookup_total_insert_eq. split; [done|].
    rewrite lookups_app, lookups_lookup_events. done.
Qed.

(** A getter leaves the other fields and their lookup counts alone. *)
Lemma getter_other cfs f g c node w :
  g <> f ->
  let w' := snd (getter cfs g c node w) in
  cached f (corners w' !!! c) = cached f (corners w !!! c) /\
  lookups f (trace w') = lookups f (trace w).
Proof.
  intros Hne. destruct g; cbn.
  - rewrite getRadius_eq. destruct (cachedRadius _) eqn:E; [done|]. cbn.
    rewrite lookup_total_insert_eq, lookups_app, lookups_lookup_events.
    by destruct f.
  - rewrite getBorderWidth_eq.
    destruct (cachedBorderWidth _) eqn:E; [done|]. cbn.
    rewrite lookup_total_insert_eq, lookups_app, lookups_lookup_events.
    by destruct f.
  - rewrite getBackgroundColor_eq.
    destruct (cachedBackgroundColor _) eqn:E; [done|]. cbn.
    rewrite lookup_total_insert_eq.
    destruct (lookup_for_color_frame cfs node
                "-panel-corner-background-color" w) as (Hc&seg&Ht&Hf).
    cbn zeta in Hc, Ht. rewrite Hc, Ht, !lookups_app, lookups_lookup_events.
    assert (lookups f seg = 0) as ->.
    { clear Ht. unfold lookups. induction Hf as [|e seg He _ IH]; [done|].
      cbn. by destruct f, e. }
    by destruct f.
  - rewrite getOpacity_eq. destruct (cachedOpacity _) eqn:E; [done|]. cbn.
    rewrite lookup_total_insert_eq, lookups_app, lookups_lookup_events.
    by destruct f.
Qed.

(** Once a field is filled, every later access answers its value, without
    any lookup. *)
Lemma accesses_hit cfs c f l : forall w v,
  cached f (corners w !!! c) = Some v ->
  Forall (fun x => x = v) (fst (accesses cfs c f l w)) /\
  lookups f (trace (snd (accesses cfs c f l w))) = lookups f (trace w).
Proof.
  induction l as [|[g node|s scale] l IH]; intros w v H; cbn.
  - done.
  - destruct (decide (g = f)) as [->|Hne].
    + rewrite (getter_hit cfs f c node w v H).
      destruct (IH w v H) as [IH1 IH2].
      destruct (accesses cfs c f l w) as [vs w']. cbn in *.
      split; [by constructor | done].
    + destruct (getter_other cfs f g c node w Hne) as [Hc Ht].
      destruct (getter cfs g c node w) as [x w1]. cbn in *.
      rewrite <- Hc in H. destruct (IH w1 v H) as [IH1 IH2].
      destruct (accesses cfs c f l w1) as [vs w']. cbn in *.
      split; [done | congruence].
  - apply (IH (set_theme (theme_node w) scale (set_settings s w)) v H).
Qed.

(** C4: over any sequence of getter calls on a corner (with any nodes, and
    with the settings changing in between) that contains no
    [invalidateCache()], the second and later calls of a field's getter
    return the value of the first call, and the lookup behind the field is
    invoked at most once. *)
Theorem C4_cache_coherence cfs c f l w :
  (forall first later,
     fst (accesses cfs c f l w) = first :: later ->
     Forall (fun x => x = first) later) /\
  lookups f (trace (snd (accesses cfs c f l w))) <= S (lookups f (trace w)).
Proof.
  revert w. induction l as [|[g node|s scale] l IH]; intros w; cbn.
  - split; [done | lia].
  - destruct (decide (g = f)) as [->|Hne].
    + destruct (cached f (corners w !!! c)) as [v|] eqn:E.
      * rewrite (getter_hit cfs f c node w v E).
        destruct (accesses_hit cfs c f l w v E) as [H1 H2].
        destruct (accesses cfs c f l w) as [vs w']. cbn in *.
        split; [|lia]. intros first later [= <- <-]. done.
      * pose proof (getter_miss cfs f c node w E) as H.
        destruct (getter cfs f c node w) as [v w1].
        destruct H as [Hv Hn].
        destruct (accesses_hit cfs c f l w1 v Hv) as [H1 H2].
        destruct (accesses cfs c f l w1) as [vs w']. cbn in *.
        split; [|lia]. intros first later [= <- <-]. done.
    + destruct (getter_other cfs f g c node w Hne) as [_ Ht].
      destruct (getter cfs g c node w) as [x w1]. cbn in *.
      destruct (IH w1) as [IH1 IH2].
      destruct (accesses cfs c f l w1) as [vs w']. cbn in *.
      split; [done | lia].
  - apply (IH (set_theme (theme_node w) scale (set_settings s w))).
Qed.

(** C4 at work: three reads of the radius return the value of the first. *)
Lemma C4_cache_coherence_witness :
  let w := update 250 (demo_world false 12 2 "#112233ff" None) in
  let l := [Get Radius None;
            Change (demo_settings false 10 2 "#112233ff") 1;
            Get Radius (Some demo_theme); Get Opacity None;
            Get Radius None] in
  fst (accesses hex_color_from_string 0 Radius l (invalidateCache 0 w)) =
    [Number 12; Number 12; Number 12] /\
  Forall (fun x => x = Number 12) [Number 12; Number 12].
Proof.
  split; [reflexivity|].
  exact (proj1 (C4_cache_coherence hex_color_from_string 0 Radius
                  [Get Radius None;
                   Change (demo_settings false 10 2 "#112233ff") 1;
                   Get Radius (Some demo_theme); Get Opacity None;
                   Get Radius None]
                  (invalidateCache 0
                     (update 250 (demo_world false 12 2 "#112233ff" None))))
               (Number 12) [Number 12; Number 12] eq_refl).
Defined.

(** The cached radius survives an edit of the radius setting: both reads
    answer 12, with one lookup. *)
Example cache_coherence_at_work :
  let w := update 250 (demo_world false 12 2 "#112233ff" None) in
  let r := accesses hex_color_from_string 0 Radius
             [Get Radius None;
              Change (demo_settings false 10 2 "#112233ff") 1;
              Get Radius (Some demo_theme)]
             (invalidateCache 0 w) in
  fst r = [Number 12; Number 12] /\
  lookups Radius (trace (snd r)) = S (lookups Radius (trace w)).
Proof. by vm_compute. Qed.

Lemma getter_miss_value cfs f c node w :
  cached f (corners w !!! c) = None ->
  fst (getter cfs f c node w) = fresh cfs f node w.
Proof.
  destruct f; cbn; intros H.
  - rewrite getRadius_eq, lookup_for_length_eq.
    by destruct (cachedRadius _).
  - rewrite getBorderWidth_eq, lookup_for_length_eq.
    by destruct (cachedBorderWidth _).
  - rewrite getBackgroundColor_eq.
    by destruct (cachedBackgroundColor _).
  - rewrite getOpacity_eq, lookup_for_double_eq.
    by destruct (cachedOpacity _).
Qed.

Lemma accesses_without cfs c f l : forall w,
  cached f (corners w !!! c) = None ->
  cached f
    (corners
       (snd (accesses cfs c f (List.filter (fun a => negb (reads f a)) l) w))
     !!! c) = None.
Proof.
  induction l as [|[g node|s scale] l IH]; intros w H; cbn.
  - done.
  - case_bool_decide as Hg; cbn; [by apply IH|].
    destruct (getter_other cfs f g c node w Hg) as [Hc _].
    destruct (getter cfs g c node w) as [x w1]. cbn in *.
    rewrite <- Hc in H. specialize (IH w1 H).
    by destruct (accesses cfs c f _ w1).
  - by apply IH.
Qed.

(** C5: [invalidateCache()] clears the four cached fields at once; after it,
    whatever is read or changed in between, the first call of the getter of
    a field not read since returns the value of a fresh lookup, which it
    performs. *)
Theorem C5_invalidate_clears_all cfs c w :
  (forall f, cached f (corners (invalidateCache c w) !!! c) = None) /\
  (forall f l node,
     let between := List.filter (fun a => negb (reads f a)) l in
     let w1 := snd (accesses cfs c f between (invalidateCache c w)) in
     fst (getter cfs f c node w1) = fresh cfs f node w1 /\
     lookups f (trace (snd (getter cfs f c node w1))) =
       S (lookups f (trace w1))).
Proof.
  assert (Hclear : forall f,
            cached f (corners (invalidateCache c w) !!! c) = None).
  { intros f. unfold invalidateCache. cbn.
    rewrite lookup_total_insert_eq. by destruct f. }
  split; [done|]. intros f l node between w1.
  assert (H1 : cached f (corners w1 !!! c) = None)
    by apply accesses_without, Hclear.
  split; [by apply getter_miss_value|].
  pose proof (getter_miss cfs f c node w1 H1) as H.
  destruct (getter cfs f c node w1). by destruct H.
Qed.

(** After an invalidation, the radius read back is the one of the settings
    as they are now (10), not the one cached before (12). *)
Example invalidation_at_work :
  let w := update 250 (demo_world false 12 2 "#112233ff" None) in
  let w' := set_settings (demo_settings false 10 2 "#112233ff") w in
  cachedRadius (corners w' !!! 0) = Some 12%Q /\
  fst (getRadius 0 None w') = 12%Q /\
  fst (getRadius 0 None (invalidateCache 0 w')) = 10%Q.
Proof. by vm_compute. Qed.

(** ** Self-repair of the colour setting *)

Lemma writes_app (l1 l2 : list Event) :
  writes (l1 ++ l2) = writes l1 + writes l2.
Proof. unfold writes. by rewrite List.filter_app, length_app. Qed.

Lemma writes_cons e (l : list Event) :
  writes (e :: l) =
  (match e with EvSettingSet _ _ => 1 | _ => 0 end) + writes l.
Proof. unfold writes. cbn. by destruct e. Qed.

Lemma writes_timer_events (seg : list Event) :
  Forall (fun e => timer_event e = true) seg -> writes seg = 0.
Proof.
  unfold writes. induction 1 as [|e seg He _ IH]; [done|].
  cbn. by destruct e.
Qed.

Lemma writes_lookup_events k node prop s :
  writes (lookup_events k node prop s) = 0.
Proof. unfold lookup_events. by destruct (use_extension node s). Qed.

(** C7: when the colour string stored in the settings fails to parse,
    [lookup_for_color] writes "#000000ff" into that setting, once, and
    returns opaque black; a second read then finds the repaired value,
    returns opaque black again and writes nothing. *)
Theorem C7_color_self_repair cfs node prop w :
  cfs "#000000ff" = (true, opaque_black) ->
  fst (cfs (texts (settings w) (slice1 prop))) = false ->
  let r1 := lookup_for_color cfs node prop w in
  let r2 := lookup_for_color cfs node prop (snd r1) in
  fst r1 = opaque_black /\
  texts (settings (snd r1)) (slice1 prop) = "#000000ff" /\
  writes (trace (snd r1)) = S (writes (trace w)) /\
  In (EvSettingSet (slice1 prop) "#000000ff") (trace (snd r1)) /\
  fst r2 = opaque_black /\
  settings (snd r2) = settings (snd r1) /\
  writes (trace (snd r2)) = writes (trace (snd r1)).
Proof.
  intros Hblack Hbad. cbn zeta.
  rewrite (lookup_for_color_eq cfs node prop w). cbn zeta.
  rewrite Hbad, Hblack. cbn [fst snd].
  unfold property_set.
  match goal with |- context [notify_changed ?k ?x] =>
    set (w1 := x);
    destruct (notify_changed_timers_only k w1)
      as (Hs&_&_&_&_&_&_&_&_&_&seg&Ht&Hf);
    set (w2 := notify_changed k w1) in *
  end.
  assert (Htext : texts (settings w2) (slice1 prop) = "#000000ff").
  { rewrite Hs. subst w1. cbn. apply fn_lookup_insert. }
  rewrite (lookup_for_color_eq cfs node prop w2). cbn zeta.
  rewrite Htext, Hblack. cbn [fst snd].
  repeat split; try done.
  - rewrite Ht, writes_app, (writes_timer_events seg Hf). subst w1. cbn.
    by rewrite writes_cons, writes_app, writes_lookup_events.
  - rewrite Ht. apply in_or_app. right. subst w1. cbn. by left.
  - cbn. by rewrite writes_app, writes_lookup_events.
Qed.

(** C7 at work: the stored colour "zork" does not parse; the first read
    repairs it, the second writes nothing. *)
Lemma C7_color_self_repair_witness :
  let w := update 250 (demo_world false 12 2 "zork" None) in
  let r1 := lookup_for_color hex_color_from_string (Some demo_theme)
              "-panel-corner-background-color" w in
  let r2 := lookup_for_color hex_color_from_string (Some demo_theme)
              "-panel-corner-background-color" (snd r1) in
  fst r1 = opaque_black /\
  texts (settings (snd r1)) "panel-corner-background-color" = "#000000ff" /\
  fst r2 = opaque_black /\
  writes (trace (snd r2)) = writes (trace (snd r1)).
Proof.
  pose proof (C7_color_self_repair hex_color_from_string (Some demo_theme)
                "-panel-corner-background-color"
                (update 250 (demo_world false 12 2 "zork" None))
                eq_refl eq_refl) as (H1 & H2 & _ & _ & H5 & _ & H7).
  repeat split; assumption.
Defined.

(** ** Debouncing *)

Lemma notify_changed_targets key w :
  notify_changed key w =
  fold_left (fun acc d => debounced d acc) (targets key (connections w)) w.
Proof.
  unfold notify_changed, targets.
  generalize (connections w) as l. revert w.
  intros w l. revert w. induction l as [|c l IH]; intros w; [done|].
  cbn [fold_left List.filter].
  destruct (String.eqb _ _); cbn [map fold_left]; apply IH.
Qed.

Lemma targets_app key (l1 l2 : list Connection) :
  targets key (l1 ++ l2) = (targets key l1 ++ targets key l2)%list.
Proof. unfold targets. by rewrite List.filter_app, map_app. Qed.

Lemma targets_subscribe key d ks :
  targets key (subscribe d ks) =
  replicate (length (List.filter (fun k => String.eqb (name k) key) ks)) d.
Proof.
  unfold targets, subscribe. induction ks as [|k ks IH]; [done|].
  cbn [map List.filter conn_signal].
  change (String.eqb ("changed::" ++ name k) ("changed::" ++ key))
    with (String.eqb (name k) key).
  destruct (String.eqb (name k) key); cbn; by rewrite IH.
Qed.

Lemma detach_app a (l1 l2 : list Source) :
  detach a (l1 ++ l2) = (detach a l1 ++ detach a l2)%list.
Proof. apply List.filter_app. Qed.

Lemma others_app d (l1 l2 : list Source) :
  others d (l1 ++ l2) = (others d l1 ++ others d l2)%list.
Proof. apply List.filter_app. Qed.

Lemma filter_comm {A} (p q : A -> bool) (l : list A) :
  List.filter p (List.filter q l) = List.filter q (List.filter p l).
Proof.
  induction l as [|x l IH]; [done|]. cbn.
  destruct (p x) eqn:Hp, (q x) eqn:Hq; cbn; rewrite ?Hp, ?Hq; by rewrite IH.
Qed.

Lemma filter_idem {A} (p : A -> bool) (l : list A) :
  List.filter p (List.filter p l) = List.filter p l.
Proof.
  induction l as [|x l IH]; [done|]. cbn.
  destruct (p x) eqn:Hp; cbn; rewrite ?Hp; by rewrite IH.
Qed.

Lemma detach_fresh a (l : list Source) :
  Forall (fun s => source_id s < a) l -> detach a l = l.
Proof.
  unfold detach. induction 1 as [|s l Hs _ IH]; [done|]. cbn.
  destruct (Nat.eqb_spec (source_id s) a); [lia|]. cbn. by rewrite IH.
Qed.

Lemma Forall_filter_keep {A} (P : A -> Prop) (p : A -> bool) (l : list A) :
  Forall P l -> Forall P (List.filter p l).
Proof.
  induction 1 as [|x l Hx _ IH]; [done|]. cbn.
  destruct (p x); [by constructor | done].
Qed.

(** The effect of one call of a debounced wrapper whose cell is tidy: its
    pending source, if any, is replaced by a new one due [wait] ms from
    now. *)
Lemma debounced_effect d w :
  fresh_ids w -> tidy d w ->
  let n := {| source_id := next_source w;
              due := now w + wait (closures w !!! d); owner := d |} in
  let w' := debounced d w in
  sources w' = (others d (sources w) ++ [n])%list /\
  next_source w' = S (next_source w) /\
  closures w' !!! d = set_timeoutId (Some (next_source w)) (closures w !!! d) /\
  (forall d', d' <> d -> closures w' !!! d' = closures w !!! d').
Proof.
  intros Hf Ht. unfold tidy in Ht. unfold debounced.
  destruct (timeoutId (closures w !!! d)) as [a|] eqn:E; cbn.
  - destruct Ht as [_ Ht]. rewrite Ht, lookup_total_insert_eq.
    repeat split; try done.
    intros d' Hne. by rewrite lookup_total_insert_ne.
  - rewrite Ht, lookup_total_insert_eq. repeat split; try done.
    intros d' Hne. by rewrite lookup_total_insert_ne.
Qed.

Lemma others_keeps_fresh d n (l : list Source) :
  Forall (fun s => source_id s < n) l ->
  Forall (fun s => source_id s < S n) (others d l).
Proof.
  intros H. apply Forall_filter_keep.
  eapply Forall_impl; [exact H|]. cbn. lia.
Qed.

Lemma debounced_fresh d w :
  fresh_ids w -> tidy d w -> fresh_ids (debounced d w).
Proof.
  intros Hf Ht. destruct (debounced_effect d w Hf Ht) as (Hs & Hn & _).
  unfold fresh_ids. rewrite Hs, Hn. apply Forall_app. split.
  - by apply others_keeps_fresh.
  - repeat constructor.
Qed.

Lemma debounced_tidy d w :
  fresh_ids w -> tidy d w -> tidy d (debounced d w).
Proof.
  intros Hf Ht. destruct (debounced_effect d w Hf Ht) as (Hs & Hn & Hc & _).
  unfold tidy. rewrite Hc, Hs, Hn. cbn. split; [lia|].
  rewrite detach_app, others_app. f_equal.
  - rewrite detach_fresh; [|by apply Forall_filter_keep].
    unfold others. by rewrite filter_idem.
  - cbn. by rewrite !Nat.eqb_refl.
Qed.

Lemma debounced_tidy_other d d' w :
  d' <> d -> fresh_ids w -> tidy d w -> tidy d' w ->
  tidy d' (debounced d w).
Proof.
  intros Hne Hf Ht Ht'.
  destruct (debounced_effect d w Hf Ht) as (Hs & Hn & _ & Hc).
  unfold tidy in *. rewrite (Hc d' Hne), Hs, Hn.
  destruct (timeoutId (closures w !!! d')) as [a|].
  - destruct Ht' as [Ha Ht']. split; [lia|].
    rewrite detach_app, others_app. f_equal.
    + unfold detach, others in *. by rewrite filter_comm, Ht', filter_comm.
    + cbn. destruct (Nat.eqb_spec (next_source w) a); [lia|].
      destruct (Nat.eqb_spec d d'); [congruence|]. done.
  - rewrite others_app. f_equal.
    + unfold others in *. by rewrite filter_comm, Ht'.
    + cbn. destruct (Nat.eqb_spec d d'); [congruence|]. done.
Qed.

(** ** What the corner operations leave alone *)

Lemma same_timers_refl w : same_timers w w.
Proof. by repeat split. Qed.

Lemma same_timers_trans w1 w2 w3 :
  same_timers w1 w2 -> same_timers w2 w3 -> same_timers w1 w3.
Proof.
  intros (A1&A2&A3&A4&A5&A6&A7) (B1&B2&B3&B4&B5&B6&B7).
  repeat split; congruence.
Qed.

Lemma same_timers_modify_corner c f w : same_timers w (modify_corner c f w).
Proof. by repeat split. Qed.

Lemma same_timers_modify_panel f w : same_timers w (modify_panel f w).
Proof. by repeat split. Qed.

Lemma same_timers_emit e w : same_timers w (emit e w).
Proof. by repeat split. Qed.

Lemma same_timers_log_events l w : same_timers w (log_events l w).
Proof. by repeat split. Qed.

Lemma same_timers_invalidateCache c w : same_timers w (invalidateCache c w).
Proof. by repeat split. Qed.

Lemma same_timers_update_allocation c w :
  same_timers w (update_allocation c w).
Proof. by repeat split. Qed.

Lemma same_timers_style_changed duration c w :
  same_timers w (vfunc_style_changed duration c w).
Proof. rewrite vfunc_style_changed_eq. by repeat split. Qed.

Lemma same_timers_panel_disconnect i w : same_timers w (panel_disconnect i w).
Proof. by repeat split. Qed.

Lemma same_timers_remove_connections c w :
  same_timers w (remove_connections c w).
Proof.
  unfold remove_connections.
  assert (H1 : same_timers w (disconnect_position c w)).
  { unfold disconnect_position.
    destruct (position_changed_id _) as [[|i]|]; by repeat split. }
  eapply same_timers_trans; [exact H1|].
  generalize (disconnect_position c w). intros x.
  unfold disconnect_size.
  destruct (size_changed_id _) as [[|i]|]; by repeat split.
Qed.

Lemma same_timers_remove_corner c w : same_timers w (remove_corner c w).
Proof.
  unfold remove_corner.
  eapply same_timers_trans; [apply (same_timers_remove_connections c)|].
  generalize (remove_connections c w). intros x. by repeat split.
Qed.

Lemma same_timers_new_PanelCorner s w :
  fst (new_PanelCorner s w) = next_corner w /\
  same_timers w (snd (new_PanelCorner s w)).
Proof. by repeat split. Qed.

Lemma cancel_frame d w :
  next_closure (cancel d w) = next_closure w /\
  next_source (cancel d w) = next_source w /\
  now (cancel d w) = now w /\ settings (cancel d w) = settings w /\
  next_corner (cancel d w) = next_corner w /\
  (sources w = [] -> sources (cancel d w) = []).
Proof.
  unfold cancel. destruct (timeoutId _) as [a|]; [|done].
  cbn. repeat split. by intros ->.
Qed.

Lemma remove_timers w :
  next_closure (remove w) = next_closure w /\
  next_source (remove w) = next_source w /\
  now (remove w) = now w /\ settings (remove w) = settings w /\
  next_corner (remove w) = next_corner w /\
  (sources w = [] -> sources (remove w) = []).
Proof.
  unfold remove.
  assert (H1 : next_closure (disconnect_all (cancel_pending w)) =
                 next_closure w /\
               next_source (disconnect_all (cancel_pending w)) =
                 next_source w /\
               now (disconnect_all (cancel_pending w)) = now w /\
               settings (disconnect_all (cancel_pending w)) = settings w /\
               next_corner (disconnect_all (cancel_pending w)) =
                 next_corner w /\
               (sources w = [] ->
                sources (disconnect_all (cancel_pending w)) = [])).
  { unfold cancel_pending. destruct (debouncedStyleUpdate w) as [d|]; [|done].
    destruct (cancel_frame d w) as (A&B&C&D&E&F).
    revert A B C D E F. generalize (cancel d w). intros x A B C D E F.
    cbn. by rewrite A, B, C, D, E. }
  revert H1. generalize (disconnect_all (cancel_pending w)). intros w1 H1.
  assert (H2 : forall x, next_corner (remove_corner x w1) = next_corner w1).
  { intros x. unfold remove_corner, destroy, remove_child,
      remove_connections, disconnect_size, disconnect_position.
    destruct (position_changed_id (corners w1 !!! x)) as [[|i]|];
      match goal with
      | |- context [size_changed_id ?o] =>
          destruct (size_changed_id o) as [[|j]|]
      end; done. }
  assert (H3 : same_timers w1 (remove_left w1) /\
               next_corner (remove_left w1) = next_corner w1).
  { unfold remove_left. destruct (_leftCorner (panel w1)) as [l|].
    - specialize (H2 l). pose proof (same_timers_remove_corner l w1) as H.
      revert H H2. generalize (remove_corner l w1). intros x H H2.
      split; [|by rewrite <- H2].
      eapply same_timers_trans; [exact H | apply same_timers_modify_panel].
    - split; [apply same_timers_refl | done]. }
  clear H2. revert H3. generalize (remove_left w1). intros w2 [H3 H3'].
  assert (H4 : same_timers w2 (remove_right w2) /\
               next_corner (remove_right w2) = next_corner w2).
  { unfold remove_right. destruct (_rightCorner (panel w2)) as [r|].
    - pose proof (same_timers_remove_corner r w2) as H.
      assert (H2 : next_corner (remove_corner r w2) = next_corner w2).
      { unfold remove_corner, destroy, remove_child,
          remove_connections, disconnect_size, disconnect_position.
        destruct (position_changed_id (corners w2 !!! r)) as [[|i]|];
          match goal with
          | |- context [size_changed_id ?o] =>
              destruct (size_changed_id o) as [[|j]|]
          end; done. }
      revert H H2. generalize (remove_corner r w2). intros x H H2.
      split; [|by rewrite <- H2].
      eapply same_timers_trans; [exact H | apply same_timers_modify_panel].
    - split; [apply same_timers_refl | done]. }
  revert H4. generalize (remove_right w2). intros w3 [H4 H4'].
  destruct H1 as (A&B&C&D&E&F).
  destruct H3 as (A3&B3&C3&D3&E3&F3&G3).
  destruct H4 as (A4&B4&C4&D4&E4&F4&G4).
  repeat split; try congruence.
  intros Hs. rewrite C4, C3. by apply F.
Qed.

Lemma connect_fold d ks : forall w,
  fold_left (fun acc key => connect ("changed::" ++ name key) d acc) ks w =
  set_connections (connections w ++ subscribe d ks) w.
Proof.
  induction ks as [|k ks IH]; intros w; cbn [fold_left].
  - cbn. rewrite app_nil_r. by destruct w.
  - rewrite IH. unfold connect. cbn. by rewrite <- app_assoc.
Qed.

Lemma same_timers_log str w : same_timers w (log str w).
Proof. unfold log. destruct (DEBUG (settings w)); by repeat split. Qed.

Lemma next_corner_log str w : next_corner (log str w) = next_corner w.
Proof. unfold log. by destruct (DEBUG (settings w)). Qed.

(** What [update_corner] does to the timers and the subscriptions: a new
    wrapper, subscribed to every key. *)
Lemma update_corner_timers duration c w :
  let w' := update_corner duration c w in
  let d := next_closure w in
  closures w' =
    <[d := {| timeoutId := None; callback := StyleUpdate c;
              wait := SETTINGS_DEBOUNCE_MS |}]> (closures w) /\
  next_closure w' = S d /\
  connections w' = (connections w ++ subscribe d (keys (settings w)))%list /\
  sources w' = sources w /\ next_source w' = next_source w /\
  now w' = now w /\ settings w' = settings w /\
  debouncedStyleUpdate w' = Some d.
Proof.
  cbn zeta. unfold update_corner.
  pose proof (same_timers_style_changed duration c
                (add_child c (emit (EvBindStyle c) w)))
    as (A&B&C&D&E&F&G).
  cbn in A, B, C, D, E, F, G. revert A B C D E F G.
  generalize (vfunc_style_changed duration c
                (add_child c (emit (EvBindStyle c) w))).
  intros x A B C D E F G.
  unfold debounce. rewrite connect_fold. cbn.
  by rewrite A, B, C, D, E, F, G.
Qed.

Lemma update_effect duration w0 :
  sources w0 = [] ->
  let w1 := update duration w0 in
  let dL := next_closure w0 in
  let l := next_corner w0 in
  closures w1 !!! dL =
    {| timeoutId := None; callback := StyleUpdate l;
       wait := SETTINGS_DEBOUNCE_MS |} /\
  closures w1 !!! S dL =
    {| timeoutId := None; callback := StyleUpdate (S l);
       wait := SETTINGS_DEBOUNCE_MS |} /\
  connections w1 =
    (subscribe dL (keys (settings w0)) ++
     subscribe (S dL) (keys (settings w0)))%list /\
  sources w1 = [] /\ next_source w1 = next_source w0 /\
  now w1 = now w0 /\ settings w1 = settings w0 /\
  debouncedStyleUpdate w1 = Some (S dL).
Proof.
  intros Hs. cbn zeta. unfold update.
  pose proof (same_timers_log "updating panel corners..." w0)
    as (A0&B0&C0&D0&E0&F0&G0).
  pose proof (next_corner_log "updating panel corners..." w0) as N0.
  revert A0 B0 C0 D0 E0 F0 G0 N0.
  generalize (log "updating panel corners..." w0).
  intros wa A0 B0 C0 D0 E0 F0 G0 N0.
  destruct (remove_timers wa) as (A1&B1&C1&D1&E1&F1).
  destruct (remove_clears wa) as (_&G1&_&_).
  revert A1 B1 C1 D1 E1 F1 G1. generalize (remove wa).
  intros wb A1 B1 C1 D1 E1 F1 G1.
  destruct (same_timers_new_PanelCorner LEFT wb)
    as (L2 & A2&B2&C2&D2&E2&F2&G2).
  assert (N2 : next_corner (snd (new_PanelCorner LEFT wb)) =
               S (next_corner wb)) by done.
  destruct (new_PanelCorner LEFT wb) as [l wc]. cbn [fst snd] in *.
  pose proof (same_timers_modify_panel (set_leftCorner (Some l)) wc)
    as (A3&B3&C3&D3&E3&F3&G3).
  assert (N3 : next_corner (modify_panel (set_leftCorner (Some l)) wc) =
               next_corner wc) by done.
  revert A3 B3 C3 D3 E3 F3 G3 N3.
  generalize (modify_panel (set_leftCorner (Some l)) wc).
  intros wd A3 B3 C3 D3 E3 F3 G3 N3.
  destruct (same_timers_new_PanelCorner RIGHT wd)
    as (L4 & A4&B4&C4&D4&E4&F4&G4).
  destruct (new_PanelCorner RIGHT wd) as [r we]. cbn [fst snd] in *.
  pose proof (same_timers_modify_panel (set_rightCorner (Some r)) we)
    as (A5&B5&C5&D5&E5&F5&G5).
  revert A5 B5 C5 D5 E5 F5 G5.
  generalize (modify_panel (set_rightCorner (Some r)) we).
  intros wf A5 B5 C5 D5 E5 F5 G5.
  destruct (update_corner_timers duration l wf) as (A6&B6&C6&D6&E6&F6&G6&_).
  revert A6 B6 C6 D6 E6 F6 G6. generalize (update_corner duration l wf).
  intros wg A6 B6 C6 D6 E6 F6 G6.
  destruct (update_corner_timers duration r wg) as (A7&B7&C7&D7&E7&F7&G7&H7).
  revert A7 B7 C7 D7 E7 F7 G7 H7. generalize (update_corner duration r wg).
  intros wh A7 B7 C7 D7 E7 F7 G7 H7.
  pose proof (same_timers_log "corners updated." wh)
    as (A8&B8&C8&D8&E8&F8&G8).
  assert (H8 : debouncedStyleUpdate (log "corners updated." wh) =
               debouncedStyleUpdate wh).
  { unfold log. by destruct (DEBUG (settings wh)). }
  revert A8 B8 C8 D8 E8 F8 G8 H8.
  generalize (log "corners updated." wh).
  intros wi A8 B8 C8 D8 E8 F8 G8 H8.
  assert (HdL : next_closure wf = next_closure w0) by congruence.
  assert (Hl : l = next_corner w0) by congruence.
  assert (Hr : r = S (next_corner w0)) by congruence.
  assert (Hk : settings wf = settings w0) by congruence.
  rewrite A8, A7, A6, B6, HdL.
  rewrite lookup_total_insert_ne by lia.
  rewrite !lookup_total_insert_eq.
  rewrite G8, C7, C6, G6, Hk, B6, HdL, G5, G4, G3, G2, G1.
  subst l r. repeat split; try congruence.
  rewrite C8, D7, D6, C5, C4, C3, C2. apply F1. congruence.
Qed.

Lemma others_owned d (l : list Source) :
  Forall (fun s => owner s = d) l -> others d l = [].
Proof.
  unfold others. induction 1 as [|s l Hs _ IH]; [done|].
  cbn. by rewrite Hs, Nat.eqb_refl.
Qed.

(** One or more calls of the same wrapper in a row: its one pending source
    is the last one attached, due [wait] ms from now. *)
Lemma debounced_repeat d n : forall w,
  fresh_ids w -> tidy d w ->
  let w' := fold_left (fun acc x => debounced x acc) (replicate (S n) d) w in
  (exists a,
     sources w' =
       (others d (sources w) ++
        [{| source_id := a; due := now w + wait (closures w !!! d);
            owner := d |}])%list /\
     timeoutId (closures w' !!! d) = Some a) /\
  callback (closures w' !!! d) = callback (closures w !!! d) /\
  wait (closures w' !!! d) = wait (closures w !!! d) /\
  (forall d', d' <> d -> closures w' !!! d' = closures w !!! d') /\
  fresh_ids w' /\ tidy d w' /\
  (forall d', d' <> d -> tidy d' w -> tidy d' w') /\
  timers_only w w'.
Proof.
  induction n as [|n IH]; intros w Hf Ht.
  - cbn [replicate fold_left].
    destruct (debounced_effect d w Hf Ht) as (Hs & Hn & Hc & Ho).
    cbn zeta in *. split_and!.
    + eexists. split; [exact Hs|]. by rewrite Hc.
    + by rewrite Hc.
    + by rewrite Hc.
    + exact Ho.
    + by apply debounced_fresh.
    + by apply debounced_tidy.
    + intros d' Hne Ht'. by apply debounced_tidy_other.
    + apply debounced_timers_only.
  - change (replicate (S (S n)) d) with (d :: replicate (S n) d).
    cbn [fold_left].
    destruct (debounced_effect d w Hf Ht) as (Hs & Hn & Hc & Ho).
    pose proof (debounced_fresh d w Hf Ht) as Hf1.
    pose proof (debounced_tidy d w Hf Ht) as Ht1.
    pose proof (debounced_timers_only d w) as Hto.
    assert (Hother : forall d', d' <> d -> tidy d' w ->
                               tidy d' (debounced d w)).
    { intros d' Hne Ht'. by apply debounced_tidy_other. }
    cbn zeta in *.
    revert Hs Hn Hc Ho Hf1 Ht1 Hto Hother. generalize (debounced d w).
    intros w1 Hs Hn Hc Ho Hf1 Ht1 Hto Hother.
    destruct (IH w1 Hf1 Ht1) as ((a & Ha & Hcell) & Hcb & Hw & Ho' & Hf' &
                                  Ht' & Hoth' & Hto').
    revert Ha Hcell Hcb Hw Ho' Hf' Ht' Hoth' Hto'.
    generalize (fold_left (fun acc x => debounced x acc)
                  (replicate (S n) d) w1).
    intros w2 Ha Hcell Hcb Hw Ho' Hf' Ht' Hoth' Hto'.
    pose proof Hto as (_&_&_&_&_&_&_&_&Hnow&_).
    split_and!.
    + exists a. split; [|done].
      rewrite Ha, Hs, others_app, Hnow, Hc. cbn [wait set_timeoutId].
      unfold others. rewrite filter_idem.
      cbn. rewrite Nat.eqb_refl. cbn. by rewrite app_nil_r.
    + by rewrite Hcb, Hc.
    + by rewrite Hw, Hc.
    + intros d' Hne. by rewrite Ho', Ho.
    + done.
    + done.
    + intros d' Hne Htd. apply Hoth'; [done|]. by apply Hother.
    + by eapply timers_only_trans.
Qed.

Lemma others_both dL dR (l : list Source) :
  Forall (fun s => owner s = dL \/ owner s = dR) l ->
  others dR (others dL l) = [].
Proof.
  unfold others. induction 1 as [|s l Hs _ IH]; [done|]. cbn.
  destruct (Nat.eqb_spec (owner s) dL); cbn; [done|].
  destruct (Nat.eqb_spec (owner s) dR); cbn; [done|]. by destruct Hs.
Qed.

Lemma recognised_key key (ks : list Key) :
  In key (map name ks) ->
  exists n,
    length (List.filter (fun k => String.eqb (name k) key) ks) = S n.
Proof.
  induction ks as [|k ks IH]; [done|]. cbn. intros [H|H].
  - rewrite H, String.eqb_refl. cbn. by eexists.
  - destruct (String.eqb (name k) key); cbn; [by eexists | by apply IH].
Qed.

(** One settings change on a wired controller, for a recognised key: both
    wrappers end up with exactly one pending timer each, due 50 ms from
    now; nothing but the timers changes. *)
Lemma settings_change_arms dL dR l r ks w s key :
  wired dL dR l r ks w -> In key (map name ks) ->
  let w' := notify_changed key (set_settings (edit s (settings w)) w) in
  wired dL dR l r ks w' /\
  armed dL dR (now w + SETTINGS_DEBOUNCE_MS) w' /\
  timers_only (set_settings (edit s (settings w)) w) w'.
Proof.
  intros (Hne & HcL & HwL & HcR & HwR & Hconn & Hf & HtL & HtR & Hown) Hkey.
  cbn zeta. rewrite notify_changed_targets.
  cbn [connections set_settings]. rewrite Hconn, targets_app.
  rewrite !targets_subscribe.
  destruct (recognised_key key ks Hkey) as [n ->].
  rewrite fold_left_app.
  set (w0 := set_settings (edit s (settings w)) w).
  assert (Hf0 : fresh_ids w0) by exact Hf.
  assert (HtL0 : tidy dL w0) by exact HtL.
  assert (HtR0 : tidy dR w0) by exact HtR.
  assert (Hs0 : sources w0 = sources w) by done.
  assert (Hc0 : closures w0 = closures w) by done.
  assert (Hn0 : now w0 = now w) by done.
  assert (Hconn0 : connections w0 = connections w) by done.
  clearbody w0.
  destruct (debounced_repeat dL n w0 Hf0 HtL0)
    as ((a & Ha & Hcella) & Hcb1 & Hw1 & Ho1 & Hf1 & Ht1 & Hoth1 & Hto1).
  cbn zeta in *.
  revert Ha Hcella Hcb1 Hw1 Ho1 Hf1 Ht1 Hoth1 Hto1.
  generalize (fold_left (fun acc x => debounced x acc)
                (replicate (S n) dL) w0).
  intros w1 Ha Hcella Hcb1 Hw1 Ho1 Hf1 Ht1 Hoth1 Hto1.
  assert (HtR1 : tidy dR w1) by (apply Hoth1; [congruence | done]).
  destruct (debounced_repeat dR n w1 Hf1 HtR1)
    as ((b & Hb & Hcellb) & Hcb2 & Hw2 & Ho2 & Hf2 & Ht2 & Hoth2 & Hto2).
  cbn zeta in *.
  revert Hb Hcellb Hcb2 Hw2 Ho2 Hf2 Ht2 Hoth2 Hto2.
  generalize (fold_left (fun acc x => debounced x acc)
                (replicate (S n) dR) w1).
  intros w2 Hb Hcellb Hcb2 Hw2 Ho2 Hf2 Ht2 Hoth2 Hto2.
  assert (Hnow1 : now w1 = now w0)
    by (by destruct Hto1 as (_&_&_&_&_&_&_&_&?&_)).
  assert (Hsrc : sources w2 =
            [ {| source_id := a; due := now w + SETTINGS_DEBOUNCE_MS;
                 owner := dL |};
              {| source_id := b; due := now w + SETTINGS_DEBOUNCE_MS;
                 owner := dR |} ]).
  { rewrite Hb, Ha, others_app, Hs0, (others_both dL dR _ Hown).
    rewrite (Ho1 dR) by congruence.
    rewrite Hnow1, Hn0, Hc0, HwL, HwR. cbn.
    destruct (Nat.eqb_spec dL dR); [congruence|]. done. }
  assert (HdL2 : closures w2 !!! dL = closures w1 !!! dL)
    by (by apply Ho2).
  assert (HdR1 : closures w1 !!! dR = closures w0 !!! dR)
    by (apply Ho1; congruence).
  split; [|split].
  - unfold wired. split_and!.
    + done.
    + by rewrite HdL2, Hcb1, Hc0.
    + by rewrite HdL2, Hw1, Hc0.
    + by rewrite Hcb2, HdR1, Hc0.
    + by rewrite Hw2, HdR1, Hc0.
    + destruct Hto2 as (_&_&_&_&_&_&->&_).
      destruct Hto1 as (_&_&_&_&_&_&->&_). congruence.
    + done.
    + by apply Hoth2.
    + done.
    + rewrite Hsrc. repeat constructor; cbn; tauto.
  - exists a, b. split_and!; [done | by rewrite HdL2 | done].
  - by eapply timers_only_trans.
Qed.

(** ** Time passing *)

Lemma dispatch_none duration w :
  Forall (fun s => now w < due s) (sources w) -> dispatch duration w = w.
Proof.
  intros H. unfold dispatch.
  assert (List.filter (fun s => Nat.leb (due s) (now w)) (sources w) = [])
    as ->; [|done].
  induction H as [|s l Hs _ IH]; [done|]. cbn.
  destruct (Nat.leb_spec (due s) (now w)); [lia | done].
Qed.

Lemma advance_quiet duration g : forall w,
  Forall (fun s => now w + g < due s) (sources w) ->
  advance duration g w = set_now (now w + g) w.
Proof.
  induction g as [|g IH]; intros w H.
  - cbn. rewrite Nat.add_0_r. by destruct w.
  - cbn [advance]. rewrite dispatch_none.
    + rewrite IH.
      * unfold set_now. cbn. f_equal. lia.
      * cbn. eapply Forall_impl; [exact H|]. cbn. lia.
    + cbn. eapply Forall_impl; [exact H|]. cbn. lia.
Qed.

Lemma advance_add duration a b : forall w,
  advance duration (a + b) w = advance duration b (advance duration a w).
Proof. induction a as [|a IH]; intros w; [done|]. cbn. apply IH. Qed.

Lemma tally_app p (l1 l2 : list Event) :
  tally p (l1 ++ l2) = tally p l1 + tally p l2.
Proof. unfold tally. by rewrite List.filter_app, length_app. Qed.

Lemma tally_cons p e (l : list Event) :
  tally p (e :: l) = (if p e then 1 else 0) + tally p l.
Proof. unfold tally. cbn. by destruct (p e). Qed.

(** A timer of the wrapper [d] fires: the cell is cleared, the callback
    invalidates the cache of its corner and runs a style-changed pass, and
    the source is detached. *)
Lemma fire_one duration d c s w :
  callback (closures w !!! d) = StyleUpdate c ->
  attached (source_id s) w = true -> owner s = d ->
  let w' := dispatch_source duration s w in
  sources w' = detach (source_id s) (sources w) /\
  next_source w' = next_source w /\
  (forall d', d' <> d -> closures w' !!! d' = closures w !!! d') /\
  now w' = now w /\
  exists x,
    trace w' =
    (style_events duration c x ++
     [EvInvalidate c; EvTimerFired (source_id s)] ++ trace w)%list.
Proof.
  intros Hcb Hatt Hown. cbn zeta. unfold dispatch_source.
  rewrite Hatt, Hown. unfold timeout_expired.
  rewrite modify_closure_lookup. destruct (decide (d = d)); [|done].
  cbn [callback set_timeoutId closures emit]. rewrite Hcb.
  unfold run_callback. rewrite vfunc_style_changed_eq.
  set (x := invalidateCache c
              (modify_closure d (set_timeoutId None)
                 (emit (EvTimerFired (source_id s)) w))).
  assert (Hs : sources x = sources w) by done.
  assert (Hn : next_source x = next_source w) by done.
  assert (Ht : now x = now w) by done.
  assert (Htr : trace x =
                EvInvalidate c :: EvTimerFired (source_id s) :: trace w)
    by done.
  assert (Hc : forall d', d' <> d -> closures x !!! d' = closures w !!! d').
  { intros d' Hne. subst x. unfold invalidateCache. cbn.
    by rewrite lookup_total_insert_ne. }
  clearbody x. cbn. rewrite Hs, Hn, Ht, Htr. split_and!; try done.
  by exists x.
Qed.

(** ** Coalescing of settings changes *)

Lemma armed_due dL dR t w :
  armed dL dR t w -> Forall (fun s => due s = t) (sources w).
Proof. intros (a & b & -> & _). by repeat constructor. Qed.

Lemma detached a (l : list Source) :
  existsb (fun s => Nat.eqb (source_id s) a) (detach a l) = false.
Proof.
  unfold detach. induction l as [|s l IH]; [done|]. cbn.
  destruct (Nat.eqb (source_id s) a) eqn:E; cbn; [done|]. by rewrite E.
Qed.

(** Invoking a debounced wrapper whose timer is pending removes that timer
    before attaching the new one. *)
Lemma debounced_cancels_previous d w a :
  timeoutId (closures w !!! d) = Some a -> a < next_source w ->
  attached a (debounced d w) = false /\
  trace (debounced d w) =
    EvTimeoutAdd (next_source w) (now w + wait (closures w !!! d)) ::
    EvSourceRemove a :: trace w.
Proof.
  intros Hc Ha. unfold debounced, attached. rewrite Hc. cbn.
  split; [|done]. rewrite existsb_app, detached. cbn.
  destruct (Nat.eqb_spec (next_source w) a); [lia | done].
Qed.

(** C6, the claim as stated fails: on an active controller (after
    [update()]) one settings change (N = 1) followed by the delay causes two
    style-changed recomputations and four cache invalidations (two on each
    corner), not one of each: each of the two corners has its own debounced
    callback, and the style-changed pass invalidates once more. *)
Lemma C6_counterexample :
  let w1 := update 250 (demo_world false 12 2 "#112233ff" None) in
  let w3 := run hex_color_from_string 250
              [Edit (demo_settings false 10 2 "#112233ff")
                 "panel-corner-radius";
               Elapse SETTINGS_DEBOUNCE_MS] w1 in
  let passes w := style_passes 0 (trace w) + style_passes 1 (trace w) in
  let clears w := invalidations 0 (trace w) + invalidations 1 (trace w) in
  passes w3 = passes w1 + 2 /\ passes w3 <> passes w1 + 1 /\
  clears w3 = clears w1 + 4 /\ clears w3 <> clears w1 + 1 /\
  invalidations 0 (trace w3) = invalidations 0 (trace w1) + 2 /\
  invalidations 1 (trace w3) = invalidations 1 (trace w1) + 2 /\
  fired (trace w3) = fired (trace w1) + 2.
Proof. vm_compute. split_and!; done. Qed.

(* The amended statement of C6 rests on the invariants of the running shell
   and is proved at the end of the file, under Coalescing on a running
   controller. *)


(** ** Allocation and style-changed passes *)

Lemma segment_ok_nil : segment_ok [].
Proof. by intros older. Qed.

Lemma segment_ok_app (s1 s2 : list Event) :
  segment_ok s1 -> segment_ok s2 -> segment_ok (s2 ++ s1).
Proof.
  intros H1 H2 older Ho. rewrite <- app_assoc. by apply H2, H1.
Qed.

Lemma segment_ok_quiet (seg : list Event) :
  Forall (fun e => is_allocate e = false) seg -> segment_ok seg.
Proof.
  induction 1 as [|e seg He _ IH]; intros older Ho; [done|].
  cbn. destruct e; try done; by apply IH.
Qed.

Lemma segment_ok_timer_events (seg : list Event) :
  Forall (fun e => timer_event e = true) seg -> segment_ok seg.
Proof.
  intros H. apply segment_ok_quiet.
  eapply Forall_impl; [exact H|]. by intros [].
Qed.

Lemma lookup_events_quiet k node prop s :
  Forall (fun e => is_allocate e = false) (lookup_events k node prop s).
Proof.
  unfold lookup_events. destruct (use_extension node s);
    by repeat constructor.
Qed.

Lemma existsb_begin_app c (l1 l2 : list Event) :
  existsb (is_begin c) l2 = true -> existsb (is_begin c) (l1 ++ l2) = true.
Proof. intros H. rewrite existsb_app, H. apply orb_true_r. Qed.

(** The trace of a style-changed pass keeps the allocations in order: its one
    allocation comes after the start of the pass, with the geometry
    cached. *)
Lemma segment_ok_style_events duration c w :
  segment_ok (style_events duration c w).
Proof.
  intros older Ho. unfold style_events.
  cbn [app allocations_in_order].
  apply andb_true_intro. split.
  - unfold allocation_in_order. cbn [andb].
    assert (existsb (is_begin c)
              ((lookup_events Double (theme_node w) "-panel-corner-opacity"
                  (settings w) ++
                lookup_events Length (theme_node w)
                  "-panel-corner-border-width" (settings w) ++
                lookup_events Length (theme_node w) "-panel-corner-radius"
                  (settings w) ++
                [EvInvalidate c; EvStyleChangedBegin c]) ++ older) = true)
      as ->; [|apply orb_true_r].
    rewrite !existsb_app. cbn. rewrite Nat.eqb_refl.
    by rewrite !orb_true_r.
  - rewrite <- !app_assoc.
    apply (segment_ok_quiet _ (lookup_events_quiet _ _ _ _)).
    apply (segment_ok_quiet _ (lookup_events_quiet _ _ _ _)).
    apply (segment_ok_quiet _ (lookup_events_quiet _ _ _ _)).
    done.
Qed.

Lemma grows_refl w : grows w w.
Proof.
  split_and!; try done. exists []. split; [done | apply segment_ok_nil].
Qed.

Lemma grows_trans w1 w2 w3 : grows w1 w2 -> grows w2 w3 -> grows w1 w3.
Proof.
  intros (A1 & A2 & A3 & s1 & E1 & O1) (B1 & B2 & B3 & s2 & E2 & O2).
  split_and!.
  - intros h Hh. by apply A1, B1.
  - congruence.
  - intros c Hc. by apply B3, A3.
  - exists (s2 ++ s1)%list. split.
    + by rewrite E2, E1, app_assoc.
    + by apply segment_ok_app.
Qed.

Lemma existsb_begin_grows c w w' :
  grows w w' -> existsb (is_begin c) (trace w) = true ->
  existsb (is_begin c) (trace w') = true.
Proof.
  intros (_ & _ & _ & seg & -> & _) H. by apply existsb_begin_app.
Qed.

Lemma in_order_grows w w' : grows w w' -> in_order w -> in_order w'.
Proof.
  intros Hg [Hj Hh]. pose proof Hg as (A1 & A2 & A3 & seg & E & O).
  split.
  - rewrite E. by apply O.
  - unfold handlers_styled in *. rewrite List.Forall_forall in *.
    intros h Hin. destruct (Hh h (A1 h Hin)) as (H1 & H2 & H3).
    split_and!; [congruence | by apply A3 | by eapply existsb_begin_grows].
Qed.

#[local] Arguments style_events : simpl never.

Lemma grows_same w w' :
  handlers (panel w') = handlers (panel w) ->
  next_corner w' = next_corner w -> corners w' = corners w ->
  trace w' = trace w -> grows w w'.
Proof.
  intros H1 H2 H3 H4. split_and!.
  - by rewrite H1.
  - done.
  - by rewrite H3.
  - exists []. split; [done | apply segment_ok_nil].
Qed.

Lemma grows_log_events l w : segment_ok l -> grows w (log_events l w).
Proof. intros H. split_and!; try done. by exists l. Qed.

Lemma grows_emit e w : is_allocate e = false -> grows w (emit e w).
Proof.
  intros H. split_and!; try done. exists [e]. split; [done|].
  apply segment_ok_quiet. by repeat constructor.
Qed.

Lemma grows_modify_corner c f w :
  (forall o, geometry_cached o = true -> geometry_cached (f o) = true) ->
  grows w (modify_corner c f w).
Proof.
  intros H. split_and!; try done.
  - intros c' Hc. rewrite modify_corner_lookup.
    destruct (decide (c = c')) as [->|]; [by apply H | done].
  - exists []. split; [done | apply segment_ok_nil].
Qed.

Lemma grows_timers_only w w' : timers_only w w' -> grows w w'.
Proof.
  intros (_&_&_&Hp&Hc&Hn&_&_&_&_&seg&Ht&Hf). split_and!.
  - by rewrite Hp.
  - done.
  - by rewrite Hc.
  - exists seg. split; [done | by apply segment_ok_timer_events].
Qed.

Lemma grows_getRadius c node w : grows w (snd (getRadius c node w)).
Proof.
  rewrite getRadius_eq. destruct (cachedRadius _); [apply grows_refl|].
  cbn [snd]. eapply grows_trans.
  - apply grows_log_events, segment_ok_quiet, lookup_events_quiet.
  - apply grows_modify_corner. intros o. unfold geometry_cached. cbn.
    by destruct (cachedRadius o).
Qed.

Lemma grows_getBorderWidth c node w :
  grows w (snd (getBorderWidth c node w)).
Proof.
  rewrite getBorderWidth_eq.
  destruct (cachedBorderWidth _); [apply grows_refl|].
  cbn [snd]. eapply grows_trans.
  - apply grows_log_events, segment_ok_quiet, lookup_events_quiet.
  - apply grows_modify_corner. intros o. unfold geometry_cached. cbn.
    by destruct (cachedRadius o), (cachedBorderWidth o).
Qed.

Lemma grows_property_set key value w : grows w (property_set key value w).
Proof.
  unfold property_set. eapply grows_trans; [|eapply grows_trans].
  - by apply (grows_same w (set_settings (set_text key value (settings w)) w)).
  - by apply (grows_emit (EvSettingSet key value)).
  - apply grows_timers_only, notify_changed_timers_only.
Qed.

Lemma grows_lookup_for_color cfs node prop w :
  grows w (snd (lookup_for_color cfs node prop w)).
Proof.
  rewrite lookup_for_color_eq. cbn zeta.
  destruct (fst (cfs _)); cbn [snd].
  - apply grows_log_events, segment_ok_quiet, lookup_events_quiet.
  - eapply grows_trans; [|apply grows_property_set].
    apply grows_log_events, segment_ok_quiet, lookup_events_quiet.
Qed.

Lemma grows_getBackgroundColor cfs c node w :
  grows w (snd (getBackgroundColor cfs c node w)).
Proof.
  rewrite getBackgroundColor_eq.
  destruct (cachedBackgroundColor _); [apply grows_refl|].
  cbn [snd]. eapply grows_trans; [apply grows_lookup_for_color|].
  by apply grows_modify_corner.
Qed.

Lemma grows_style_changed duration c w :
  grows w (vfunc_style_changed duration c w).
Proof.
  rewrite vfunc_style_changed_eq. split_and!; try done.
  - intros c' Hc. cbn. rewrite lookup_total_insert.
    by destruct (decide (c = c')).
  - exists (style_events duration c w). split; [done|].
    apply segment_ok_style_events.
Qed.

Lemma styled_after_pass duration c w :
  geometry_cached (corners (vfunc_style_changed duration c w) !!! c) = true /\
  existsb (is_begin c) (trace (vfunc_style_changed duration c w)) = true.
Proof.
  rewrite vfunc_style_changed_eq. cbn. rewrite lookup_total_insert_eq.
  split; [done|]. unfold style_events.
  rewrite !existsb_app. cbn. rewrite Nat.eqb_refl. by rewrite !orb_true_r.
Qed.

(** The debounced callback: the invalidation is followed at once by a
    style-changed pass, so no corner is left without cached geometry. *)
Lemma grows_run_callback duration cb w : grows w (run_callback duration cb w).
Proof.
  destruct cb as [c]. unfold run_callback.
  rewrite vfunc_style_changed_eq. unfold invalidateCache.
  split_and!; try done.
  - intros c' Hc. cbn. rewrite lookup_total_insert.
    destruct (decide (c = c')) as [->|Hne]; [done|].
    by rewrite lookup_total_insert_ne.
  - eexists (_ ++ [EvInvalidate c])%list. split.
    + cbn. rewrite <- app_assoc. reflexivity.
    + apply segment_ok_app; [|apply segment_ok_style_events].
      apply segment_ok_quiet. by repeat constructor.
Qed.

Lemma grows_timeout_expired duration d w :
  grows w (timeout_expired duration d w).
Proof.
  unfold timeout_expired. eapply grows_trans; [|apply grows_run_callback].
  by apply grows_same.
Qed.

Lemma grows_dispatch_source duration s w :
  grows w (dispatch_source duration s w).
Proof.
  unfold dispatch_source. destruct (attached _ _); [|apply grows_refl].
  eapply grows_trans; [by apply (grows_emit (EvTimerFired (source_id s)))|].
  eapply grows_trans;
    [apply (grows_timeout_expired duration (owner s))|].
  generalize (timeout_expired duration (owner s)
                (emit (EvTimerFired (source_id s)) w)).
  intros x. by apply grows_same.
Qed.

Lemma grows_dispatch duration w : grows w (dispatch duration w).
Proof.
  unfold dispatch.
  generalize (List.filter (fun s => Nat.leb (due s) (now w)) (sources w)).
  intros l. revert w. induction l as [|s l IH]; intros w; [apply grows_refl|].
  cbn [fold_left]. eapply grows_trans; [apply grows_dispatch_source|apply IH].
Qed.

Lemma grows_advance duration ms : forall w, grows w (advance duration ms w).
Proof.
  induction ms as [|ms IH]; intros w; [apply grows_refl|].
  cbn [advance]. eapply grows_trans; [|apply IH].
  eapply grows_trans; [|apply grows_dispatch]. by apply grows_same.
Qed.

Lemma grows_repaint cfs c w : grows w (vfunc_repaint cfs c w).
Proof.
  unfold vfunc_repaint.
  pose proof (grows_getRadius c (theme_node w) w) as H1.
  destruct (getRadius c (theme_node w) w) as [r w1]. cbn [snd] in H1.
  pose proof (grows_getBorderWidth c (theme_node w) w1) as H2.
  destruct (getBorderWidth c (theme_node w) w1) as [b w2]. cbn [snd] in H2.
  pose proof (grows_getBackgroundColor cfs c (theme_node w) w2) as H3.
  destruct (getBackgroundColor cfs c (theme_node w) w2) as [bg w3].
  cbn [snd] in H3.
  eapply grows_trans; [exact H1|]. eapply grows_trans; [exact H2|].
  eapply grows_trans; [exact H3|].
  eapply grows_trans; [by apply (grows_modify_corner c (set_painted bg))|].
  by apply grows_emit.
Qed.

Lemma grows_cancel d w : grows w (cancel d w).
Proof.
  unfold cancel. destruct (timeoutId _) as [a|]; [|apply grows_refl].
  split_and!; try done. exists [EvSourceRemove a]. split; [done|].
  apply segment_ok_quiet. by repeat constructor.
Qed.

Lemma grows_panel_disconnect i w : grows w (panel_disconnect i w).
Proof.
  split_and!; try done.
  - intros h. cbn. rewrite filter_In. tauto.
  - exists [EvDisconnect i]. split; [done|].
    apply segment_ok_quiet. by repeat constructor.
Qed.

Lemma grows_remove_connections c w : grows w (remove_connections c w).
Proof.
  unfold remove_connections.
  apply (grows_trans _ (disconnect_position c w)).
  - unfold disconnect_position.
    destruct (position_changed_id (corners w !!! c)) as [[|i]|];
      try apply grows_refl.
    apply (grows_trans _ (panel_disconnect (S i) w));
      [apply grows_panel_disconnect|].
    by apply grows_modify_corner.
  - generalize (disconnect_position c w). intros x.
    unfold disconnect_size.
    destruct (size_changed_id (corners x !!! c)) as [[|i]|];
      try apply grows_refl.
    apply (grows_trans _ (panel_disconnect (S i) x));
      [apply grows_panel_disconnect|].
    by apply grows_modify_corner.
Qed.

Lemma grows_remove_corner c w : grows w (remove_corner c w).
Proof.
  unfold remove_corner.
  apply (grows_trans _ (remove_connections c w));
    [apply grows_remove_connections|].
  generalize (remove_connections c w). intros x.
  unfold destroy, remove_child.
  apply (grows_trans _ (modify_corner c set_destroyed (remove_child c x)));
    [|by apply grows_emit].
  apply (grows_trans _ (remove_child c x));
    [|by apply grows_modify_corner].
  unfold grows, remove_child. split_and!; try done.
  exists [EvRemoveChild c]. split; [done|].
  apply segment_ok_quiet. by repeat constructor.
Qed.

Lemma grows_remove w : grows w (remove w).
Proof.
  unfold remove.
  apply (grows_trans _ (cancel_pending w));
    [|apply (grows_trans _ (disconnect_all (cancel_pending w)));
      [|apply (grows_trans _
                 (remove_left (disconnect_all (cancel_pending w))))]].
  - unfold cancel_pending.
    destruct (debouncedStyleUpdate w) as [d|]; [|apply grows_refl].
    apply (grows_trans _ (cancel d w)); [apply grows_cancel|].
    generalize (cancel d w). intros x. by apply grows_same.
  - generalize (cancel_pending w). intros x.
    by apply (grows_same x (disconnect_all x)).
  - generalize (disconnect_all (cancel_pending w)). intros x.
    unfold remove_left. destruct (_leftCorner (panel x)) as [l|];
      [|apply grows_refl].
    apply (grows_trans _ (remove_corner l x)); [apply grows_remove_corner|].
    generalize (remove_corner l x). intros y. by apply grows_same.
  - generalize (remove_left (disconnect_all (cancel_pending w))). intros x.
    unfold remove_right. destruct (_rightCorner (panel x)) as [r|];
      [|apply grows_refl].
    apply (grows_trans _ (remove_corner r x)); [apply grows_remove_corner|].
    generalize (remove_corner r x). intros y. by apply grows_same.
Qed.

(** An allocation triggered by a panel notification, on a corner that has
    been styled, keeps the world in order. *)
Lemma in_order_update_allocation c w :
  in_order w ->
  geometry_cached (corners w !!! c) = true ->
  existsb (is_begin c) (trace w) = true ->
  in_order (update_allocation c w) /\
  handlers (panel (update_allocation c w)) = handlers (panel w).
Proof.
  intros [Hj Hh] Hc Hb. split; [|done]. split.
  - unfold update_allocation. cbn. rewrite Hc. cbn.
    unfold allocation_in_order. rewrite Hb, Hj. cbn.
    by rewrite orb_true_r.
  - unfold handlers_styled in *. unfold update_allocation. cbn.
    eapply Forall_impl; [exact Hh|]. cbn. intros h (H1 & H2 & H3).
    split_and!; [done | | done].
    rewrite lookup_total_insert.
    by destruct (decide (c = bound h)) as [->|].
Qed.

Lemma panel_emit_in_order sig w : in_order w -> in_order (panel_emit sig w).
Proof.
  unfold panel_emit.
  assert (H : forall l acc,
            in_order acc ->
            (forall h, In h l -> In h (handlers (panel acc))) ->
            in_order
              (fold_left
                 (fun acc h =>
                    if String.eqb (signal h) sig
                    then update_allocation (bound h) acc else acc) l acc)).
  { induction l as [|h l IH]; intros acc Ho Hin; [done|].
    cbn [fold_left]. destruct (String.eqb (signal h) sig).
    - destruct Ho as [Hj Hh].
      assert (Hh' := Hh). unfold handlers_styled in Hh'.
      rewrite List.Forall_forall in Hh'.
      destruct (Hh' h (Hin h (or_introl eq_refl))) as (_ & H2 & H3).
      destruct (in_order_update_allocation (bound h) acc (conj Hj Hh) H2 H3)
        as [Ho' Heq].
      apply IH; [done|]. intros h' Hh''. rewrite Heq.
      apply Hin. by right.
    - apply IH; [done|]. intros h' Hh''. apply Hin. by right. }
  intros Ho. by apply H.
Qed.

(** The constructor: a new corner, two handlers bound to it, and its one
    allocation right after the construction. *)
Lemma new_PanelCorner_effect s w :
  let c := next_corner w in
  let w' := snd (new_PanelCorner s w) in
  fst (new_PanelCorner s w) = c /\
  (forall h, In h (handlers (panel w')) ->
             In h (handlers (panel w)) \/ bound h = c) /\
  next_corner w' = S c /\
  (forall c', c' <> c -> corners w' !!! c' = corners w !!! c') /\
  exists filled box,
    trace w' = EvAllocate c filled box :: EvConstruct c :: trace w.
Proof.
  cbn zeta. unfold new_PanelCorner, update_allocation. cbn.
  split_and!; try done.
  - intros h. rewrite <- app_assoc, in_app_iff. cbn.
    intros [H|[<-|[<-|[]]]]; tauto.
  - intros c' Hne. by rewrite !lookup_total_insert_ne.
  - by eexists _, _.
Qed.

Lemma grows_update_corner duration c w :
  grows w (update_corner duration c w).
Proof.
  unfold update_corner.
  apply (grows_trans _ (vfunc_style_changed duration c
                          (add_child c (emit (EvBindStyle c) w)))).
  - apply (grows_trans _ (add_child c (emit (EvBindStyle c) w)));
      [|apply grows_style_changed].
    unfold grows, add_child. split_and!; try done.
    exists [EvAddChild c; EvBindStyle c]. split; [done|].
    apply segment_ok_quiet. by repeat constructor.
  - generalize (vfunc_style_changed duration c
                  (add_child c (emit (EvBindStyle c) w))).
    intros x. unfold debounce. cbn. rewrite connect_fold.
    by apply grows_same.
Qed.

Lemma update_corner_styled duration c w :
  geometry_cached (corners (update_corner duration c w) !!! c) = true /\
  existsb (is_begin c) (trace (update_corner duration c w)) = true.
Proof.
  unfold update_corner.
  destruct (styled_after_pass duration c
              (add_child c (emit (EvBindStyle c) w))) as [H1 H2].
  revert H1 H2.
  generalize (vfunc_style_changed duration c
                (add_child c (emit (EvBindStyle c) w))).
  intros x H1 H2. unfold debounce. cbn. rewrite connect_fold. by cbn.
Qed.

Lemma grows_log str w : grows w (log str w).
Proof.
  unfold log. destruct (DEBUG (settings w)); [|apply grows_refl].
  by apply grows_emit.
Qed.

(** [update()]: each new corner is allocated once by its constructor and is
    styled before [update()] returns. *)
Lemma in_order_update duration w : in_order w -> in_order (update duration w).
Proof.
  intros Ho. unfold update.
  assert (H0 : in_order (remove (log "updating panel corners..." w))).
  { eapply in_order_grows; [|exact Ho].
    eapply grows_trans; [apply grows_log | apply grows_remove]. }
  revert H0. generalize (remove (log "updating panel corners..." w)).
  clear w Ho. intros w [Hj Hh].
  (* the constructor of the left corner *)
  destruct (new_PanelCorner_effect LEFT w)
    as (Hl & Hh1 & Hn1 & Hc1 & f1 & b1 & Ht1).
  cbn zeta in *.
  destruct (new_PanelCorner LEFT w) as [l w1]. cbn [fst snd] in *. subst l.
  set (l := next_corner w) in *.
  assert (Hh1' : forall h,
            In h (handlers (panel (modify_panel (set_leftCorner (Some l)) w1)))
            -> In h (handlers (panel w)) \/ bound h = l) by exact Hh1.
  assert (Hn1' : next_corner (modify_panel (set_leftCorner (Some l)) w1) =
                 S l) by exact Hn1.
  assert (Hc1' : forall c', c' <> l ->
            corners (modify_panel (set_leftCorner (Some l)) w1) !!! c' =
            corners w !!! c') by exact Hc1.
  assert (Ht1' : trace (modify_panel (set_leftCorner (Some l)) w1) =
                 EvAllocate l f1 b1 :: EvConstruct l :: trace w) by exact Ht1.
  clear Hh1 Hn1 Hc1 Ht1. revert Hh1' Hn1' Hc1' Ht1'.
  generalize (modify_panel (set_leftCorner (Some l)) w1). clear w1.
  intros w2 Hh2 Hn2 Hc2 Ht2.
  (* the constructor of the right corner *)
  destruct (new_PanelCorner_effect RIGHT w2)
    as (Hr & Hh3 & Hn3 & Hc3 & f3 & b3 & Ht3).
  cbn zeta in *.
  destruct (new_PanelCorner RIGHT w2) as [r w3]. cbn [fst snd] in *.
  rewrite Hn2 in *. subst r.
  assert (Hh3' : forall h,
            In h (handlers (panel (modify_panel (set_rightCorner (Some (S l)))
                                     w3)))
            -> In h (handlers (panel w2)) \/ bound h = S l) by exact Hh3.
  assert (Hn3' : next_corner (modify_panel (set_rightCorner (Some (S l))) w3)
                 = S (S l)) by exact Hn3.
  assert (Hc3' : forall c', c' <> S l ->
            corners (modify_panel (set_rightCorner (Some (S l))) w3) !!! c' =
            corners w2 !!! c') by exact Hc3.
  assert (Ht3' : trace (modify_panel (set_rightCorner (Some (S l))) w3) =
                 EvAllocate (S l) f3 b3 :: EvConstruct (S l) :: trace w2)
    by exact Ht3.
  clear Hh3 Hn3 Hc3 Ht3. revert Hh3' Hn3' Hc3' Ht3'.
  generalize (modify_panel (set_rightCorner (Some (S l))) w3). clear w3.
  intros w4 Hh4 Hn4 Hc4 Ht4.
  (* both corners are styled *)
  pose proof (grows_update_corner duration l w4) as Hg5.
  destruct (update_corner_styled duration l w4) as [Hs5 Hb5].
  revert Hg5 Hs5 Hb5. generalize (update_corner duration l w4).
  intros w5 Hg5 Hs5 Hb5.
  pose proof (grows_update_corner duration (S l) w5) as Hg6.
  destruct (update_corner_styled duration (S l) w5) as [Hs6 Hb6].
  revert Hg6 Hs6 Hb6. generalize (update_corner duration (S l) w5).
  intros w6 Hg6 Hs6 Hb6.
  eapply in_order_grows; [apply grows_log|].
  assert (Hg : grows w4 w6) by (by eapply grows_trans).
  assert (Hj4 : allocations_in_order (trace w4) = true).
  { rewrite Ht4, Ht2. cbn. unfold allocation_in_order. cbn.
    by rewrite !Nat.eqb_refl. }
  destruct Hg as (G1 & G2 & G3 & seg & G4 & G5).
  split.
  - rewrite G4. by apply G5.
  - unfold handlers_styled in *. rewrite List.Forall_forall in *.
    intros h Hin. rewrite G2, Hn4.
    destruct (Hh4 h (G1 h Hin)) as [Hin2|Hr].
    + destruct (Hh2 h Hin2) as [Hin0|Hl].
      * destruct (Hh h Hin0) as (B1 & B2 & B3).
        fold l in B1. split_and!.
        -- lia.
        -- apply G3. rewrite Hc4 by lia. rewrite Hc2 by lia. done.
        -- rewrite G4. apply existsb_begin_app. rewrite Ht4, Ht2. cbn.
           done.
      * rewrite Hl. split_and!.
        -- lia.
        -- destruct Hg6 as (_ & _ & M & _). by apply M.
        -- by eapply existsb_begin_grows.
    + rewrite Hr. split_and!; [lia | done | done].
Qed.

Lemma in_order_step cfs duration w a :
  in_order w -> in_order (step cfs duration w a).
Proof.
  intros Ho. destruct a as [| |s key|sig nw nh|pc|node scale|c|c|ms];
    cbn [step].
  - by apply in_order_update.
  - eapply in_order_grows; [apply grows_remove | done].
  - eapply in_order_grows; [|exact Ho].
    apply (grows_trans _ (set_settings (edit s (settings w)) w)).
    + by apply grows_same.
    + apply grows_timers_only, notify_changed_timers_only.
  - apply panel_emit_in_order.
    eapply in_order_grows; [|exact Ho]. by apply grows_same.
  - eapply in_order_grows; [|exact Ho]. by apply grows_same.
  - eapply in_order_grows; [|exact Ho]. by apply grows_same.
  - destruct (is_child c w); [|done].
    eapply in_order_grows; [apply grows_style_changed | done].
  - destruct (is_child c w); [|done].
    eapply in_order_grows; [apply grows_repaint | done].
  - eapply in_order_grows; [apply grows_advance | done].
Qed.

Lemma in_order_run cfs duration acts : forall w,
  in_order w -> in_order (run cfs duration acts w).
Proof.
  induction acts as [|a acts IH]; intros w Ho; [done|].
  unfold run. cbn [fold_left]. apply IH. by apply in_order_step.
Qed.

(** C9, the claim as stated fails: in [update()] the constructor of each
    corner runs [#update_allocation] (the oldest two entries of the trace
    are the construction of the left corner and its allocation, with nothing
    cached) before any style-changed pass of that corner. *)
Lemma C9_counterexample :
  let tr := trace (update 250 (demo_world false 12 2 "#112233ff" None)) in
  after_style_pass tr = false /\
  drop (length tr - 2) tr =
    [ EvAllocate 0 false {| x1 := 0; x2 := 0; y1 := 40; y2 := 40 |};
      EvConstruct 0 ].
Proof. by vm_compute. Qed.

(** C9, amended: in every execution (any sequence of [update()], [remove()],
    settings changes, panel notifications, theme and pseudo-class changes,
    style-changed and repaint requests of the host on attached corners, and
    time passing), every run of the allocation computation is either the one
    made by the constructor of the corner, or comes after the start of a
    style-changed pass of that corner and finds radius and border width
    cached. *)
Theorem C9_allocation_in_order cfs duration acts s scale node
    panel_width panel_height pc :
  allocations_in_order
    (trace (run cfs duration acts
              (initial s scale node panel_width panel_height pc))) = true.
Proof.
  apply (in_order_run cfs duration acts). split; [done|].
  unfold handlers_styled. cbn. constructor.
Qed.

(** The amended property rules out what it should: an allocation on a
    corner with nothing cached, away from its constructor, is not in
    order. *)
Example allocations_in_order_rejects :
  allocations_in_order
    [ EvAllocate 0 false {| x1 := 0; x2 := 0; y1 := 40; y2 := 40 |};
      EvStyleChangedBegin 0; EvConstruct 0 ] = false /\
  allocations_in_order
    [ EvAllocate 0 true {| x1 := 0; x2 := 0; y1 := 40; y2 := 40 |};
      EvConstruct 1 ] = false.
Proof. by vm_compute. Qed.

(** * Further properties of the code *)

(** ** debounce: cancelling and firing *)

Lemma same_timers_run_callback duration cb w :
  same_timers w (run_callback duration cb w).
Proof.
  destruct cb as [c]. unfold run_callback.
  eapply same_timers_trans; [apply (same_timers_invalidateCache c)|].
  apply same_timers_style_changed.
Qed.

(** X1: [debounced.cancel()] is idempotent: a second call in a row changes
    nothing (it removes no source); and on a wrapper that [debounce] has just
    returned, never invoked, it does nothing at all. *)
Theorem cancel_idempotent d cb delay w :
  cancel d (cancel d w) = cancel d w /\
  cancel (fst (debounce cb delay w)) (snd (debounce cb delay w)) =
    snd (debounce cb delay w).
Proof.
  split.
  - assert (H : timeoutId (closures (cancel d w) !!! d) = None).
    { unfold cancel.
      destruct (timeoutId (closures w !!! d)) as [a|] eqn:E; [|done].
      rewrite modify_closure_lookup. by destruct (decide (d = d)). }
    revert H. generalize (cancel d w). intros x H.
    unfold cancel. by rewrite H.
  - unfold cancel, debounce. cbn. by rewrite lookup_total_insert_eq.
Qed.



(** X3: when a timer fires, the wrapper's [timeoutId] cell is cleared and the
    source is detached; hence a [cancel()] after the firing does nothing, and
    the next invocation of the wrapper attaches a new source without removing
    any. *)
Theorem fired_timer_clears_cell duration s w :
  attached (source_id s) w = true ->
  let d := owner s in
  let w' := dispatch_source duration s w in
  timeoutId (closures w' !!! d) = None /\
  attached (source_id s) w' = false /\
  cancel d w' = w' /\
  trace (debounced d w') =
    EvTimeoutAdd (next_source w') (now w' + wait (closures w' !!! d)) ::
    trace w'.
Proof.
  intros Hatt. cbn zeta.
  assert (H : timeoutId (closures (dispatch_source duration s w) !!! owner s)
              = None /\
              attached (source_id s) (dispatch_source duration s w) = false).
  { unfold dispatch_source. rewrite Hatt. unfold timeout_expired.
    set (x := modify_closure (owner s) (set_timeoutId None)
                (emit (EvTimerFired (source_id s)) w)).
    assert (Hx : timeoutId (closures x !!! owner s) = None).
    { subst x. rewrite modify_closure_lookup.
      by destruct (decide (owner s = owner s)). }
    pose proof (same_timers_run_callback duration
                  (callback (closures x !!! owner s)) x) as (A&_).
    revert A. generalize (run_callback duration
                            (callback (closures x !!! owner s)) x).
    intros y A. cbn. rewrite A. split; [done|].
    unfold attached. cbn. apply detached. }
  revert H. generalize (dispatch_source duration s w). intros w' [H1 H2].
  split_and!; [done | done | |].
  - unfold cancel. by rewrite H1.
  - unfold debounced. by rewrite H1.
Qed.

(** X3 at work: the one timer of a wrapper fires. *)
Lemma fired_timer_clears_cell_witness :
  let w := debounced 0 (snd (debounce (StyleUpdate 0) 50
                               (demo_world false 12 2 "#112233ff" None))) in
  let s := {| source_id := 1; due := 50; owner := 0 |} in
  sources w = [s] /\
  timeoutId (closures (dispatch_source 250 s w) !!! 0) = None /\
  cancel 0 (dispatch_source 250 s w) = dispatch_source 250 s w.
Proof.
  pose proof (fired_timer_clears_cell 250
                {| source_id := 1; due := 50; owner := 0 |}
                (debounced 0 (snd (debounce (StyleUpdate 0) 50
                                (demo_world false 12 2 "#112233ff" None))))
                eq_refl) as (H1 & _ & H3 & _).
  split; [reflexivity | split; [exact H1 | exact H3]].
Defined.

(** ** The lookups leave the world alone *)

(** X4: [lookup_for_length] and [lookup_for_double] only read: settings,
    corners, panel, timers and subscriptions are as before and no setting is
    written.  So does [lookup_for_color] when the stored string parses; when
    it does not, the one change to the settings is the text of that key. *)
Theorem lookups_read_only cfs node prop w :
  let unchanged (w' : World) :=
    settings w' = settings w /\ corners w' = corners w /\
    panel w' = panel w /\ sources w' = sources w /\
    closures w' = closures w /\ connections w' = connections w /\
    writes (trace w') = writes (trace w) in
  unchanged (snd (lookup_for_length node prop w)) /\
  unchanged (snd (lookup_for_double node prop w)) /\
  let w' := snd (lookup_for_color cfs node prop w) in
  if fst (cfs (texts (settings w) (slice1 prop))) then unchanged w'
  else settings w' = set_text (slice1 prop) "#000000ff" (settings w) /\
       corners w' = corners w /\ panel w' = panel w /\
       connections w' = connections w.
Proof.
  cbn zeta.
  rewrite lookup_for_length_eq, lookup_for_double_eq, lookup_for_color_eq.
  cbn zeta. split_and!; try done.
  - cbn. by rewrite writes_app, writes_lookup_events.
  - cbn. by rewrite writes_app, writes_lookup_events.
  - destruct (fst (cfs _)); cbn [snd].
    + split_and!; try done.
      cbn. by rewrite writes_app, writes_lookup_events.
    + unfold property_set.
      match goal with |- context [notify_changed ?k ?x] =>
        destruct (notify_changed_timers_only k x)
          as (Hs&_&_&Hp&Hc&_&Hn&_) end.
      by rewrite Hs, Hp, Hc, Hn.
Qed.

(** ** PanelCorner: the panel handlers *)

Lemma disconnect_position_falsy c w :
  truthy_id (position_changed_id (corners w !!! c)) = false ->
  disconnect_position c w = w.
Proof.
  unfold disconnect_position.
  by destruct (position_changed_id (corners w !!! c)) as [[|i]|].
Qed.

Lemma disconnect_size_falsy c w :
  truthy_id (size_changed_id (corners w !!! c)) = false ->
  disconnect_size c w = w.
Proof.
  unfold disconnect_size.
  by destruct (size_changed_id (corners w !!! c)) as [[|i]|].
Qed.

Lemma disconnect_position_ids c w :
  truthy_id (position_changed_id (corners (disconnect_position c w) !!! c))
    = false /\
  size_changed_id (corners (disconnect_position c w) !!! c) =
    size_changed_id (corners w !!! c).
Proof.
  unfold disconnect_position.
  destruct (position_changed_id (corners w !!! c)) as [[|i]|] eqn:E;
    rewrite ?E; try done.
  rewrite modify_corner_same. done.
Qed.

Lemma disconnect_size_ids c w :
  truthy_id (size_changed_id (corners (disconnect_size c w) !!! c)) = false /\
  position_changed_id (corners (disconnect_size c w) !!! c) =
    position_changed_id (corners w !!! c).
Proof.
  unfold disconnect_size.
  destruct (size_changed_id (corners w !!! c)) as [[|i]|] eqn:E;
    rewrite ?E; try done.
  rewrite modify_corner_same. done.
Qed.

(** X5: [remove_connections()] is idempotent: once it has run, both handler
    ids of the corner are falsy and a second call disconnects nothing. *)
Theorem remove_connections_idempotent c w :
  let w' := remove_connections c w in
  truthy_id (position_changed_id (corners w' !!! c)) = false /\
  truthy_id (size_changed_id (corners w' !!! c)) = false /\
  remove_connections c w' = w'.
Proof.
  cbn zeta. unfold remove_connections.
  destruct (disconnect_position_ids c w) as [H1 _].
  revert H1. generalize (disconnect_position c w). intros w1 H1.
  destruct (disconnect_size_ids c w1) as [H2 H3].
  rewrite <- H3 in H1.
  revert H1 H2. generalize (disconnect_size c w1). intros w2 H1 H2.
  split_and!; [done | done |].
  rewrite (disconnect_position_falsy c w2 H1).
  by apply disconnect_size_falsy.
Qed.

Lemma filter_handlers_fresh n i (l : list Handler) :
  Forall (fun h => handler_id h <= n) l -> n < i ->
  List.filter (fun h => negb (Nat.eqb (handler_id h) i)) l = l.
Proof.
  intros H Hi. induction H as [|h l Hh _ IH]; [done|]. cbn.
  destruct (Nat.eqb_spec (handler_id h) i); [lia|]. cbn. by rewrite IH.
Qed.

(** X6: the constructor of a corner connects two handlers on the panel, for
    [notify::position] and [notify::size], both bound to the new corner, and
    [remove_connections()] takes exactly these two away again: the panel is
    left with the handlers it had before the corner was made, and the corner
    with no handler id. *)
Theorem connections_round_trip s w :
  handlers_fresh w ->
  let c := fst (new_PanelCorner s w) in
  let w1 := snd (new_PanelCorner s w) in
  let w2 := remove_connections c w1 in
  let n := next_handler (panel w) in
  handlers (panel w1) =
    (handlers (panel w) ++
     [ {| handler_id := S n; signal := "notify::position"; bound := c |};
       {| handler_id := S (S n); signal := "notify::size"; bound := c |} ])%list
  /\
  position_changed_id (corners w1 !!! c) = Some (S n) /\
  size_changed_id (corners w1 !!! c) = Some (S (S n)) /\
  handlers (panel w2) = handlers (panel w) /\
  position_changed_id (corners w2 !!! c) = None /\
  size_changed_id (corners w2 !!! c) = None /\
  handlers_fresh w2.
Proof.
  intros Hf. cbn zeta. unfold handlers_fresh in *.
  set (n := next_handler (panel w)) in *.
  assert (E : Nat.eqb (S (S n)) (S n) = false) by (apply Nat.eqb_neq; lia).
  unfold new_PanelCorner, update_allocation, remove_connections,
    disconnect_size, disconnect_position. cbn -[Nat.eqb].
  rewrite !lookup_total_insert_eq. cbn -[Nat.eqb].
  rewrite !lookup_total_insert_eq. cbn -[Nat.eqb].
  rewrite !lookup_total_insert_eq. cbn -[Nat.eqb].
  rewrite <- !app_assoc. cbn -[Nat.eqb]. fold n.
  rewrite !List.filter_app. cbn -[Nat.eqb].
  rewrite !Nat.eqb_refl, E. cbn -[Nat.eqb].
  rewrite !Nat.eqb_refl. cbn -[Nat.eqb].
  rewrite !app_nil_r.
  rewrite (filter_handlers_fresh n (S n)) by (done || lia).
  rewrite (filter_handlers_fresh n (S (S n))) by (done || lia).
  split_and!; try done.
  eapply Forall_impl; [exact Hf|]. cbn. lia.
Qed.

(** X6 at work: a left corner made on a panel without handlers. *)
Lemma connections_round_trip_witness :
  let w := demo_world false 12 2 "#112233ff" None in
  handlers (panel (remove_connections 0 (snd (new_PanelCorner LEFT w)))) = [].
Proof.
  pose proof (connections_round_trip LEFT
                (demo_world false 12 2 "#112233ff" None)) as H.
  cbn zeta in H. destruct H as (_ & _ & _ & H & _).
  - constructor.
  - exact H.
Defined.


(** ** The style-changed pass and the allocation *)

Lemma styled_absorb c w w' o : styled c w (styled c w' o) = styled c w o.
Proof. reflexivity. Qed.

Lemma styled_fields c w o :
  side (styled c w o) = side o /\
  natural_width (styled c w o) = radius_of w /\
  natural_height (styled c w o) = (border_width_of w + radius_of w)%Q /\
  translation_y (styled c w o) = (- border_width_of w)%Q /\
  allocation (styled c w o) = Some (box_of c w).
Proof. done. Qed.

(** What a style-changed pass reads from the world, and the one thing it
    writes besides the trace. *)
Lemma style_pass_view duration c w :
  let w1 := vfunc_style_changed duration c w in
  radius_of w1 = radius_of w /\ border_width_of w1 = border_width_of w /\
  opacity_of w1 = opacity_of w /\ ease_target w1 = ease_target w /\
  panel w1 = panel w /\
  corners w1 = <[c := styled c w (corners w !!! c)]> (corners w).
Proof. cbn zeta. by rewrite vfunc_style_changed_eq. Qed.

Lemma styled_eq c w w' o :
  radius_of w' = radius_of w -> border_width_of w' = border_width_of w ->
  opacity_of w' = opacity_of w -> ease_target w' = ease_target w ->
  box_of c w' = box_of c w ->
  styled c w' o = styled c w o.
Proof. unfold styled. by intros -> -> -> -> ->. Qed.

(** X7: a style-changed pass sets the preferred size of the corner to the
    resolved radius by border width plus radius and its vertical translation
    to minus the border width, but it allocates before it sets the size: the
    box of the pass is computed from the preferred size the corner had before
    the pass.  A second pass in a row allocates the box of the resolved size,
    and from then on a further pass changes no corner. *)
Theorem style_pass_settles duration c w :
  let pass := vfunc_style_changed duration c in
  let o := corners w !!! c in
  let r := radius_of w in
  let b := border_width_of w in
  let o1 := corners (pass w) !!! c in
  let o2 := corners (pass (pass w)) !!! c in
  (natural_width o1 = r /\ natural_height o1 = (b + r)%Q /\
   translation_y o1 = (- b)%Q /\
   allocation o1 =
     Some (childBox (side o) (natural_width o) (natural_height o)
             (width (panel w)) (height (panel w)))) /\
  allocation o2 =
    Some (childBox (side o) r (b + r)%Q (width (panel w)) (height (panel w)))
  /\
  corners (pass (pass (pass w))) = corners (pass (pass w)).
Proof.
  cbn zeta.
  destruct (style_pass_view duration c w) as (R1 & B1 & O1 & E1 & P1 & C1).
  cbn zeta in *. revert R1 B1 O1 E1 P1 C1.
  generalize (vfunc_style_changed duration c w). intros w1 R1 B1 O1 E1 P1 C1.
  destruct (style_pass_view duration c w1) as (R2 & B2 & O2 & E2 & P2 & C2).
  cbn zeta in *. revert R2 B2 O2 E2 P2 C2.
  generalize (vfunc_style_changed duration c w1).
  intros w2 R2 B2 O2 E2 P2 C2.
  destruct (style_pass_view duration c w2) as (_ & _ & _ & _ & _ & C3).
  cbn zeta in *. revert C3.
  generalize (vfunc_style_changed duration c w2). intros w3 C3.
  destruct (styled_fields c w (corners w !!! c)) as (F1 & F2 & F3 & F4 & F5).
  assert (L1 : corners w1 !!! c = styled c w (corners w !!! c))
    by (by rewrite C1, lookup_total_insert_eq).
  assert (Hbox1 : box_of c w1 =
                  childBox (side (corners w !!! c)) (radius_of w)
                    (border_width_of w + radius_of w)%Q
                    (width (panel w)) (height (panel w))).
  { unfold box_of. by rewrite L1, F1, F2, F3, P1. }
  assert (L2 : corners w2 !!! c = styled c w1 (corners w1 !!! c))
    by (by rewrite C2, lookup_total_insert_eq).
  destruct (styled_fields c w1 (corners w1 !!! c))
    as (G1 & G2 & G3 & G4 & G5).
  assert (Hbox2 : box_of c w2 = box_of c w1).
  { unfold box_of at 1. rewrite L2, G1, G2, G3, P2, R1, B1, L1, F1, P1.
    by rewrite Hbox1. }
  split_and!.
  - by rewrite L1.
  - by rewrite L1.
  - by rewrite L1.
  - by rewrite L1.
  - by rewrite L2, G5, Hbox1.
  - rewrite C3, L2, C2, insert_insert_eq. f_equal.
    rewrite (styled_eq c w1 w2) by done.
    apply styled_absorb.
Qed.


(** X19: the callback that [update_corner] debounces calls
    [invalidateCache()] and then [vfunc_style_changed()], which invalidates
    again: the first invalidation is not observable.  A style-changed pass
    after an invalidation leaves corners, panel, settings, timers and
    subscriptions exactly as the pass alone does, and the same trace but for
    the one entry of the invalidation; and a pass on one corner leaves every
    other corner as it was. *)
Theorem invalidation_before_pass_is_redundant duration c w :
  let a := vfunc_style_changed duration c (invalidateCache c w) in
  let b := vfunc_style_changed duration c w in
  corners a = corners b /\ panel a = panel b /\ settings a = settings b /\
  sources a = sources b /\ closures a = closures b /\
  connections a = connections b /\
  (exists seg : list Event,
     trace b = (seg ++ trace w)%list /\
     trace a = (seg ++ EvInvalidate c :: trace w)%list) /\
  forall c', c' <> c -> corners b !!! c' = corners w !!! c'.
Proof.
  cbn zeta. rewrite !vfunc_style_changed_eq. unfold invalidateCache.
  cbn. rewrite lookup_total_insert_eq, insert_insert_eq.
  assert (E : styled c
                (emit (EvInvalidate c)
                   (modify_corner c
                      (fun o =>
                         set_cachedOpacity None
                           (set_cachedBackgroundColor None
                              (set_cachedBorderWidth None
                                 (set_cachedRadius None o)))) w))
                (set_cachedOpacity None
                   (set_cachedBackgroundColor None
                      (set_cachedBorderWidth None
                         (set_cachedRadius None (corners w !!! c))))) =
              styled c w (corners w !!! c)).
  { transitivity (styled c w
                    (set_cachedOpacity None
                       (set_cachedBackgroundColor None
                          (set_cachedBorderWidth None
                             (set_cachedRadius None (corners w !!! c)))))).
    - apply styled_eq; try done.
      unfold box_of. cbn. by rewrite lookup_total_insert_eq.
    - by unfold styled. }
  split_and!; try done.
  - by rewrite E.
  - exists (style_events duration c w). split; [done|].
    unfold style_events, ease_target, in_overview, opacity_of, box_of.
    cbn. by rewrite lookup_total_insert_eq.
  - intros c' Hne. by rewrite lookup_total_insert_ne.
Qed.


(** ** Repainting *)

Lemma lookups_cons f e (l : list Event) :
  lookups f (e :: l) = (if is_lookup f e then 1 else 0) + lookups f l.
Proof. unfold lookups. cbn. by destruct (is_lookup f e). Qed.

(** Each getter leaves its field filled with the value it answers, and the
    theme node and the other fields of the corner as they were. *)
Lemma getRadius_fills c node w :
  let r := getRadius c node w in
  cachedRadius (corners (snd r) !!! c) = Some (fst r) /\
  theme_node (snd r) = theme_node w /\
  set_cachedRadius (Some (fst r)) (corners w !!! c) = corners (snd r) !!! c.
Proof.
  cbn zeta. rewrite getRadius_eq.
  destruct (cachedRadius (corners w !!! c)) as [v|] eqn:E; cbn.
  - split_and!; try done. destruct (corners w !!! c); cbn in *. by subst.
  - by rewrite lookup_total_insert_eq.
Qed.

Lemma getBorderWidth_fills c node w :
  let r := getBorderWidth c node w in
  cachedBorderWidth (corners (snd r) !!! c) = Some (fst r) /\
  theme_node (snd r) = theme_node w /\
  set_cachedBorderWidth (Some (fst r)) (corners w !!! c) =
    corners (snd r) !!! c.
Proof.
  cbn zeta. rewrite getBorderWidth_eq.
  destruct (cachedBorderWidth (corners w !!! c)) as [v|] eqn:E; cbn.
  - split_and!; try done. destruct (corners w !!! c); cbn in *. by subst.
  - by rewrite lookup_total_insert_eq.
Qed.

Lemma lookup_for_color_theme cfs node prop w :
  theme_node (snd (lookup_for_color cfs node prop w)) = theme_node w.
Proof.
  rewrite lookup_for_color_eq. cbn zeta.
  destruct (fst (cfs _)); cbn [snd]; [done|].
  unfold property_set.
  match goal with |- context [notify_changed ?k ?x] =>
    destruct (notify_changed_timers_only k x) as (_&_&Hn&_) end.
  by rewrite Hn.
Qed.

Lemma getBackgroundColor_fills cfs c node w :
  let r := getBackgroundColor cfs c node w in
  cachedBackgroundColor (corners (snd r) !!! c) = Some (fst r) /\
  theme_node (snd r) = theme_node w /\
  set_cachedBackgroundColor (Some (fst r)) (corners w !!! c) =
    corners (snd r) !!! c.
Proof.
  cbn zeta. rewrite getBackgroundColor_eq.
  destruct (cachedBackgroundColor (corners w !!! c)) as [v|] eqn:E;
    cbn [fst snd].
  - split_and!; try done. destruct (corners w !!! c); cbn in *. by subst.
  - destruct (lookup_for_color_frame cfs node
                "-panel-corner-background-color" w) as (Hc & _).
    pose proof (lookup_for_color_theme cfs node
                  "-panel-corner-background-color" w) as Hn.
    cbn zeta in Hc. revert Hc Hn.
    generalize (lookup_for_color cfs node "-panel-corner-background-color" w).
    intros [v x] Hc Hn. cbn [fst snd] in *.
    rewrite modify_corner_same. by rewrite Hc.
Qed.

(** [vfunc_repaint()] in closed form: the three getters in turn, then the
    path of the corner's side is filled. *)
Lemma vfunc_repaint_eq cfs c w :
  let node := theme_node w in
  let r := getRadius c node w in
  let b := getBorderWidth c node (snd r) in
  let g := getBackgroundColor cfs c node (snd b) in
  vfunc_repaint cfs c w =
  emit (EvPaint c (corner_path (side (corners (snd g) !!! c)) (fst r) (fst b))
          (fst g))
    (modify_corner c (set_painted (fst g)) (snd g)).
Proof.
  cbn zeta. unfold vfunc_repaint.
  destruct (getRadius c (theme_node w) w) as [r w1]. cbn [fst snd].
  destruct (getBorderWidth c (theme_node w) w1) as [b w2]. cbn [fst snd].
  by destruct (getBackgroundColor cfs c (theme_node w) w2) as [g w3].
Qed.

(** X8: a repaint after a style-changed pass draws with the radius and the
    border width that the pass resolved, also when the settings, the theme
    and the scale have changed since (nothing has invalidated the cache): the
    arc and the closing line are those of the preferred size set by the pass.
    The one lookup of the repaint is the colour, which the pass does not
    resolve; of the corner it writes the cached colour and nothing of the
    geometry. *)
Theorem repaint_after_style_pass cfs duration c w s node scale :
  let w1 := vfunc_style_changed duration c w in
  let w1' := set_theme node scale (set_settings s w1) in
  let w2 := vfunc_repaint cfs c w1' in
  let fill :=
    fst (lookup_for_color cfs node "-panel-corner-background-color" w1') in
  head (trace w2) =
    Some (EvPaint c (corner_path (side (corners w !!! c)) (radius_of w)
                       (border_width_of w)) fill) /\
  corners w2 !!! c =
    set_painted fill
      (set_cachedBackgroundColor (Some fill) (corners w1 !!! c)) /\
  natural_width (corners w2 !!! c) = radius_of w /\
  natural_height (corners w2 !!! c) = (border_width_of w + radius_of w)%Q /\
  lookups Radius (trace w2) = lookups Radius (trace w1) /\
  lookups BorderWidth (trace w2) = lookups BorderWidth (trace w1) /\
  lookups BackgroundColor (trace w2) = S (lookups BackgroundColor (trace w1)).
Proof.
  cbn zeta.
  destruct (style_pass_view duration c w) as (_ & _ & _ & _ & _ & C1).
  cbn zeta in C1. revert C1.
  generalize (vfunc_style_changed duration c w). intros w1 C1.
  assert (L1 : corners w1 !!! c = styled c w (corners w !!! c))
    by (by rewrite C1, lookup_total_insert_eq).
  clear C1.
  set (x := set_theme node scale (set_settings s w1)).
  assert (Lx : corners x !!! c = styled c w (corners w !!! c)) by exact L1.
  assert (Tx : trace x = trace w1) by done.
  assert (Nx : theme_node x = node) by done.
  clearbody x.
  rewrite vfunc_repaint_eq. cbn zeta. rewrite Nx.
  rewrite getRadius_eq, Lx. cbn [cachedRadius styled set_opacity_target
    set_translation_y set_size allocate set_cachedOpacity
    set_cachedBorderWidth set_cachedRadius fst snd].
  rewrite getBorderWidth_eq, Lx. cbn [cachedBorderWidth styled
    set_opacity_target set_translation_y set_size allocate set_cachedOpacity
    set_cachedBorderWidth set_cachedRadius fst snd].
  rewrite getBackgroundColor_eq, Lx. cbn [cachedBackgroundColor styled
    set_opacity_target set_translation_y set_size allocate set_cachedOpacity
    set_cachedBorderWidth set_cachedRadius set_cachedBackgroundColor
    fst snd].
  destruct (lookup_for_color_frame cfs node
              "-panel-corner-background-color" x) as (Hc & seg & Ht & Hf).
  cbn zeta in Hc, Ht. revert Hc Ht.
  generalize (lookup_for_color cfs node "-panel-corner-background-color" x).
  intros [fill y] Hc Ht. cbn [fst snd] in *.
  assert (Ly : corners y !!! c = styled c w (corners w !!! c))
    by (by rewrite Hc).
  assert (Hseg : forall f, lookups f seg = 0).
  { intros f. clear Ht. unfold lookups.
    induction Hf as [|e seg He _ IH]; [done|]. cbn. by destruct f, e. }
  cbn [trace emit head modify_corner set_corners corners].
  rewrite !lookup_total_insert_eq, Ly. cbn [side styled set_opacity_target
    set_translation_y set_size allocate set_cachedOpacity
    set_cachedBorderWidth set_cachedRadius set_cachedBackgroundColor
    set_painted natural_width natural_height].
  rewrite L1.
  split_and!; try done.
  - rewrite lookups_cons. cbn [trace set_corners].
    rewrite Ht, !lookups_app, Hseg, lookups_lookup_events, Tx. done.
  - rewrite lookups_cons. cbn [trace set_corners].
    rewrite Ht, !lookups_app, Hseg, lookups_lookup_events, Tx. done.
  - rewrite lookups_cons. cbn [trace set_corners].
    rewrite Ht, !lookups_app, Hseg, lookups_lookup_events, Tx. done.
Qed.


(** X9: [vfunc_repaint()] is repeatable: a second repaint in a row finds the
    three values cached, performs no lookup, writes nothing, and fills the
    same path with the same colour; the world differs from the one after the
    first repaint by that one trace entry only. *)
Theorem repaint_repeatable cfs c w :
  let w1 := vfunc_repaint cfs c w in
  exists path fill,
    head (trace w1) = Some (EvPaint c path fill) /\
    vfunc_repaint cfs c w1 = emit (EvPaint c path fill) w1.
Proof.
  cbn zeta. rewrite (vfunc_repaint_eq cfs c w). cbn zeta.
  destruct (getRadius_fills c (theme_node w) w) as (R1 & R2 & R3).
  cbn zeta in *. revert R1 R2 R3.
  generalize (getRadius c (theme_node w) w). intros [r w1] R1 R2 R3.
  cbn [fst snd] in *.
  destruct (getBorderWidth_fills c (theme_node w) w1) as (B1 & B2 & B3).
  cbn zeta in *. revert B1 B2 B3.
  generalize (getBorderWidth c (theme_node w) w1). intros [b w2] B1 B2 B3.
  cbn [fst snd] in *.
  destruct (getBackgroundColor_fills cfs c (theme_node w) w2)
    as (G1 & G2 & G3).
  cbn zeta in *. revert G1 G2 G3.
  generalize (getBackgroundColor cfs c (theme_node w) w2).
  intros [g w3] G1 G2 G3. cbn [fst snd] in *.
  assert (Hr : cachedRadius (corners w3 !!! c) = Some r).
  { rewrite <- G3, <- B3. cbn. exact R1. }
  assert (Hb : cachedBorderWidth (corners w3 !!! c) = Some b).
  { rewrite <- G3. cbn. exact B1. }
  assert (Hn : theme_node w3 = theme_node w) by congruence.
  clear R1 R2 R3 B1 B2 B3 G2 G3 w1 w2.
  set (p := corner_path (side (corners w3 !!! c)) r b).
  exists p, g. split; [done|].
  set (w4 := emit (EvPaint c p g) (modify_corner c (set_painted g) w3)).
  assert (L4 : corners w4 !!! c = set_painted g (corners w3 !!! c)).
  { subst w4. cbn. by rewrite lookup_total_insert_eq. }
  assert (C4 : corners w4 = <[c := set_painted g (corners w3 !!! c)]>
                              (corners w3)) by done.
  assert (N4 : theme_node w4 = theme_node w) by exact Hn.
  clearbody w4.
  rewrite (vfunc_repaint_eq cfs c w4). cbn zeta.
  rewrite getRadius_eq, L4. cbn [cachedRadius set_painted]. rewrite Hr.
  cbn [fst snd].
  rewrite getBorderWidth_eq, L4. cbn [cachedBorderWidth set_painted].
  rewrite Hb. cbn [fst snd].
  rewrite getBackgroundColor_eq, L4. cbn [cachedBackgroundColor set_painted].
  rewrite G1. cbn [fst snd]. rewrite L4. cbn [side set_painted]. fold p.
  f_equal. unfold modify_corner. rewrite L4.
  apply world_eq; try done. cbn. by rewrite C4, insert_insert_eq.
Qed.


(** ** Closed forms of the constructor and of the removal *)

#[local] Arguments without_handler : simpl never.
#[local] Arguments styled : simpl never.

Lemma new_PanelCorner_eq s w :
  new_PanelCorner s w =
  (next_corner w,
   log_events
     [ EvAllocate (next_corner w) false
         (childBox s 0 0 (width (panel w)) (height (panel w)));
       EvConstruct (next_corner w) ]
     (set_corners
        (<[next_corner w :=
             constructed s (next_handler (panel w)) (panel w)]> (corners w))
        (S (next_corner w))
        (modify_panel (panel_with (next_corner w)) w))).
Proof.
  unfold new_PanelCorner, update_allocation. cbn.
  rewrite !lookup_total_insert_eq. cbn. f_equal.
  apply world_eq; try done.
  - cbn. unfold panel_with, set_handlers. cbn. by rewrite <- app_assoc.
  - cbn. by rewrite !insert_insert_eq, !lookup_total_insert_eq.
Qed.

Lemma remove_corner_eq c w :
  let o := corners w !!! c in
  remove_corner c w =
  log_events
    ([EvDestroy c; EvRemoveChild c] ++
     disconnect_events (size_changed_id o) ++
     disconnect_events (position_changed_id o))
    (modify_corner c removed (modify_panel (panel_without c o) w)).
Proof.
  cbn zeta. unfold remove_corner, destroy, remove_child, remove_connections,
    disconnect_size, disconnect_position.
  destruct (position_changed_id (corners w !!! c)) as [[|a]|] eqn:Ea;
    cbn -[Nat.eqb]; rewrite ?lookup_total_insert_eq; cbn -[Nat.eqb];
    destruct (size_changed_id (corners w !!! c)) as [[|b]|] eqn:Eb;
    cbn -[Nat.eqb]; rewrite ?lookup_total_insert_eq; cbn -[Nat.eqb];
    (apply world_eq; cbn -[Nat.eqb]; try done;
     [ unfold panel_without, without_handler, set_children, set_handlers;
       cbn -[Nat.eqb]; by rewrite ?Ea, ?Eb
     | rewrite ?lookup_total_insert_eq, ?insert_insert_eq,
         ?lookup_total_insert_eq, ?insert_insert_eq;
       f_equal;
       unfold removed, set_destroyed, set_size_changed_id,
         set_position_changed_id;
       cbn; by rewrite ?Ea, ?Eb ]).
Qed.


(** ** What leaves the corners on the panel alone *)

Lemma keeps_refl w : keeps w w.
Proof. by repeat split. Qed.

Lemma keeps_trans w1 w2 w3 : keeps w1 w2 -> keeps w2 w3 -> keeps w1 w3.
Proof.
  intros (A1&A2&A3&A4&A5&A6) (B1&B2&B3&B4&B5&B6).
  split_and!; [congruence.. | intros c; by rewrite B6].
Qed.

Lemma keeps_same w w' :
  panel w' = panel w -> corners w' = corners w ->
  next_corner w' = next_corner w -> keeps w w'.
Proof. intros H1 H2 H3. unfold keeps. by rewrite H1, H2, H3. Qed.

Lemma keeps_modify_corner c f w :
  (forall o, identity_of (f o) = identity_of o) ->
  keeps w (modify_corner c f w).
Proof.
  intros H. split_and!; try done. intros c'.
  rewrite modify_corner_lookup. by destruct (decide (c = c')) as [->|].
Qed.

Lemma keeps_timers_only w w' : timers_only w w' -> keeps w w'.
Proof. intros (_&_&_&Hp&Hc&Hn&_). by apply keeps_same. Qed.

Lemma keeps_style_changed duration c w :
  keeps w (vfunc_style_changed duration c w).
Proof.
  rewrite vfunc_style_changed_eq.
  apply (keeps_trans _ (modify_corner c (styled c w) w)).
  - by apply keeps_modify_corner.
  - by apply keeps_same.
Qed.

Lemma keeps_getRadius c node w : keeps w (snd (getRadius c node w)).
Proof.
  rewrite getRadius_eq. destruct (cachedRadius _); [apply keeps_refl|].
  cbn [snd]. eapply keeps_trans; [|by apply keeps_modify_corner].
  by apply keeps_same.
Qed.

Lemma keeps_getBorderWidth c node w :
  keeps w (snd (getBorderWidth c node w)).
Proof.
  rewrite getBorderWidth_eq.
  destruct (cachedBorderWidth _); [apply keeps_refl|].
  cbn [snd]. eapply keeps_trans; [|by apply keeps_modify_corner].
  by apply keeps_same.
Qed.

Lemma keeps_property_set key value w : keeps w (property_set key value w).
Proof.
  unfold property_set.
  eapply keeps_trans; [|apply keeps_timers_only, notify_changed_timers_only].
  by apply keeps_same.
Qed.

Lemma keeps_lookup_for_color cfs node prop w :
  keeps w (snd (lookup_for_color cfs node prop w)).
Proof.
  rewrite lookup_for_color_eq. cbn zeta.
  destruct (fst (cfs _)); cbn [snd].
  - by apply keeps_same.
  - eapply keeps_trans; [|apply keeps_property_set]. by apply keeps_same.
Qed.

Lemma keeps_getBackgroundColor cfs c node w :
  keeps w (snd (getBackgroundColor cfs c node w)).
Proof.
  rewrite getBackgroundColor_eq.
  destruct (cachedBackgroundColor _); [apply keeps_refl|].
  cbn [snd]. eapply keeps_trans; [apply keeps_lookup_for_color|].
  by apply keeps_modify_corner.
Qed.

Lemma keeps_repaint cfs c w : keeps w (vfunc_repaint cfs c w).
Proof.
  rewrite vfunc_repaint_eq. cbn zeta.
  pose proof (keeps_getRadius c (theme_node w) w) as H1.
  destruct (getRadius c (theme_node w) w) as [r w1]. cbn [fst snd] in *.
  pose proof (keeps_getBorderWidth c (theme_node w) w1) as H2.
  destruct (getBorderWidth c (theme_node w) w1) as [b w2]. cbn [fst snd] in *.
  pose proof (keeps_getBackgroundColor cfs c (theme_node w) w2) as H3.
  destruct (getBackgroundColor cfs c (theme_node w) w2) as [bg w3].
  cbn [fst snd] in *.
  eapply keeps_trans; [exact H1|]. eapply keeps_trans; [exact H2|].
  eapply keeps_trans; [exact H3|].
  eapply keeps_trans; [by apply (keeps_modify_corner c (set_painted bg))|].
  by apply keeps_same.
Qed.

Lemma keeps_run_callback duration cb w : keeps w (run_callback duration cb w).
Proof.
  destruct cb as [c]. unfold run_callback.
  eapply keeps_trans; [|apply keeps_style_changed].
  unfold invalidateCache.
  eapply keeps_trans; [|by apply keeps_same].
  by apply keeps_modify_corner.
Qed.

Lemma keeps_dispatch_source duration s w :
  keeps w (dispatch_source duration s w).
Proof.
  unfold dispatch_source. destruct (attached _ _); [|apply keeps_refl].
  unfold timeout_expired.
  set (x := modify_closure (owner s) (set_timeoutId None)
              (emit (EvTimerFired (source_id s)) w)).
  assert (Hx : keeps w x) by (by apply keeps_same).
  clearbody x.
  pose proof (keeps_run_callback duration
                (callback (closures x !!! owner s)) x) as Hy.
  revert Hy. generalize (run_callback duration
                           (callback (closures x !!! owner s)) x).
  intros y Hy.
  eapply keeps_trans; [exact Hx|]. eapply keeps_trans; [exact Hy|].
  by apply keeps_same.
Qed.

Lemma keeps_dispatch duration w : keeps w (dispatch duration w).
Proof.
  unfold dispatch.
  generalize (List.filter (fun s => Nat.leb (due s) (now w)) (sources w)).
  intros l. revert w. induction l as [|s l IH]; intros w; [apply keeps_refl|].
  cbn [fold_left]. eapply keeps_trans; [apply keeps_dispatch_source|apply IH].
Qed.

Lemma keeps_advance duration ms : forall w, keeps w (advance duration ms w).
Proof.
  induction ms as [|ms IH]; intros w; [apply keeps_refl|].
  cbn [advance]. eapply keeps_trans; [|apply IH].
  eapply keeps_trans; [|apply keeps_dispatch]. by apply keeps_same.
Qed.

Lemma keeps_update_allocation c w : keeps w (update_allocation c w).
Proof.
  unfold update_allocation. cbn zeta.
  eapply keeps_trans; [|by apply keeps_same].
  by apply keeps_modify_corner.
Qed.

Lemma keeps_panel_emit sig w : keeps w (panel_emit sig w).
Proof.
  unfold panel_emit. generalize (handlers (panel w)). intros l.
  revert w. induction l as [|h l IH]; intros w; [apply keeps_refl|].
  cbn [fold_left]. destruct (String.eqb (signal h) sig); [|apply IH].
  eapply keeps_trans; [apply keeps_update_allocation | apply IH].
Qed.

Lemma current_keeps w w' : keeps w w' -> current w' = current w.
Proof. intros (_&_&Hl&Hr&_). unfold current. by rewrite Hl, Hr. Qed.

Lemma settled_keeps w w' : keeps w w' -> settled w -> settled w'.
Proof.
  intros Hk [Hd Hs]. pose proof (current_keeps w w' Hk) as Hcur.
  destruct Hk as (K1&K2&K3&K4&K5&K6).
  assert (Kd : forall c, destroyed (corners w' !!! c) =
                         destroyed (corners w !!! c)).
  { intros c. specialize (K6 c). unfold identity_of in K6. congruence. }
  split.
  - intros c Hc. rewrite Kd, Hcur. apply Hd. by rewrite <- K5.
  - rewrite K1, K2, K3, K4, K5.
    destruct Hs as [Hs|(l & n & A1 & A2 & A3 & A4 & A5 & A6 & A7)];
      [by left|].
    right. exists l, n. by rewrite !K6.
Qed.


(** ** The corners on the panel *)

Ltac eqb_decide :=
  repeat match goal with
         | |- context [Nat.eqb ?a ?b] =>
             first [ rewrite (Nat.eqb_refl a)
                   | rewrite (proj2 (Nat.eqb_neq a b)) by lia ]
         end.

Lemma pending_view w :
  let w1 := disconnect_all (cancel_pending w) in
  panel w1 = panel w /\ corners w1 = corners w /\
  next_corner w1 = next_corner w.
Proof.
  cbn zeta. unfold cancel_pending.
  destruct (debouncedStyleUpdate w) as [d|]; [|done].
  unfold cancel. by destruct (timeoutId (closures w !!! d)).
Qed.

(** [remove()] takes both corners off the panel, with their handlers, and
    destroys them. *)
Lemma settled_remove w : settled w -> settled (remove w).
Proof.
  intros Hs. unfold remove.
  destruct (pending_view w) as (P1 & C1 & N1). cbn zeta in *.
  assert (Hs1 : settled (disconnect_all (cancel_pending w))).
  { eapply settled_keeps; [|exact Hs]. by apply keeps_same. }
  clear Hs P1 C1 N1. revert Hs1.
  generalize (disconnect_all (cancel_pending w)). clear w.
  intros w [Hd [(A1 & A2 & A3 & A4)|(l & n & A1 & A2 & A3 & A4 & A5 & A6 & A7)]].
  - unfold remove_left. rewrite A1. unfold remove_right. rewrite A2.
    split; [done|]. by left.
  - unfold identity_of in A6, A7.
    injection A6 as L1 L2 L3 L4. injection A7 as R1 R2 R3 R4.
    assert (Hcur : current w = [l; S l]).
    { unfold current. by rewrite A1, A2. }
    rewrite Hcur in Hd.
    (* the left corner *)
    unfold remove_left. rewrite A1, remove_corner_eq. cbn zeta.
    rewrite L2, L3.
    set (w2 := modify_panel (set_leftCorner None) _).
    assert (P2 : children (panel w2) = [S l] /\
                 handlers (panel w2) =
                   [ {| handler_id := S (S (S n)); signal := "notify::position";
                        bound := S l |};
                     {| handler_id := S (S (S (S n))); signal := "notify::size";
                        bound := S l |} ] /\
                 _leftCorner (panel w2) = None /\
                 _rightCorner (panel w2) = Some (S l)).
    { subst w2. unfold panel_without, without_handler. cbn -[Nat.eqb].
      rewrite A4, A5, L2, L3. cbn -[Nat.eqb]. eqb_decide. cbn -[Nat.eqb].
      eqb_decide. by cbn. }
    assert (C2 : corners w2 = <[l := removed (corners w !!! l)]> (corners w))
      by done.
    assert (N2 : next_corner w2 = next_corner w) by done.
    clearbody w2. destruct P2 as (P2a & P2b & P2c & P2d).
    (* the right corner *)
    assert (O2 : corners w2 !!! S l = corners w !!! S l).
    { rewrite C2. apply lookup_total_insert_ne. lia. }
    unfold remove_right. rewrite P2d, remove_corner_eq. cbn zeta.
    rewrite O2, R2, R3.
    set (w3 := modify_panel (set_rightCorner None) _).
    assert (P3 : children (panel w3) = [] /\ handlers (panel w3) = [] /\
                 _leftCorner (panel w3) = None /\
                 _rightCorner (panel w3) = None).
    { subst w3. unfold panel_without, without_handler. cbn -[Nat.eqb].
      rewrite P2a, P2b, P2c, R2, R3. cbn -[Nat.eqb]. eqb_decide.
      cbn -[Nat.eqb]. eqb_decide. by cbn. }
    assert (C3 : corners w3 =
                 <[S l := removed (corners w !!! S l)]> (corners w2)).
    { subst w3. cbn. by rewrite O2. }
    assert (N3 : next_corner w3 = next_corner w2) by done.
    clearbody w3. destruct P3 as (P3a & P3b & P3c & P3d).
    split; [|by left].
    intros c Hc. unfold current. rewrite P3c, P3d. cbn.
    rewrite C3, C2.
    destruct (decide (c = S l)) as [->|Hr];
      [by rewrite lookup_total_insert_eq|].
    rewrite lookup_total_insert_ne by done.
    destruct (decide (c = l)) as [->|Hl];
      [by rewrite lookup_total_insert_eq|].
    rewrite lookup_total_insert_ne by done.
    rewrite Hd by lia. cbn -[Nat.eqb]. by eqb_decide.
Qed.


Lemma identity_of_styled c w o : identity_of (styled c w o) = identity_of o.
Proof. by unfold styled. Qed.

(** What [update_corner] does to the panel and to the corners: the corner
    becomes a child and has a style-changed pass. *)
Lemma update_corner_view duration c w :
  let w' := update_corner duration c w in
  panel w' = set_children (children (panel w) ++ [c]) (panel w) /\
  next_corner w' = next_corner w /\
  corners w' = <[c := styled c w (corners w !!! c)]> (corners w).
Proof.
  cbn zeta. unfold update_corner. rewrite vfunc_style_changed_eq.
  unfold debounce. cbn. rewrite connect_fold. cbn. by split_and!.
Qed.

(** [update()] leaves the panel with the two corners it has just made, and
    with nothing of the corners it has removed. *)
Lemma settled_update duration w : settled w -> settled (update duration w).
Proof.
  intros Hs. unfold update.
  assert (H0 : settled (remove (log "updating panel corners..." w))).
  { apply settled_remove. eapply settled_keeps; [|exact Hs].
    unfold log. destruct (DEBUG (settings w)); by apply keeps_same. }
  destruct (remove_clears (log "updating panel corners..." w))
    as (_ & _ & Hl & Hr).
  revert H0 Hl Hr. generalize (remove (log "updating panel corners..." w)).
  clear w Hs.
  intros w [Hd [(A1 & A2 & A3 & A4)|(l & n & A1 & _)]] Hl Hr;
    [|congruence].
  assert (Hcur : current w = []) by (unfold current; by rewrite A1, A2).
  rewrite Hcur in Hd. clear Hl Hr Hcur.
  set (l := next_corner w) in *. set (n := next_handler (panel w)) in *.
  (* the constructor of the left corner *)
  rewrite new_PanelCorner_eq. cbv beta iota. fold l n.
  set (w1 := modify_panel (set_leftCorner (Some l)) _).
  assert (P1 : children (panel w1) = [] /\
               handlers (panel w1) =
                 [ {| handler_id := S n; signal := "notify::position";
                      bound := l |};
                   {| handler_id := S (S n); signal := "notify::size";
                      bound := l |} ] /\
               next_handler (panel w1) = S (S n) /\
               _leftCorner (panel w1) = Some l /\
               _rightCorner (panel w1) = None).
  { subst w1. cbn. fold n. by rewrite A2, A3, A4. }
  assert (C1 : corners w1 = <[l := constructed LEFT n (panel w)]> (corners w))
    by done.
  assert (N1 : next_corner w1 = S l) by done.
  clearbody w1. destruct P1 as (P1a & P1b & P1c & P1d & P1e).
  (* the constructor of the right corner *)
  rewrite new_PanelCorner_eq. cbv beta iota. rewrite N1, P1c.
  set (w2 := modify_panel (set_rightCorner (Some (S l))) _).
  assert (P2 : children (panel w2) = [] /\
               handlers (panel w2) =
                 [ {| handler_id := S n; signal := "notify::position";
                      bound := l |};
                   {| handler_id := S (S n); signal := "notify::size";
                      bound := l |};
                   {| handler_id := S (S (S n)); signal := "notify::position";
                      bound := S l |};
                   {| handler_id := S (S (S (S n))); signal := "notify::size";
                      bound := S l |} ] /\
               _leftCorner (panel w2) = Some l /\
               _rightCorner (panel w2) = Some (S l)).
  { subst w2. cbn. by rewrite P1a, P1b, P1c, P1d. }
  assert (C2 : corners w2 =
               <[S l := constructed RIGHT (S (S n)) (panel w1)]> (corners w1))
    by done.
  assert (N2 : next_corner w2 = S (S l)) by done.
  clearbody w2. destruct P2 as (P2a & P2b & P2c & P2d).
  (* both corners become children and are styled *)
  destruct (update_corner_view duration l w2) as (P3 & N3 & C3).
  cbn zeta in *. revert P3 N3 C3. generalize (update_corner duration l w2).
  intros w3 P3 N3 C3.
  destruct (update_corner_view duration (S l) w3) as (P4 & N4 & C4).
  cbn zeta in *. revert P4 N4 C4.
  generalize (update_corner duration (S l) w3). intros w4 P4 N4 C4.
  eapply settled_keeps.
  { unfold log. destruct (DEBUG (settings w4)); [|apply keeps_refl].
    by apply (keeps_same w4 (emit _ w4)). }
  assert (Ll : identity_of (corners w4 !!! l) =
               (LEFT, Some (S n), Some (S (S n)), false)).
  { rewrite C4, lookup_total_insert_ne by lia.
    rewrite C3, lookup_total_insert_eq, identity_of_styled.
    rewrite C2, lookup_total_insert_ne by lia.
    by rewrite C1, lookup_total_insert_eq. }
  assert (Lr : identity_of (corners w4 !!! S l) =
               (RIGHT, Some (S (S (S n))), Some (S (S (S (S n)))), false)).
  { rewrite C4, lookup_total_insert_eq, identity_of_styled.
    rewrite C3, lookup_total_insert_ne by lia.
    by rewrite C2, lookup_total_insert_eq. }
  assert (P : children (panel w4) = [l; S l] /\
              handlers (panel w4) = handlers (panel w2) /\
              _leftCorner (panel w4) = Some l /\
              _rightCorner (panel w4) = Some (S l)).
  { rewrite P4, P3. cbn. by rewrite P2a, P2c, P2d. }
  destruct P as (Q1 & Q2 & Q3 & Q4).
  split.
  - intros c Hc. unfold current. rewrite Q3, Q4. cbn -[Nat.eqb].
    destruct (decide (c = l)) as [->|Hcl].
    { unfold identity_of in Ll. injection Ll as _ _ _ ->. by eqb_decide. }
    destruct (decide (c = S l)) as [->|Hcr].
    { unfold identity_of in Lr. injection Lr as _ _ _ ->. by eqb_decide. }
    rewrite C4, lookup_total_insert_ne by done.
    rewrite C3, lookup_total_insert_ne by done.
    rewrite C2, lookup_total_insert_ne by done.
    rewrite C1, lookup_total_insert_ne by done.
    rewrite Hd by lia. by eqb_decide.
  - right. exists l, n. rewrite Q1, Q2, Q3, Q4, P2b.
    split_and!; try done. lia.
Qed.

Lemma settled_step cfs duration w a :
  settled w -> settled (step cfs duration w a).
Proof.
  intros Hs. destruct a as [| |s key|sig nw nh|pc|node scale|c|c|ms];
    cbn [step].
  - by apply settled_update.
  - by apply settled_remove.
  - eapply settled_keeps; [|exact Hs].
    apply (keeps_trans _ (set_settings (edit s (settings w)) w)).
    + by apply keeps_same.
    + apply keeps_timers_only, notify_changed_timers_only.
  - eapply settled_keeps; [|exact Hs].
    apply (keeps_trans _ (modify_panel (set_geometry nw nh) w)).
    + by repeat split.
    + apply keeps_panel_emit.
  - eapply settled_keeps; [|exact Hs]. by repeat split.
  - eapply settled_keeps; [|exact Hs]. by apply keeps_same.
  - destruct (is_child c w); [|done].
    eapply settled_keeps; [apply keeps_style_changed | done].
  - destruct (is_child c w); [|done].
    eapply settled_keeps; [apply keeps_repaint | done].
  - eapply settled_keeps; [apply keeps_advance | done].
Qed.

Lemma settled_run cfs duration acts : forall w,
  settled w -> settled (run cfs duration acts w).
Proof.
  induction acts as [|a acts IH]; intros w Hs; [done|].
  unfold run. cbn [fold_left]. apply IH. by apply settled_step.
Qed.

Lemma settled_initial s scale node panel_width panel_height pc :
  settled (initial s scale node panel_width panel_height pc).
Proof. split; [|by left]. intros c Hc. cbn in Hc. lia. Qed.


(** X10: in every execution (any sequence of [update()], [remove()], settings
    changes, panel notifications, theme and pseudo-class changes,
    style-changed and repaint requests on attached corners, and time
    passing), the children of the panel are exactly the corners it refers to
    by [_leftCorner] and [_rightCorner], its handlers are exactly the two
    handlers of each of these corners, and every other corner ever made has
    been destroyed; the panel refers either to no corner or to a LEFT and a
    RIGHT one. *)
Theorem panel_holds_current_corners cfs duration acts s scale node
    panel_width panel_height pc :
  let w := run cfs duration acts
             (initial s scale node panel_width panel_height pc) in
  children (panel w) = current w /\
  handlers (panel w) = flat_map (own_handlers w) (current w) /\
  (forall c, c < next_corner w ->
     destroyed (corners w !!! c) = negb (existsb (Nat.eqb c) (current w))) /\
  (current w = [] \/
   exists l, current w = [l; S l] /\
             side (corners w !!! l) = LEFT /\
             side (corners w !!! S l) = RIGHT).
Proof.
  cbn zeta.
  pose proof (settled_run cfs duration acts _
                (settled_initial s scale node panel_width panel_height pc))
    as Hs.
  revert Hs. generalize (run cfs duration acts
                           (initial s scale node panel_width panel_height pc)).
  intros w [Hd [(A1 & A2 & A3 & A4)|(l & n & A1 & A2 & A3 & A4 & A5 & A6 & A7)]].
  - assert (Hcur : current w = []) by (unfold current; by rewrite A1, A2).
    rewrite Hcur in *. split_and!; try done. by left.
  - assert (Hcur : current w = [l; S l])
      by (unfold current; by rewrite A1, A2).
    rewrite Hcur in *. unfold identity_of in A6, A7.
    injection A6 as L1 L2 L3 L4. injection A7 as R1 R2 R3 R4.
    split_and!; try done.
    + cbn. unfold own_handlers. by rewrite L2, L3, R2, R3.
    + right. by exists l.
Qed.

(** X11: [remove()], at any point of any execution, leaves the panel with no
    child, no handler and no corner reference, the controller with no
    subscription, and every corner ever made destroyed; a notification of the
    panel after it runs no allocation. *)
Theorem remove_leaves_panel_clean cfs duration acts s scale node
    panel_width panel_height pc :
  let w := remove (run cfs duration acts
                     (initial s scale node panel_width panel_height pc)) in
  children (panel w) = [] /\ handlers (panel w) = [] /\
  _leftCorner (panel w) = None /\ _rightCorner (panel w) = None /\
  connections w = [] /\
  (forall c, c < next_corner w -> destroyed (corners w !!! c) = true) /\
  forall sig nw nh,
    trace (step cfs duration w (PanelNotify sig nw nh)) = trace w.
Proof.
  cbn zeta.
  pose proof (settled_run cfs duration acts _
                (settled_initial s scale node panel_width panel_height pc))
    as Hs.
  apply settled_remove in Hs.
  destruct (remove_clears
              (run cfs duration acts
                 (initial s scale node panel_width panel_height pc)))
    as (_ & Hc & Hl & Hr).
  revert Hs Hc Hl Hr.
  generalize (remove (run cfs duration acts
                        (initial s scale node panel_width panel_height pc))).
  intros w [Hd [(A1 & A2 & A3 & A4)|(l & n & A1 & _)]] Hc Hl Hr;
    [|congruence].
  assert (Hcur : current w = []) by (unfold current; by rewrite A1, A2).
  rewrite Hcur in Hd. split_and!; try done.
  intros sig nw nh. cbn [step]. unfold panel_emit. cbn. by rewrite A4.
Qed.


(** ** One timer per wrapper *)

Lemma mine_app d (l1 l2 : list Source) :
  mine d (l1 ++ l2) = (mine d l1 ++ mine d l2)%list.
Proof. apply List.filter_app. Qed.

Lemma mine_others d (l : list Source) : mine d (others d l) = [].
Proof.
  unfold mine, others. induction l as [|s l IH]; [done|]. cbn.
  destruct (Nat.eqb (owner s) d) eqn:E; cbn; [done|]. by rewrite E.
Qed.

Lemma mine_others_ne d d' (l : list Source) :
  d' <> d -> mine d' (others d l) = mine d' l.
Proof.
  intros Hne. unfold mine, others. induction l as [|s l IH]; [done|]. cbn.
  destruct (Nat.eqb_spec (owner s) d) as [E|E]; cbn.
  - destruct (Nat.eqb_spec (owner s) d'); [congruence | done].
  - by rewrite IH.
Qed.

Lemma others_others d (l : list Source) : others d (others d l) = others d l.
Proof. apply filter_idem. Qed.

Lemma same_sources_of_same_timers w w' : same_timers w w' -> same_sources w w'.
Proof. intros (A&B&C&D&_&_&E). by repeat split. Qed.

Lemma timers_ok_same w w' : same_sources w w' -> timers_ok w -> timers_ok w'.
Proof.
  intros (A&B&C&D&E) (H1&H2&H3&H4).
  unfold timers_ok, fresh_ids, tidy, linked in *.
  by rewrite A, B, C, D, E.
Qed.

(** Invoking a wrapper that has been made. *)
Lemma timers_ok_debounced d w :
  timers_ok w -> d < next_closure w -> timers_ok (debounced d w).
Proof.
  intros (Hf & Hl & Hz & Hc) Hd.
  destruct (Hl d) as [Ht _].
  destruct (debounced_effect d w Hf Ht) as (Es & En & Ec & Eo).
  pose proof (debounced_fresh d w Hf Ht) as Hf'.
  pose proof (debounced_tidy d w Hf Ht) as Ht'.
  assert (Hto : forall d', d' <> d -> tidy d' (debounced d w)).
  { intros d' Hne. apply debounced_tidy_other; try done. apply Hl. }
  destruct (debounced_timers_only d w) as (_&_&_&_&_&_&Econ&_&_&Encl&_).
  cbn zeta in *. revert Es En Ec Eo Hf' Ht' Hto Econ Encl.
  generalize (debounced d w). intros w' Es En Ec Eo Hf' Ht' Hto Econ Encl.
  split_and!.
  - done.
  - intros d'. destruct (decide (d' = d)) as [->|Hne].
    + split; [done|]. unfold linked.
      rewrite Es, Ec, mine_app, mine_others. cbn.
      by rewrite Nat.eqb_refl.
    + split; [by apply Hto|]. unfold linked.
      rewrite Es, (Eo d' Hne), mine_app, mine_others_ne by done. cbn.
      destruct (Nat.eqb_spec d d'); [congruence|].
      rewrite app_nil_r. apply Hl.
  - intros d' Hd'. rewrite Encl in Hd'. rewrite Eo by lia. apply Hz. lia.
  - by rewrite Econ, Encl.
Qed.

Lemma timers_ok_debounced_all (l : list nat) : forall w,
  timers_ok w -> Forall (fun d => d < next_closure w) l ->
  timers_ok (fold_left (fun acc d => debounced d acc) l w).
Proof.
  induction l as [|d l IH]; intros w Hok Hl; [done|].
  apply Forall_cons in Hl as [Hd Hl]. cbn [fold_left]. apply IH.
  - by apply timers_ok_debounced.
  - destruct (debounced_timers_only d w) as (_&_&_&_&_&_&_&_&_&Encl&_).
    by rewrite Encl.
Qed.

Lemma targets_known key (w : World) :
  Forall (fun c => conn_handler c < next_closure w) (connections w) ->
  Forall (fun d => d < next_closure w) (targets key (connections w)).
Proof.
  unfold targets. generalize (connections w). intros l H.
  induction H as [|c l Hc _ IH]; [done|]. cbn.
  destruct (String.eqb _ _); [by constructor | done].
Qed.

(** A settings key changes. *)
Lemma timers_ok_notify key w : timers_ok w -> timers_ok (notify_changed key w).
Proof.
  intros Hok. rewrite notify_changed_targets.
  apply timers_ok_debounced_all; [done|].
  apply targets_known. by destruct Hok as (_&_&_&?).
Qed.

(** Cancelling. *)
Lemma timers_ok_cancel d w : timers_ok w -> timers_ok (cancel d w).
Proof.
  intros (Hf & Hl & Hz & Hc). unfold cancel.
  destruct (timeoutId (closures w !!! d)) as [a|] eqn:E; [|done].
  destruct (Hl d) as [Ht _]. unfold tidy in Ht. rewrite E in Ht.
  destruct Ht as [_ Ht].
  set (w' := modify_closure d (set_timeoutId None) (source_remove a w)).
  assert (Es : sources w' = others d (sources w)) by (by rewrite <- Ht).
  assert (En : next_source w' = next_source w) by done.
  assert (Ecd : timeoutId (closures w' !!! d) = None).
  { subst w'. rewrite modify_closure_lookup. by destruct (decide (d = d)). }
  assert (Eco : forall d', d' <> d -> closures w' !!! d' = closures w !!! d').
  { intros d' Hne. subst w'. rewrite modify_closure_lookup.
    by destruct (decide (d = d')). }
  assert (Encl : next_closure w' = next_closure w) by done.
  assert (Econ : connections w' = connections w) by done.
  clearbody w'. split_and!.
  - unfold fresh_ids. rewrite Es, En. by apply Forall_filter_keep.
  - intros d'. destruct (decide (d' = d)) as [->|Hne].
    + unfold tidy, linked. rewrite Ecd, Es, others_others, mine_others.
      done.
    + destruct (Hl d') as [Ht' Hk']. unfold tidy, linked in *.
      rewrite (Eco d' Hne), Es, En, mine_others_ne by done.
      split; [|done].
      destruct (timeoutId (closures w !!! d')) as [a'|].
      * destruct Ht' as [Ha' Ht']. split; [done|].
        unfold detach, others in *. by rewrite filter_comm, Ht', filter_comm.
      * unfold others in *. by rewrite filter_comm, Ht'.
  - intros d' Hd'. destruct (decide (d' = d)) as [->|Hne]; [done|].
    rewrite Eco by done. apply Hz. by rewrite <- Encl.
  - by rewrite Econ, Encl.
Qed.


Lemma mine_In d s (l : list Source) : In s l -> owner s = d -> In s (mine d l).
Proof.
  intros Hin Ho. unfold mine. apply filter_In. split; [done|].
  by apply Nat.eqb_eq.
Qed.

(** A timer fires: its wrapper's cell is cleared, the callback runs, the
    source is detached. *)
Lemma timers_ok_dispatch_source duration s w :
  timers_ok w -> In s (sources w) ->
  timers_ok (dispatch_source duration s w) /\
  sources (dispatch_source duration s w) = detach (source_id s) (sources w).
Proof.
  intros (Hf & Hl & Hz & Hc) Hin.
  assert (Hatt : attached (source_id s) w = true).
  { unfold attached. apply existsb_exists. exists s. split; [done|].
    apply Nat.eqb_refl. }
  set (d := owner s).
  destruct (Hl d) as [Ht Hk].
  (* the cell of the wrapper names this very source *)
  assert (Hcell : timeoutId (closures w !!! d) = Some (source_id s)).
  { unfold linked in Hk. pose proof (mine_In d s _ Hin eq_refl) as Hm.
    destruct (timeoutId (closures w !!! d)) as [a|]; cbn in Hk.
    - destruct (mine d (sources w)) as [|s1 [|s2 rest]]; try done.
      cbn in Hk. destruct Hm as [->|[]]. congruence.
    - destruct (mine d (sources w)); [by destruct Hm | done]. }
  unfold tidy in Ht. rewrite Hcell in Ht. destruct Ht as [_ Ht].
  unfold dispatch_source. rewrite Hatt. unfold timeout_expired.
  fold d.
  set (x := modify_closure d (set_timeoutId None)
              (emit (EvTimerFired (source_id s)) w)).
  pose proof (same_timers_run_callback duration
                (callback (closures x !!! d)) x) as (A&B&C&D&_&_&E).
  revert A B C D E.
  generalize (run_callback duration (callback (closures x !!! d)) x).
  intros y A B C D E.
  set (w' := set_sources (detach (source_id s) (sources y)) (next_source y) y).
  assert (Es : sources w' = others d (sources w))
    by (subst w'; cbn; by rewrite C, <- Ht).
  assert (Es' : sources w' = detach (source_id s) (sources w))
    by (subst w'; cbn; by rewrite C).
  assert (En : next_source w' = next_source w) by (subst w'; cbn; by rewrite D).
  assert (Ecl : closures w' = closures x) by (subst w'; cbn; by rewrite A).
  assert (Ecd : timeoutId (closures w' !!! d) = None).
  { rewrite Ecl. subst x. rewrite modify_closure_lookup.
    by destruct (decide (d = d)). }
  assert (Eco : forall d', d' <> d -> closures w' !!! d' = closures w !!! d').
  { intros d' Hne. rewrite Ecl. subst x. rewrite modify_closure_lookup.
    by destruct (decide (d = d')). }
  assert (Encl : next_closure w' = next_closure w)
    by (subst w'; cbn; by rewrite B).
  assert (Econ : connections w' = connections w)
    by (subst w'; cbn; by rewrite E).
  clearbody w'. clear A B C D E. clear Ecl.
  split; [|done]. split_and!.
  - unfold fresh_ids. rewrite Es, En. by apply Forall_filter_keep.
  - intros d'. destruct (decide (d' = d)) as [->|Hne].
    + unfold tidy, linked. rewrite Ecd, Es, others_others, mine_others.
      done.
    + destruct (Hl d') as [Ht' Hk']. unfold tidy, linked in *.
      rewrite (Eco d' Hne), Es, En, mine_others_ne by done.
      split; [|done].
      destruct (timeoutId (closures w !!! d')) as [a'|].
      * destruct Ht' as [Ha' Ht']. split; [done|].
        unfold detach, others in *. by rewrite filter_comm, Ht', filter_comm.
      * unfold others in *. by rewrite filter_comm, Ht'.
  - intros d' Hd'. destruct (decide (d' = d)) as [->|Hne]; [done|].
    rewrite Eco by done. apply Hz. by rewrite <- Encl.
  - by rewrite Econ, Encl.
Qed.

Lemma attached_In a w :
  attached a w = true -> exists s, In s (sources w) /\ source_id s = a.
Proof.
  unfold attached. intros H. apply existsb_exists in H as (s & Hin & He).
  exists s. split; [done|]. by apply Nat.eqb_eq.
Qed.

Lemma timers_ok_dispatch_all duration (l : list Source) : forall w,
  timers_ok w ->
  (forall s, In s l -> attached (source_id s) w = true -> In s (sources w)) ->
  timers_ok (fold_left (fun acc s => dispatch_source duration s acc) l w).
Proof.
  induction l as [|s0 l IH]; intros w Hok Hl; [done|].
  cbn [fold_left].
  destruct (attached (source_id s0) w) eqn:Hatt.
  - pose proof (Hl s0 (or_introl eq_refl) Hatt) as Hin.
    destruct (timers_ok_dispatch_source duration s0 w Hok Hin) as [Hok' Es].
    revert Hok' Es. generalize (dispatch_source duration s0 w).
    intros w' Hok' Es. apply IH; [done|].
    intros s Hs Ha. apply attached_In in Ha as (s' & Hin' & Hid).
    rewrite Es in Hin' |- *. unfold detach in *.
    apply filter_In in Hin' as [Hin' Hne].
    apply filter_In. rewrite <- Hid. split; [|done].
    apply Hl; [by right|]. unfold attached. apply existsb_exists.
    exists s'. split; [done|]. rewrite Hid. apply Nat.eqb_refl.
  - unfold dispatch_source at 2. rewrite Hatt.
    apply IH; [done|]. intros s Hs. apply Hl. by right.
Qed.

Lemma timers_ok_dispatch duration w :
  timers_ok w -> timers_ok (dispatch duration w).
Proof.
  intros Hok. unfold dispatch. apply timers_ok_dispatch_all; [done|].
  intros s Hs _. by apply filter_In in Hs as [? _].
Qed.

Lemma timers_ok_advance duration ms : forall w,
  timers_ok w -> timers_ok (advance duration ms w).
Proof.
  induction ms as [|ms IH]; intros w Hok; [done|].
  cbn [advance]. apply IH, timers_ok_dispatch.
  eapply timers_ok_same; [|exact Hok]. by repeat split.
Qed.


Lemma same_timers_getRadius c node w : same_timers w (snd (getRadius c node w)).
Proof.
  rewrite getRadius_eq. destruct (cachedRadius _); by repeat split.
Qed.

Lemma same_timers_getBorderWidth c node w :
  same_timers w (snd (getBorderWidth c node w)).
Proof.
  rewrite getBorderWidth_eq. destruct (cachedBorderWidth _); by repeat split.
Qed.

Lemma same_timers_panel_emit sig w : same_timers w (panel_emit sig w).
Proof.
  unfold panel_emit. generalize (handlers (panel w)). intros l.
  revert w. induction l as [|h l IH]; intros w; [apply same_timers_refl|].
  cbn [fold_left]. destruct (String.eqb (signal h) sig); [|apply IH].
  eapply same_timers_trans; [apply same_timers_update_allocation | apply IH].
Qed.

Lemma same_timers_remove_left w : same_timers w (remove_left w).
Proof.
  unfold remove_left. destruct (_leftCorner (panel w)) as [l|];
    [|apply same_timers_refl].
  eapply same_timers_trans; [apply (same_timers_remove_corner l)|].
  apply same_timers_modify_panel.
Qed.

Lemma same_timers_remove_right w : same_timers w (remove_right w).
Proof.
  unfold remove_right. destruct (_rightCorner (panel w)) as [r|];
    [|apply same_timers_refl].
  eapply same_timers_trans; [apply (same_timers_remove_corner r)|].
  apply same_timers_modify_panel.
Qed.

Lemma timers_ok_same_timers w w' :
  same_timers w w' -> timers_ok w -> timers_ok w'.
Proof. intros H. by apply timers_ok_same, same_sources_of_same_timers. Qed.

Lemma timers_ok_property_set key value w :
  timers_ok w -> timers_ok (property_set key value w).
Proof.
  intros Hok. unfold property_set. apply timers_ok_notify.
  eapply timers_ok_same; [|exact Hok]. by repeat split.
Qed.

Lemma timers_ok_lookup_for_color cfs node prop w :
  timers_ok w -> timers_ok (snd (lookup_for_color cfs node prop w)).
Proof.
  intros Hok. rewrite lookup_for_color_eq. cbn zeta.
  destruct (fst (cfs _)); cbn [snd].
  - eapply timers_ok_same; [|exact Hok]. by repeat split.
  - apply timers_ok_property_set.
    eapply timers_ok_same; [|exact Hok]. by repeat split.
Qed.

Lemma timers_ok_repaint cfs c w :
  timers_ok w -> timers_ok (vfunc_repaint cfs c w).
Proof.
  intros Hok. rewrite vfunc_repaint_eq. cbn zeta.
  pose proof (same_timers_getRadius c (theme_node w) w) as H1.
  destruct (getRadius c (theme_node w) w) as [r w1]. cbn [fst snd] in *.
  pose proof (same_timers_getBorderWidth c (theme_node w) w1) as H2.
  destruct (getBorderWidth c (theme_node w) w1) as [b w2]. cbn [fst snd] in *.
  assert (Hok2 : timers_ok w2).
  { eapply timers_ok_same_timers; [exact H2|].
    by eapply timers_ok_same_timers. }
  clear H1 H2 Hok. rewrite getBackgroundColor_eq.
  destruct (cachedBackgroundColor (corners w2 !!! c)) as [v|]; cbn [fst snd].
  - eapply timers_ok_same; [|exact Hok2]. by repeat split.
  - pose proof (timers_ok_lookup_for_color cfs (theme_node w)
                  "-panel-corner-background-color" w2 Hok2) as H3.
    revert H3.
    generalize (lookup_for_color cfs (theme_node w)
                  "-panel-corner-background-color" w2).
    intros [v x] H3. cbn [fst snd] in *.
    eapply timers_ok_same; [|exact H3]. by repeat split.
Qed.

Lemma timers_ok_remove w : timers_ok w -> timers_ok (remove w).
Proof.
  intros Hok. unfold remove.
  assert (H1 : timers_ok (cancel_pending w)).
  { unfold cancel_pending. destruct (debouncedStyleUpdate w) as [d|]; [|done].
    pose proof (timers_ok_cancel d w Hok) as H. revert H.
    generalize (cancel d w). intros x H.
    eapply timers_ok_same; [|exact H]. by repeat split. }
  revert H1. generalize (cancel_pending w). clear w Hok.
  intros w (Hf & Hl & Hz & Hc).
  assert (H2 : timers_ok (disconnect_all w)).
  { by split_and!. }
  revert H2. generalize (disconnect_all w). clear w Hf Hl Hz Hc.
  intros w H2.
  eapply timers_ok_same_timers; [apply same_timers_remove_right|].
  eapply timers_ok_same_timers; [apply same_timers_remove_left|]. done.
Qed.

Lemma timers_ok_update_corner duration c w :
  timers_ok w -> timers_ok (update_corner duration c w).
Proof.
  intros (Hf & Hl & Hz & Hc).
  destruct (update_corner_timers duration c w)
    as (Ecl & Encl & Econ & Es & En & _).
  cbn zeta in *. revert Ecl Encl Econ Es En.
  generalize (update_corner duration c w). intros w' Ecl Encl Econ Es En.
  set (d := next_closure w) in *.
  assert (Hd : timeoutId (closures w !!! d) = None) by (by apply Hz).
  split_and!.
  - unfold fresh_ids. by rewrite Es, En.
  - intros d'. unfold tidy, linked. rewrite Ecl, Es, En.
    destruct (decide (d' = d)) as [->|Hne].
    + rewrite lookup_total_insert_eq. cbn.
      destruct (Hl d) as [Ht Hk]. unfold tidy, linked in Ht, Hk.
      by rewrite Hd in Ht, Hk.
    + rewrite lookup_total_insert_ne by done. apply Hl.
  - intros d' Hd'. rewrite Encl in Hd'. rewrite Ecl.
    rewrite lookup_total_insert_ne by lia. apply Hz. lia.
  - rewrite Econ, Encl. apply Forall_app. split.
    + eapply Forall_impl; [exact Hc|]. cbn. lia.
    + unfold subscribe. apply List.Forall_forall. intros x Hx.
      apply in_map_iff in Hx as (k & <- & _). cbn. lia.
Qed.

Lemma timers_ok_update duration w : timers_ok w -> timers_ok (update duration w).
Proof.
  intros Hok. unfold update.
  assert (H0 : timers_ok (remove (log "updating panel corners..." w))).
  { apply timers_ok_remove.
    eapply timers_ok_same_timers; [apply same_timers_log | done]. }
  revert H0. generalize (remove (log "updating panel corners..." w)).
  clear w Hok. intros w H0.
  destruct (same_timers_new_PanelCorner LEFT w) as [_ H1].
  destruct (new_PanelCorner LEFT w) as [l w1]. cbn [snd] in H1.
  assert (H1' : timers_ok (modify_panel (set_leftCorner (Some l)) w1)).
  { eapply timers_ok_same; [|eapply timers_ok_same_timers; [exact H1|done]].
    by repeat split. }
  revert H1'. generalize (modify_panel (set_leftCorner (Some l)) w1).
  clear w w1 H0 H1. intros w H0.
  destruct (same_timers_new_PanelCorner RIGHT w) as [_ H1].
  destruct (new_PanelCorner RIGHT w) as [r w1]. cbn [snd] in H1.
  assert (H1' : timers_ok (modify_panel (set_rightCorner (Some r)) w1)).
  { eapply timers_ok_same; [|eapply timers_ok_same_timers; [exact H1|done]].
    by repeat split. }
  revert H1'. generalize (modify_panel (set_rightCorner (Some r)) w1).
  clear w w1 H0 H1. intros w H0.
  eapply timers_ok_same_timers; [apply same_timers_log|].
  by apply timers_ok_update_corner, timers_ok_update_corner.
Qed.

Lemma timers_ok_step cfs duration w a :
  timers_ok w -> timers_ok (step cfs duration w a).
Proof.
  intros Hok. destruct a as [| |s key|sig nw nh|pc|node scale|c|c|ms];
    cbn [step].
  - by apply timers_ok_update.
  - by apply timers_ok_remove.
  - apply timers_ok_notify.
    eapply timers_ok_same; [|exact Hok]. by repeat split.
  - eapply timers_ok_same_timers; [apply same_timers_panel_emit|].
    eapply timers_ok_same; [|exact Hok]. by repeat split.
  - eapply timers_ok_same; [|exact Hok]. by repeat split.
  - eapply timers_ok_same; [|exact Hok]. by repeat split.
  - destruct (is_child c w); [|done].
    eapply timers_ok_same_timers; [apply same_timers_style_changed | done].
  - destruct (is_child c w); [|done]. by apply timers_ok_repaint.
  - by apply timers_ok_advance.
Qed.

Lemma timers_ok_run cfs duration acts : forall w,
  timers_ok w -> timers_ok (run cfs duration acts w).
Proof.
  induction acts as [|a acts IH]; intros w Hok; [done|].
  unfold run. cbn [fold_left]. apply IH. by apply timers_ok_step.
Qed.

Lemma timers_ok_initial s scale node panel_width panel_height pc :
  timers_ok (initial s scale node panel_width panel_height pc).
Proof.
  split_and!.
  - constructor.
  - intros d. by split.
  - done.
  - constructor.
Qed.

(** X12: in every execution, for every debounced wrapper, the timers it has
    pending are exactly the one that its [timeoutId] cell names, and none
    when the cell is [null]: a wrapper never has two timers pending, and its
    cell never holds the id of a source that has fired or has been removed,
    so [GLib.source_remove] is only ever called on an attached source. *)
Theorem one_timer_per_wrapper cfs duration acts s scale node
    panel_width panel_height pc d :
  let w := run cfs duration acts
             (initial s scale node panel_width panel_height pc) in
  map source_id (mine d (sources w)) =
    option_list (timeoutId (closures w !!! d)) /\
  match timeoutId (closures w !!! d) with
  | Some a => attached a w = true
  | None => True
  end.
Proof.
  cbn zeta.
  pose proof (timers_ok_run cfs duration acts _
                (timers_ok_initial s scale node panel_width panel_height pc))
    as (_ & Hl & _).
  revert Hl. generalize (run cfs duration acts
                           (initial s scale node panel_width panel_height pc)).
  intros w Hl. destruct (Hl d) as [_ Hk]. split; [exact Hk|].
  unfold linked in Hk.
  destruct (timeoutId (closures w !!! d)) as [a|]; [|done].
  unfold attached. apply existsb_exists.
  destruct (mine d (sources w)) as [|s1 rest] eqn:E; [done|].
  exists s1. split.
  - assert (In s1 (mine d (sources w))) as Hin by (rewrite E; by left).
    unfold mine in Hin. by apply filter_In in Hin as [? _].
  - cbn in Hk. injection Hk as -> _. apply Nat.eqb_refl.
Qed.


(** ** What [update()] establishes *)

Lemma same_style_refl w : same_style w w.
Proof. by repeat split. Qed.

Lemma same_style_trans w1 w2 w3 :
  same_style w1 w2 -> same_style w2 w3 -> same_style w1 w3.
Proof.
  intros (A1&A2&A3&A4&A5&A6) (B1&B2&B3&B4&B5&B6). repeat split; congruence.
Qed.

Lemma same_style_values w w' :
  same_style w w' ->
  radius_of w' = radius_of w /\ border_width_of w' = border_width_of w /\
  opacity_of w' = opacity_of w /\ ease_target w' = ease_target w.
Proof.
  intros (A1&A2&A3&A4&A5&A6).
  unfold ease_target, in_overview, radius_of, border_width_of, opacity_of.
  by rewrite A1, A2, A6.
Qed.

Lemma same_style_log str w : same_style w (log str w).
Proof. unfold log. destruct (DEBUG (settings w)); by repeat split. Qed.

Lemma same_style_remove_corner c w : same_style w (remove_corner c w).
Proof. rewrite remove_corner_eq. by repeat split. Qed.

Lemma same_style_remove w : same_style w (remove w).
Proof.
  unfold remove.
  apply (same_style_trans _ (disconnect_all (cancel_pending w))).
  { unfold cancel_pending. destruct (debouncedStyleUpdate w) as [d|];
      [|by repeat split].
    unfold cancel. destruct (timeoutId (closures w !!! d)); by repeat split. }
  generalize (disconnect_all (cancel_pending w)). clear w. intros w.
  apply (same_style_trans _ (remove_left w)).
  - unfold remove_left. destruct (_leftCorner (panel w)) as [l|];
      [|apply same_style_refl].
    eapply same_style_trans; [apply (same_style_remove_corner l)|].
    generalize (remove_corner l w). intros x. by repeat split.
  - generalize (remove_left w). clear w. intros w.
    unfold remove_right. destruct (_rightCorner (panel w)) as [r|];
      [|apply same_style_refl].
    eapply same_style_trans; [apply (same_style_remove_corner r)|].
    generalize (remove_corner r w). intros x. by repeat split.
Qed.

Lemma same_style_new_PanelCorner s w :
  same_style w (snd (new_PanelCorner s w)).
Proof. rewrite new_PanelCorner_eq. by repeat split. Qed.

Lemma same_style_update_corner duration c w :
  same_style w (update_corner duration c w).
Proof.
  unfold update_corner. rewrite vfunc_style_changed_eq.
  unfold debounce. cbn. rewrite connect_fold. by repeat split.
Qed.

Lemma fitted_styled c w w0 o :
  same_style w0 w -> destroyed o = false ->
  fitted (side o) w0 (styled c w o).
Proof.
  intros Hs Hd. destruct (same_style_values w0 w Hs) as (R & B & O & E).
  unfold fitted, styled. cbn. by rewrite R, B, O, E, Hd.
Qed.

(** The two corners that [update()] makes, as it leaves them. *)
Lemma update_fits duration w0 :
  let w1 := update duration w0 in
  let l := next_corner w0 in
  _leftCorner (panel w1) = Some l /\
  _rightCorner (panel w1) = Some (S l) /\
  (exists base, children (panel w1) = (base ++ [l; S l])%list) /\
  fitted LEFT w0 (corners w1 !!! l) /\
  fitted RIGHT w0 (corners w1 !!! S l).
Proof.
  cbn zeta. unfold update.
  assert (H0 : same_style w0 (remove (log "updating panel corners..." w0)) /\
               next_corner (remove (log "updating panel corners..." w0)) =
                 next_corner w0).
  { split.
    - eapply same_style_trans; [apply same_style_log|apply same_style_remove].
    - destruct (remove_timers (log "updating panel corners..." w0))
        as (_&_&_&_&->&_). apply next_corner_log. }
  revert H0. generalize (remove (log "updating panel corners..." w0)).
  intros w [S0 N0]. rewrite <- N0. clear N0.
  set (l := next_corner w) in *.
  (* the constructor of the left corner *)
  pose proof (same_style_new_PanelCorner LEFT w) as S1.
  rewrite new_PanelCorner_eq in S1 |- *. cbv beta iota. cbn [snd] in S1.
  fold l in S1 |- *.
  set (w1 := modify_panel (set_leftCorner (Some l)) _).
  assert (S1' : same_style w0 w1).
  { eapply same_style_trans; [exact S0|].
    eapply same_style_trans; [exact S1|]. by repeat split. }
  assert (P1 : _leftCorner (panel w1) = Some l) by done.
  assert (C1 : corners w1 !!! l =
               constructed LEFT (next_handler (panel w)) (panel w)).
  { subst w1. cbn. by rewrite lookup_total_insert_eq. }
  assert (N1 : next_corner w1 = S l) by done.
  clearbody w1. clear S0 S1.
  (* the constructor of the right corner *)
  pose proof (same_style_new_PanelCorner RIGHT w1) as S2.
  rewrite new_PanelCorner_eq in S2 |- *. cbv beta iota. cbn [snd] in S2.
  rewrite N1 in S2 |- *.
  set (w2 := modify_panel (set_rightCorner (Some (S l))) _).
  assert (S2' : same_style w0 w2).
  { eapply same_style_trans; [exact S1'|].
    eapply same_style_trans; [exact S2|]. by repeat split. }
  assert (P2 : _leftCorner (panel w2) = Some l /\
               _rightCorner (panel w2) = Some (S l)).
  { subst w2. cbn. by rewrite P1. }
  assert (C2 : corners w2 !!! l =
               constructed LEFT (next_handler (panel w)) (panel w) /\
               corners w2 !!! S l =
               constructed RIGHT (next_handler (panel w1)) (panel w1)).
  { subst w2. cbn. rewrite lookup_total_insert_eq.
    rewrite lookup_total_insert_ne by lia. by rewrite C1. }
  clearbody w2. clear S1' S2 P1 C1 N1.
  destruct P2 as [P2l P2r]. destruct C2 as [C2l C2r].
  (* both corners become children and are styled *)
  destruct (update_corner_view duration l w2) as (P3 & _ & C3).
  pose proof (same_style_update_corner duration l w2) as S3.
  cbn zeta in *. revert P3 C3 S3. generalize (update_corner duration l w2).
  intros w3 P3 C3 S3.
  destruct (update_corner_view duration (S l) w3) as (P4 & _ & C4).
  cbn zeta in *. revert P4 C4. generalize (update_corner duration (S l) w3).
  intros w4 P4 C4.
  assert (S3' : same_style w0 w3) by (by eapply same_style_trans).
  assert (Q : _leftCorner (panel (log "corners updated." w4)) = Some l /\
              _rightCorner (panel (log "corners updated." w4)) = Some (S l) /\
              children (panel (log "corners updated." w4)) =
                (children (panel w2) ++ [l; S l])%list /\
              corners (log "corners updated." w4) = corners w4).
  { unfold log. destruct (DEBUG (settings w4)); cbn; rewrite P4, P3; cbn;
      by rewrite P2l, P2r, <- app_assoc. }
  revert Q. generalize (log "corners updated." w4).
  intros w5 (Q1 & Q2 & Q3 & Q4).
  split_and!; [done | done | by eexists | |].
  - rewrite Q4, C4, lookup_total_insert_ne by lia.
    rewrite C3, lookup_total_insert_eq, C2l.
    by apply (fitted_styled l w2 w0 (constructed LEFT _ _)).
  - rewrite Q4, C4, lookup_total_insert_eq.
    rewrite C3, lookup_total_insert_ne by lia. rewrite C2r.
    by apply (fitted_styled (S l) w3 w0 (constructed RIGHT _ _)).
Qed.

(** X13: [update()], from any state, leaves the panel referring to two
    corners it has just made, a LEFT and a RIGHT one, the last two children
    of the panel; each is styled for the settings, the scale and the panel as
    they are: radius, border width and opacity are cached, the preferred size
    is radius by border width plus radius, the translation is minus the
    border width, the opacity animation has its target; the colour is not
    resolved before the first repaint. *)
Theorem update_postcondition duration w0 :
  let w1 := update duration w0 in
  let l := next_corner w0 in
  _leftCorner (panel w1) = Some l /\
  _rightCorner (panel w1) = Some (S l) /\
  (exists base, children (panel w1) = (base ++ [l; S l])%list) /\
  fitted LEFT w0 (corners w1 !!! l) /\
  fitted RIGHT w0 (corners w1 !!! S l).
Proof. exact (update_fits duration w0). Qed.


(** ** A settings change takes effect *)

(** A timer of the wrapper [d] fires: its corner is styled for the world as
    it is then; nothing else of the corners changes. *)
Lemma fire_one_view duration d c s w :
  callback (closures w !!! d) = StyleUpdate c ->
  attached (source_id s) w = true -> owner s = d ->
  let w' := dispatch_source duration s w in
  same_style w w' /\ panel w' = panel w /\
  corners w' = <[c := styled c w (corners w !!! c)]> (corners w).
Proof.
  intros Hcb Hatt Hown. cbn zeta. unfold dispatch_source.
  rewrite Hatt, Hown. unfold timeout_expired.
  rewrite modify_closure_lookup. destruct (decide (d = d)); [|done].
  cbn [callback set_timeoutId closures emit]. rewrite Hcb.
  unfold run_callback. rewrite vfunc_style_changed_eq.
  unfold invalidateCache. cbn.
  rewrite lookup_total_insert_eq, insert_insert_eq.
  split_and!; try done. f_equal.
  transitivity (styled c w
                  (set_cachedOpacity None
                     (set_cachedBackgroundColor None
                        (set_cachedBorderWidth None
                           (set_cachedRadius None (corners w !!! c)))))).
  - apply styled_eq; try done.
    unfold box_of. cbn. by rewrite lookup_total_insert_eq.
  - by unfold styled.
Qed.

(** Both pending timers are due: each corner is styled for the world as it
    is then. *)
Lemma both_fire_view duration dL dR l r ks t w :
  wired dL dR l r ks w -> armed dL dR t w -> l <> r -> now w = t ->
  let w' := dispatch duration w in
  corners w' !!! l = styled l w (corners w !!! l) /\
  corners w' !!! r = styled r w (corners w !!! r).
Proof.
  intros (Hne & HcL & HwL & HcR & HwR & Hconn & Hf & HtL & HtR & Hown)
         (a & b & Hsrc & Hca & Hcb) Hlr Hnow.
  assert (Hab : a <> b).
  { unfold tidy in HtL. rewrite Hca, Hsrc in HtL. destruct HtL as [_ HtL].
    cbn in HtL. rewrite !Nat.eqb_refl in HtL. cbn in HtL.
    destruct (Nat.eqb_spec dR dL); [congruence|].
    destruct (Nat.eqb_spec b a); [done | congruence]. }
  cbn zeta. unfold dispatch. rewrite Hsrc, Hnow. cbn [List.filter due].
  rewrite Nat.leb_refl. cbn [fold_left].
  set (sL := {| source_id := a; due := t; owner := dL |}).
  set (sR := {| source_id := b; due := t; owner := dR |}).
  assert (HattL : attached (source_id sL) w = true).
  { unfold attached. rewrite Hsrc. cbn. by rewrite Nat.eqb_refl. }
  destruct (fire_one duration dL l sL w HcL HattL eq_refl)
    as (Hs1 & _ & Hc1 & _ & _).
  destruct (fire_one_view duration dL l sL w HcL HattL eq_refl)
    as (S1 & P1 & C1).
  cbn zeta in *. rewrite Hsrc in Hs1. cbn in Hs1.
  rewrite Nat.eqb_refl in Hs1. cbn in Hs1.
  destruct (Nat.eqb_spec b a) as [|_]; [congruence|]. cbn in Hs1.
  revert Hs1 Hc1 S1 P1 C1. generalize (dispatch_source duration sL w).
  intros w1 Hs1 Hc1 S1 P1 C1.
  assert (HcR1 : callback (closures w1 !!! dR) = StyleUpdate r).
  { rewrite Hc1 by congruence. done. }
  assert (HattR : attached (source_id sR) w1 = true).
  { unfold attached. rewrite Hs1. cbn. by rewrite Nat.eqb_refl. }
  destruct (fire_one_view duration dR r sR w1 HcR1 HattR eq_refl)
    as (_ & _ & C2).
  cbn zeta in *. revert C2. generalize (dispatch_source duration sR w1).
  intros w2 C2.
  destruct (same_style_values w w1 S1) as (R & B & O & E).
  assert (Lr : corners w1 !!! r = corners w !!! r).
  { rewrite C1. by apply lookup_total_insert_ne. }
  split.
  - rewrite C2, lookup_total_insert_ne by congruence.
    by rewrite C1, lookup_total_insert_eq.
  - rewrite C2, lookup_total_insert_eq, Lr.
    apply styled_eq; try done. unfold box_of. by rewrite Lr, P1.
Qed.

(** X14: a settings change takes effect: on an active controller (after
    [update()]), when the store is edited and notifies a key of the schema,
    nothing of the corners changes for the next 49 ms, and 50 ms after the
    change both corners are styled for the edited settings: radius, border
    width and opacity are cached as the edited store resolves them, and
    preferred size, translation and opacity target are set from them. *)
Theorem settings_change_takes_effect cfs duration w0 s key :
  sources w0 = [] -> In key (map name (keys (settings w0))) ->
  let l := next_corner w0 in
  let w1 := update duration w0 in
  let w2 := step cfs duration w1 (Edit s key) in
  let w3 := advance duration SETTINGS_DEBOUNCE_MS w2 in
  settings w2 = edit s (settings w0) /\
  (forall g, g < SETTINGS_DEBOUNCE_MS ->
             corners (advance duration g w2) = corners w1) /\
  fitted LEFT w2 (corners w3 !!! l) /\
  fitted RIGHT w2 (corners w3 !!! S l).
Proof.
  intros Hs Hkey. cbn zeta.
  destruct (update_effect duration w0 Hs)
    as (HdL & HdR & Hconn & Hs1 & _ & _ & Hset & _).
  destruct (update_fits duration w0) as (_ & _ & _ & FL & FR).
  cbn zeta in *.
  set (dL := next_closure w0) in *. set (l := next_corner w0) in *.
  assert (Hw1 : wired dL (S dL) l (S l) (keys (settings w0))
                  (update duration w0)).
  { unfold wired, fresh_ids, tidy. rewrite HdL, HdR, Hs1, Hconn. cbn.
    split_and!; done. }
  destruct FL as (FL1 & _ & _ & _ & _ & _ & _ & _ & _ & FL2).
  destruct FR as (FR1 & _ & _ & _ & _ & _ & _ & _ & _ & FR2).
  clear HdL HdR Hconn Hs1.
  revert Hw1 Hset FL1 FL2 FR1 FR2. generalize (update duration w0).
  intros w1 Hw1 Hset FL1 FL2 FR1 FR2. cbn [step].
  destruct (settings_change_arms dL (S dL) l (S l) (keys (settings w0))
              w1 s key Hw1 Hkey) as (Hw2 & Ha2 & Hto).
  cbn zeta in *.
  assert (Hset2 : settings (notify_changed key
                              (set_settings (edit s (settings w1)) w1)) =
                  edit s (settings w0)).
  { destruct Hto as (-> & _). cbn. by rewrite Hset. }
  assert (Hc2 : corners (notify_changed key
                           (set_settings (edit s (settings w1)) w1)) =
                corners w1).
  { by destruct Hto as (_&_&_&_&->&_). }
  assert (Hn2 : now (notify_changed key
                       (set_settings (edit s (settings w1)) w1)) = now w1).
  { by destruct Hto as (_&_&_&_&_&_&_&_&->&_). }
  revert Hw2 Ha2 Hset2 Hc2 Hn2. clear Hto.
  generalize (notify_changed key (set_settings (edit s (settings w1)) w1)).
  intros w2 Hw2 Ha2 Hset2 Hc2 Hn2. rewrite <- Hn2 in Ha2.
  assert (Hquiet : forall g, g < SETTINGS_DEBOUNCE_MS ->
                     advance duration g w2 = set_now (now w2 + g) w2).
  { intros g Hg. apply advance_quiet.
    eapply Forall_impl; [exact (armed_due _ _ _ _ Ha2)|].
    cbn. intros x ->. lia. }
  split_and!.
  - done.
  - intros g Hg. by rewrite Hquiet.
  - change SETTINGS_DEBOUNCE_MS with (49 + 1).
    rewrite advance_add, (Hquiet 49) by (unfold SETTINGS_DEBOUNCE_MS; lia).
    cbn [advance]. cbn [now set_now].
    change (set_now (S (now w2 + 49)) (set_now (now w2 + 49) w2))
      with (set_now (S (now w2 + 49)) w2).
    assert (Ha3 : armed dL (S dL) (S (now w2 + 49))
                    (set_now (S (now w2 + 49)) w2)).
    { replace (S (now w2 + 49)) with (now w2 + SETTINGS_DEBOUNCE_MS)
        by (unfold SETTINGS_DEBOUNCE_MS; lia).
      exact Ha2. }
    destruct (both_fire_view duration dL (S dL) l (S l) (keys (settings w0))
                (S (now w2 + 49)) (set_now (S (now w2 + 49)) w2))
      as [VL _]; [exact Hw2 | exact Ha3 | lia | done |].
    cbn zeta in VL. rewrite VL.
    change (corners (set_now (S (now w2 + 49)) w2)) with (corners w2).
    rewrite Hc2, <- FL1.
    apply (fitted_styled l (set_now (S (now w2 + 49)) w2) w2); [|done].
    by repeat split.
  - change SETTINGS_DEBOUNCE_MS with (49 + 1).
    rewrite advance_add, (Hquiet 49) by (unfold SETTINGS_DEBOUNCE_MS; lia).
    cbn [advance]. cbn [now set_now].
    change (set_now (S (now w2 + 49)) (set_now (now w2 + 49) w2))
      with (set_now (S (now w2 + 49)) w2).
    assert (Ha3 : armed dL (S dL) (S (now w2 + 49))
                    (set_now (S (now w2 + 49)) w2)).
    { replace (S (now w2 + 49)) with (now w2 + SETTINGS_DEBOUNCE_MS)
        by (unfold SETTINGS_DEBOUNCE_MS; lia).
      exact Ha2. }
    destruct (both_fire_view duration dL (S dL) l (S l) (keys (settings w0))
                (S (now w2 + 49)) (set_now (S (now w2 + 49)) w2))
      as [_ VR]; [exact Hw2 | exact Ha3 | lia | done |].
    cbn zeta in VR. rewrite VR.
    change (corners (set_now (S (now w2 + 49)) w2)) with (corners w2).
    rewrite Hc2, <- FR1.
    apply (fitted_styled (S l) (set_now (S (now w2 + 49)) w2) w2); [|done].
    by repeat split.
Qed.

(** X14 at work: radius 12 and border width 2 are edited to 10 and 3; 50 ms
    later the corners are 10 wide and 3 + 10 high. *)
Lemma settings_change_takes_effect_witness :
  let w0 := demo_world false 12 2 "#112233ff" None in
  let w3 := advance 250 SETTINGS_DEBOUNCE_MS
              (step hex_color_from_string 250 (update 250 w0)
                 (Edit (demo_settings false 10 3 "#112233ff")
                    "panel-corner-radius")) in
  natural_width (corners w3 !!! 0) = (10 * 1)%Q /\
  natural_height (corners w3 !!! 1) = (3 * 1 + 10 * 1)%Q.
Proof.
  pose proof (settings_change_takes_effect hex_color_from_string 250
                (demo_world false 12 2 "#112233ff" None)
                (demo_settings false 10 3 "#112233ff")
                "panel-corner-radius" eq_refl) as H.
  cbn zeta in H. destruct H as (_ & _ & FL & FR).
  - cbn. tauto.
  - destruct FL as (_&_&_&_&_&FL&_). destruct FR as (_&_&_&_&_&_&FR&_).
    split; [exact FL | exact FR].
Defined.


(** ** What [remove()] and [update()] never do *)

Lemma emits_refl P w : emits P w w.
Proof. by exists []. Qed.

Lemma emits_trans P w1 w2 w3 : emits P w1 w2 -> emits P w2 w3 -> emits P w1 w3.
Proof.
  intros (s1 & E1 & F1) (s2 & E2 & F2). exists (s2 ++ s1)%list. split.
  - by rewrite E2, E1, app_assoc.
  - by apply Forall_app.
Qed.

Lemma emits_mono (P Q : Event -> bool) w w' :
  (forall e, P e = true -> Q e = true) -> emits P w w' -> emits Q w w'.
Proof.
  intros H (seg & E & F). exists seg. split; [done|].
  eapply Forall_impl; [exact F|]. exact H.
Qed.

Lemma emits_same P w w' : trace w' = trace w -> emits P w w'.
Proof. intros H. by exists []. Qed.

Lemma emits_remove_corner c w : emits corner_removal_event w (remove_corner c w).
Proof.
  rewrite remove_corner_eq. cbn zeta. eexists. split; [reflexivity|].
  apply Forall_app. split; [by repeat constructor|].
  apply Forall_app. split.
  - by destruct (size_changed_id _) as [[|b]|]; repeat constructor.
  - by destruct (position_changed_id _) as [[|a]|]; repeat constructor.
Qed.

Lemma emits_remove_corners w :
  emits corner_removal_event w (remove_right (remove_left w)).
Proof.
  apply (emits_trans _ _ (remove_left w)).
  - unfold remove_left. destruct (_leftCorner (panel w)) as [l|];
      [|apply emits_refl].
    eapply emits_trans; [apply (emits_remove_corner l)|].
    generalize (remove_corner l w). intros x. by apply emits_same.
  - generalize (remove_left w). clear w. intros w.
    unfold remove_right. destruct (_rightCorner (panel w)) as [r|];
      [|apply emits_refl].
    eapply emits_trans; [apply (emits_remove_corner r)|].
    generalize (remove_corner r w). intros x. by apply emits_same.
Qed.

(** The first two statements of [remove()]: at most one timer is
    cancelled. *)
Lemma cancel_pending_trace w :
  exists seg : list Event,
    trace (disconnect_all (cancel_pending w)) = (seg ++ trace w)%list /\
    forallb removal_event seg = true /\
    tally is_source_remove seg <= 1.
Proof.
  unfold cancel_pending. destruct (debouncedStyleUpdate w) as [d|];
    [|exists []; split_and!; [done | done | unfold tally; cbn; lia]].
  unfold cancel. destruct (timeoutId (closures w !!! d)) as [a|].
  - exists [EvSourceRemove a].
    split_and!; [done | done | unfold tally; cbn; lia].
  - exists []. split_and!; [done | done | unfold tally; cbn; lia].
Qed.

Lemma emits_remove w : emits removal_event w (remove w).
Proof.
  unfold remove.
  apply (emits_trans _ _ (disconnect_all (cancel_pending w))).
  - destruct (cancel_pending_trace w) as (seg & E & F & _).
    exists seg. split; [done|]. apply List.Forall_forall.
    by rewrite forallb_forall in F.
  - eapply emits_mono; [|apply emits_remove_corners].
    intros e He. unfold removal_event. rewrite He. apply orb_true_r.
Qed.

(** X15: [remove()] only cancels and takes away: what it adds to the trace
    are removals of children, disconnections, destructions and at most one
    [GLib.source_remove] (the timer of the one wrapper that the controller
    still holds); it performs no lookup, no invalidation, no allocation and
    no style-changed pass, paints nothing, starts no timer, writes no setting
    and logs nothing, and it leaves settings, scale, theme node and the
    geometry of the panel as they were. *)
Theorem remove_only_removes w :
  same_style w (remove w) /\
  exists seg : list Event,
    trace (remove w) = (seg ++ trace w)%list /\
    forallb removal_event seg = true /\
    tally is_source_remove seg <= 1.
Proof.
  split; [apply same_style_remove|]. unfold remove.
  destruct (cancel_pending_trace w) as (seg1 & E1 & F1 & T1). revert E1.
  generalize (disconnect_all (cancel_pending w)). intros w1 E1.
  destruct (emits_remove_corners w1) as (seg2 & E2 & F2).
  exists (seg2 ++ seg1)%list. split_and!.
  - by rewrite E2, E1, app_assoc.
  - rewrite forallb_app, F1, andb_true_r. apply forallb_forall.
    rewrite List.Forall_forall in F2. intros e He.
    unfold removal_event. rewrite (F2 e He). apply orb_true_r.
  - rewrite tally_app.
    assert (tally is_source_remove seg2 = 0) as ->; [|done].
    unfold tally. clear E2. induction F2 as [|e seg2 He _ IH]; [done|].
    cbn. by destruct e.
Qed.

Lemma emits_style_events duration c w :
  Forall (fun e => update_event e = true) (style_events duration c w).
Proof.
  unfold style_events. repeat (apply Forall_app; split);
    try (by repeat constructor);
    unfold lookup_events; destruct (use_extension _ _); by repeat constructor.
Qed.

Lemma emits_update_corner duration c w :
  emits update_event w (update_corner duration c w).
Proof.
  unfold update_corner. rewrite vfunc_style_changed_eq.
  unfold debounce. cbn. rewrite connect_fold. cbn.
  eexists (_ ++ [EvAddChild c; EvBindStyle c])%list. split.
  - rewrite <- app_assoc. reflexivity.
  - apply Forall_app. split; [apply emits_style_events|].
    by repeat constructor.
Qed.

Lemma emits_new_PanelCorner s w :
  emits update_event w (snd (new_PanelCorner s w)).
Proof.
  rewrite new_PanelCorner_eq. cbn [snd]. eexists. split; [reflexivity|].
  by repeat constructor.
Qed.

Lemma log_eq str w : log str w = log_events (log_entry (settings w) str) w.
Proof.
  unfold log, log_entry. destruct (DEBUG (settings w)); [done|].
  by destruct w.
Qed.

(** X16: [update()] logs its two messages, the first before anything else
    and the last after everything else, when debugging is on and nothing
    when it is off; in between it starts and fires no timer, writes no
    setting and paints nothing. *)
Theorem update_brackets_its_work duration w :
  exists seg : list Event,
    trace (update duration w) =
      (log_entry (settings w) "corners updated." ++ seg ++
       log_entry (settings w) "updating panel corners..." ++ trace w)%list /\
    forallb update_event seg = true.
Proof.
  unfold update. rewrite (log_eq "updating panel corners..." w).
  set (w0 := log_events _ w).
  assert (T0 : trace w0 =
               (log_entry (settings w) "updating panel corners..." ++
                trace w)%list) by done.
  assert (S0 : same_style w w0) by (by repeat split).
  clearbody w0.
  assert (H1 : emits update_event w0 (remove w0)).
  { eapply emits_mono; [|apply emits_remove]. by intros []. }
  pose proof (same_style_remove w0) as S1.
  revert H1 S1. generalize (remove w0). intros w1 H1 S1.
  pose proof (emits_new_PanelCorner LEFT w1) as H2.
  pose proof (same_style_new_PanelCorner LEFT w1) as S2.
  destruct (new_PanelCorner LEFT w1) as [l w2]. cbn [snd] in *.
  assert (H2' : emits update_event w1
                  (modify_panel (set_leftCorner (Some l)) w2)) by exact H2.
  assert (S2' : same_style w1 (modify_panel (set_leftCorner (Some l)) w2)).
  { eapply same_style_trans; [exact S2|]. by repeat split. }
  revert H2' S2'. generalize (modify_panel (set_leftCorner (Some l)) w2).
  clear H2 S2 w2. intros w2 H2 S2.
  pose proof (emits_new_PanelCorner RIGHT w2) as H3.
  pose proof (same_style_new_PanelCorner RIGHT w2) as S3.
  destruct (new_PanelCorner RIGHT w2) as [r w3]. cbn [snd] in *.
  assert (H3' : emits update_event w2
                  (modify_panel (set_rightCorner (Some r)) w3)) by exact H3.
  assert (S3' : same_style w2 (modify_panel (set_rightCorner (Some r)) w3)).
  { eapply same_style_trans; [exact S3|]. by repeat split. }
  revert H3' S3'. generalize (modify_panel (set_rightCorner (Some r)) w3).
  clear H3 S3 w3. intros w3 H3 S3.
  pose proof (emits_update_corner duration l w3) as H4.
  pose proof (same_style_update_corner duration l w3) as S4.
  revert H4 S4. generalize (update_corner duration l w3). intros w4 H4 S4.
  pose proof (emits_update_corner duration r w4) as H5.
  pose proof (same_style_update_corner duration r w4) as S5.
  revert H5 S5. generalize (update_corner duration r w4). intros w5 H5 S5.
  assert (Hset : settings w5 = settings w).
  { destruct S0 as (<- & _), S1 as (<- & _), S2 as (<- & _), S3 as (<- & _),
      S4 as (<- & _), S5 as (<- & _). done. }
  assert (H : emits update_event w0 w5).
  { eapply emits_trans; [exact H1|]. eapply emits_trans; [exact H2|].
    eapply emits_trans; [exact H3|]. by eapply emits_trans. }
  destruct H as (seg & E & F). exists seg. split.
  - rewrite log_eq. cbn. by rewrite Hset, E, T0.
  - apply forallb_forall. by rewrite List.Forall_forall in F.
Qed.


(** ** Subscriptions *)

Lemma update_connections duration w0 :
  connections (update duration w0) =
  (subscribe (next_closure w0) (keys (settings w0)) ++
   subscribe (S (next_closure w0)) (keys (settings w0)))%list.
Proof.
  unfold update.
  pose proof (same_timers_log "updating panel corners..." w0)
    as (_&B0&_&_&_&F0&_).
  revert B0 F0. generalize (log "updating panel corners..." w0).
  intros wa B0 F0.
  destruct (remove_timers wa) as (A1&_&_&D1&_).
  destruct (remove_clears wa) as (_&G1&_&_).
  revert A1 D1 G1. generalize (remove wa). intros wb A1 D1 G1.
  destruct (same_timers_new_PanelCorner LEFT wb) as (_ & _&B2&_&_&_&F2&G2).
  destruct (new_PanelCorner LEFT wb) as [l wc]. cbn [fst snd] in *.
  assert (H3 : next_closure (modify_panel (set_leftCorner (Some l)) wc) =
               next_closure w0 /\
               settings (modify_panel (set_leftCorner (Some l)) wc) =
               settings w0 /\
               connections (modify_panel (set_leftCorner (Some l)) wc) = []).
  { cbn. split_and!; congruence. }
  revert H3. generalize (modify_panel (set_leftCorner (Some l)) wc).
  clear. intros wd (B3 & F3 & G3).
  destruct (same_timers_new_PanelCorner RIGHT wd) as (_ & _&B4&_&_&_&F4&G4).
  destruct (new_PanelCorner RIGHT wd) as [r we]. cbn [fst snd] in *.
  assert (H5 : next_closure (modify_panel (set_rightCorner (Some r)) we) =
               next_closure w0 /\
               settings (modify_panel (set_rightCorner (Some r)) we) =
               settings w0 /\
               connections (modify_panel (set_rightCorner (Some r)) we) = []).
  { cbn. split_and!; congruence. }
  revert H5. generalize (modify_panel (set_rightCorner (Some r)) we).
  clear. intros wf (B5 & F5 & G5).
  destruct (update_corner_timers duration l wf) as (_&B6&C6&_&_&_&G6&_).
  cbn zeta in *. revert B6 C6 G6. generalize (update_corner duration l wf).
  intros wg B6 C6 G6.
  destruct (update_corner_timers duration r wg) as (_&_&C7&_).
  cbn zeta in *. revert C7. generalize (update_corner duration r wg).
  intros wh C7.
  assert (connections (log "corners updated." wh) = connections wh) as ->.
  { unfold log. by destruct (DEBUG (settings wh)). }
  rewrite C7, C6, G5, G6, F5, B6, B5. done.
Qed.

(** X17: [update()] subscribes the wrapper of the left corner and then the
    wrapper of the right corner to every key of the schema, and to nothing
    else; a change notification for a key invokes each of the two wrappers
    once for each time the key is listed, left before right; for a key that
    the schema does not list it invokes nothing, so that such a change
    starts no timer and restyles no corner. *)
Theorem subscriptions_after_update cfs duration w0 key :
  let w1 := update duration w0 in
  let dL := next_closure w0 in
  let ks := keys (settings w0) in
  let k := length (List.filter (fun x => String.eqb (name x) key) ks) in
  connections w1 = (subscribe dL ks ++ subscribe (S dL) ks)%list /\
  targets key (connections w1) = (replicate k dL ++ replicate k (S dL))%list /\
  (k = 0 ->
   forall s, step cfs duration w1 (Edit s key) =
             set_settings (edit s (settings w1)) w1).
Proof.
  cbn zeta. pose proof (update_connections duration w0) as Hc.
  assert (Ht : targets key (connections (update duration w0)) =
               (replicate
                  (length (List.filter (fun x => String.eqb (name x) key)
                             (keys (settings w0)))) (next_closure w0) ++
                replicate
                  (length (List.filter (fun x => String.eqb (name x) key)
                             (keys (settings w0)))) (S (next_closure w0)))%list).
  { by rewrite Hc, targets_app, !targets_subscribe. }
  revert Hc Ht. generalize (update duration w0). intros w1 Hc Ht.
  split_and!; [done | done |].
  intros Hk s. cbn [step]. rewrite notify_changed_targets.
  cbn [connections set_settings]. by rewrite Ht, Hk.
Qed.


(** ** Notifications of the panel *)

(** X18: in every execution, when the panel refers to corners and notifies a
    change of its position or of its size, each of the two corners is
    allocated once, with the box that its side, its preferred size and the
    new size of the panel give: the LEFT one from x = 0, the RIGHT one up to
    the new width, both right below the panel. *)
Theorem panel_notification_reallocates cfs duration acts s scale node
    panel_width panel_height pc l sig nw nh :
  let w := run cfs duration acts
             (initial s scale node panel_width panel_height pc) in
  _leftCorner (panel w) = Some l ->
  sig = "notify::position" \/ sig = "notify::size" ->
  let w' := step cfs duration w (PanelNotify sig nw nh) in
  let box c side :=
    childBox side (natural_width (corners w !!! c))
      (natural_height (corners w !!! c)) nw nh in
  _rightCorner (panel w) = Some (S l) /\
  allocation (corners w' !!! l) = Some (box l LEFT) /\
  allocation (corners w' !!! S l) = Some (box (S l) RIGHT) /\
  tally is_allocate (trace w') = tally is_allocate (trace w) + 2.
Proof.
  cbn zeta.
  pose proof (settled_run cfs duration acts _
                (settled_initial s scale node panel_width panel_height pc))
    as Hs.
  revert Hs. generalize (run cfs duration acts
                           (initial s scale node panel_width panel_height pc)).
  intros w [_ [(A1 & _)|(l' & n & A1 & A2 & A3 & A4 & A5 & A6 & A7)]] Hl Hsig;
    [congruence|].
  assert (l' = l) as -> by congruence.
  unfold identity_of in A6, A7.
  injection A6 as L1 _ _ _. injection A7 as R1 _ _ _.
  split; [done|]. cbn [step]. unfold panel_emit.
  change (handlers (panel (modify_panel (set_geometry nw nh) w)))
    with (handlers (panel w)).
  rewrite A5.
  set (w0 := modify_panel (set_geometry nw nh) w).
  assert (C0 : corners w0 = corners w) by done.
  assert (W0 : width (panel w0) = nw /\ height (panel w0) = nh) by done.
  assert (T0 : trace w0 = trace w) by done.
  clearbody w0. destruct W0 as [W0 H0].
  assert (Hw' : fold_left
                  (fun acc h =>
                     if String.eqb (signal h) sig
                     then update_allocation (bound h) acc else acc)
                  [ {| handler_id := S n; signal := "notify::position";
                       bound := l |};
                    {| handler_id := S (S n); signal := "notify::size";
                       bound := l |};
                    {| handler_id := S (S (S n)); signal := "notify::position";
                       bound := S l |};
                    {| handler_id := S (S (S (S n))); signal := "notify::size";
                       bound := S l |} ] w0 =
                update_allocation (S l) (update_allocation l w0)).
  { by destruct Hsig as [-> | ->]. }
  rewrite Hw'. unfold update_allocation. cbn.
  rewrite !lookup_total_insert_eq. cbn.
  rewrite lookup_total_insert_ne by lia. rewrite lookup_total_insert_eq.
  rewrite lookup_total_insert_ne by lia. cbn.
  rewrite C0, W0, H0, L1, R1, T0. split_and!; try done.
  unfold tally. cbn. lia.
Qed.

(** X18 at work: after [update()] the panel shrinks to 800 by 30. *)
Lemma panel_notification_reallocates_witness :
  let w := run hex_color_from_string 250 [Update]
             (initial (demo_settings false 10 2 "#112233ff") 1
                (Some demo_theme) 1000 40 None) in
  let w' := step hex_color_from_string 250 w
              (PanelNotify "notify::size" 800 30) in
  _rightCorner (panel w) = Some 1 /\
  allocation (corners w' !!! 0) =
    Some (childBox LEFT (natural_width (corners w !!! 0))
            (natural_height (corners w !!! 0)) 800 30) /\
  allocation (corners w' !!! 1) =
    Some (childBox RIGHT (natural_width (corners w !!! 1))
            (natural_height (corners w !!! 1)) 800 30) /\
  tally is_allocate (trace w') = tally is_allocate (trace w) + 2.
Proof.
  exact (panel_notification_reallocates hex_color_from_string 250
           [Update] (demo_settings false 10 2 "#112233ff") 1
           (Some demo_theme) 1000 40 None 0 "notify::size" 800 30
           eq_refl (or_intror eq_refl)).
Defined.


(** * Coalescing on a running controller *)

(** ** The wiring of the controller *)

Lemma same_wiring_refl w : same_wiring w w.
Proof. by repeat split. Qed.

Lemma same_wiring_trans w1 w2 w3 :
  same_wiring w1 w2 -> same_wiring w2 w3 -> same_wiring w1 w3.
Proof.
  intros (A1&A2&A3&A4&A5&A6) (B1&B2&B3&B4&B5&B6).
  split_and!; [congruence | congruence | | congruence..].
  intros d. destruct (A3 d) as [X1 X2], (B3 d) as [Y1 Y2]. split; congruence.
Qed.

Lemma same_wiring_of w w' : same_timers w w' -> keeps w w' -> same_wiring w w'.
Proof.
  intros (A&B&_&_&_&C&D) (_&_&E&_&F&_).
  split_and!; try done; [|by rewrite C]. intros d. by rewrite A.
Qed.

Lemma wiring_same w w' : same_wiring w w' -> wiring w -> wiring w'.
Proof.
  intros (A&B&C&D&E&F) [H1 H2]. unfold wiring, wrapper_corner in *.
  rewrite A, B, D, E, F. split.
  - intros d Hd. destruct (C d) as [-> ->]. by apply H1.
  - destruct (_leftCorner (panel w)) as [l|]; [|done].
    destruct H2 as (dL & X1 & X2 & X3 & X4 & X5). exists dL.
    destruct (C dL) as [-> _], (C (S dL)) as [-> _].
    split_and!; try done. intros d Hd. destruct (C d) as [-> _]. by apply X5.
Qed.

Lemma same_wiring_modify_closure d i w :
  same_wiring w (modify_closure d (set_timeoutId i) w).
Proof.
  split_and!; try done. intros d'. rewrite modify_closure_lookup.
  by destruct (decide (d = d')) as [->|].
Qed.

Lemma same_wiring_debounced d w : same_wiring w (debounced d w).
Proof.
  unfold debounced.
  destruct (timeoutId (closures w !!! d)) as [a|].
  - apply (same_wiring_trans _ (snd (timeout_add (wait (closures w !!! d)) d
                                       (source_remove a w)))).
    + by repeat split.
    + apply same_wiring_modify_closure.
  - apply (same_wiring_trans _ (snd (timeout_add (wait (closures w !!! d)) d
                                       w))).
    + by repeat split.
    + apply same_wiring_modify_closure.
Qed.

Lemma same_wiring_notify key w : same_wiring w (notify_changed key w).
Proof.
  rewrite notify_changed_targets. generalize (targets key (connections w)).
  intros l. revert w. induction l as [|d l IH]; intros w;
    [apply same_wiring_refl|].
  cbn [fold_left]. eapply same_wiring_trans; [apply same_wiring_debounced|].
  apply IH.
Qed.

Lemma same_wiring_property_set key value w :
  same_wiring w (property_set key value w).
Proof.
  unfold property_set.
  eapply same_wiring_trans; [|apply same_wiring_notify]. by repeat split.
Qed.

Lemma same_wiring_repaint cfs c w : same_wiring w (vfunc_repaint cfs c w).
Proof.
  rewrite vfunc_repaint_eq. cbn zeta.
  pose proof (same_wiring_of _ _ (same_timers_getRadius c (theme_node w) w)
                (keeps_getRadius c (theme_node w) w)) as H1.
  destruct (getRadius c (theme_node w) w) as [r w1]. cbn [fst snd] in *.
  pose proof (same_wiring_of _ _
                (same_timers_getBorderWidth c (theme_node w) w1)
                (keeps_getBorderWidth c (theme_node w) w1)) as H2.
  destruct (getBorderWidth c (theme_node w) w1) as [b w2]. cbn [fst snd] in *.
  eapply same_wiring_trans; [exact H1|].
  eapply same_wiring_trans; [exact H2|]. clear H1 H2.
  rewrite getBackgroundColor_eq.
  destruct (cachedBackgroundColor (corners w2 !!! c)) as [v|]; cbn [fst snd].
  - by repeat split.
  - rewrite lookup_for_color_eq. cbn zeta.
    destruct (fst (cfs _)); cbn [fst snd]; [by repeat split|].
    match goal with |- context [property_set ?k ?v ?x] =>
      pose proof (same_wiring_property_set k v x) as H;
      revert H; generalize (property_set k v x) end.
    intros y H. eapply same_wiring_trans; [|eapply same_wiring_trans].
    + eapply (same_wiring_of w2); by repeat split.
    + exact H.
    + by repeat split.
Qed.

Lemma same_wiring_dispatch_source duration s w :
  same_wiring w (dispatch_source duration s w).
Proof.
  unfold dispatch_source. destruct (attached _ _); [|apply same_wiring_refl].
  unfold timeout_expired.
  set (x := modify_closure (owner s) (set_timeoutId None)
              (emit (EvTimerFired (source_id s)) w)).
  assert (Hx : same_wiring w x).
  { apply (same_wiring_trans _ (emit (EvTimerFired (source_id s)) w));
      [by repeat split | apply same_wiring_modify_closure]. }
  clearbody x.
  pose proof (same_wiring_of _ _
                (same_timers_run_callback duration
                   (callback (closures x !!! owner s)) x)
                (keeps_run_callback duration
                   (callback (closures x !!! owner s)) x)) as Hy.
  revert Hy. generalize (run_callback duration
                           (callback (closures x !!! owner s)) x).
  intros y Hy.
  eapply same_wiring_trans; [exact Hx|].
  eapply same_wiring_trans; [exact Hy|]. by repeat split.
Qed.

Lemma same_wiring_dispatch duration w : same_wiring w (dispatch duration w).
Proof.
  unfold dispatch.
  generalize (List.filter (fun s => Nat.leb (due s) (now w)) (sources w)).
  intros l. revert w. induction l as [|s l IH]; intros w;
    [apply same_wiring_refl|].
  cbn [fold_left].
  eapply same_wiring_trans; [apply same_wiring_dispatch_source|apply IH].
Qed.

Lemma same_wiring_advance duration ms : forall w,
  same_wiring w (advance duration ms w).
Proof.
  induction ms as [|ms IH]; intros w; [apply same_wiring_refl|].
  cbn [advance]. eapply same_wiring_trans; [|apply IH].
  eapply same_wiring_trans; [|apply same_wiring_dispatch]. by repeat split.
Qed.


Lemma remove_wrappers w d :
  callback (closures (remove w) !!! d) = callback (closures w !!! d) /\
  wait (closures (remove w) !!! d) = wait (closures w !!! d).
Proof.
  unfold remove.
  assert (H1 : callback (closures (disconnect_all (cancel_pending w)) !!! d) =
                 callback (closures w !!! d) /\
               wait (closures (disconnect_all (cancel_pending w)) !!! d) =
                 wait (closures w !!! d)).
  { unfold cancel_pending. destruct (debouncedStyleUpdate w) as [d'|]; [|done].
    unfold cancel. destruct (timeoutId (closures w !!! d')) as [a|]; [|done].
    cbn [disconnect_all set_connections closures set_debouncedStyleUpdate].
    rewrite modify_closure_lookup.
    by destruct (decide (d' = d)) as [->|]. }
  revert H1. generalize (disconnect_all (cancel_pending w)). intros w1 H1.
  destruct (same_timers_remove_left w1) as (A&_).
  revert A. generalize (remove_left w1). intros w2 A.
  destruct (same_timers_remove_right w2) as (B&_).
  by rewrite B, A.
Qed.

Lemma wiring_remove w : wiring w -> wiring (remove w).
Proof.
  intros [H1 _]. unfold wiring, wrapper_corner in *.
  destruct (remove_timers w) as (A&_&_&_&E&_).
  destruct (remove_clears w) as (_&_&L&_).
  rewrite A, E, L. split; [|done].
  intros d Hd. destruct (remove_wrappers w d) as [-> ->]. by apply H1.
Qed.

(** The wrappers after [update()]: two new ones, for the two new corners;
    the old ones keep their callbacks. *)
Lemma update_wrappers duration w0 :
  let w1 := update duration w0 in
  let dL := next_closure w0 in
  let l := next_corner w0 in
  next_closure w1 = S (S dL) /\ next_corner w1 = S (S l) /\
  closures w1 !!! dL =
    {| timeoutId := None; callback := StyleUpdate l;
       wait := SETTINGS_DEBOUNCE_MS |} /\
  closures w1 !!! S dL =
    {| timeoutId := None; callback := StyleUpdate (S l);
       wait := SETTINGS_DEBOUNCE_MS |} /\
  (forall d, d < dL ->
     callback (closures w1 !!! d) = callback (closures w0 !!! d) /\
     wait (closures w1 !!! d) = wait (closures w0 !!! d)) /\
  settings w1 = settings w0.
Proof.
  cbn zeta. unfold update.
  pose proof (same_timers_log "updating panel corners..." w0)
    as (A0&B0&C0&D0&E0&F0&G0).
  pose proof (next_corner_log "updating panel corners..." w0) as N0.
  revert A0 B0 C0 D0 E0 F0 G0 N0.
  generalize (log "updating panel corners..." w0).
  intros wa A0 B0 C0 D0 E0 F0 G0 N0.
  destruct (remove_timers wa) as (A1&B1&C1&D1&E1&F1).
  pose proof (remove_wrappers wa) as W1.
  revert A1 B1 C1 D1 E1 F1 W1. generalize (remove wa).
  intros wb A1 B1 C1 D1 E1 F1 W1.
  destruct (same_timers_new_PanelCorner LEFT wb)
    as (L2 & A2&B2&C2&D2&E2&F2&G2).
  assert (N2 : next_corner (snd (new_PanelCorner LEFT wb)) =
               S (next_corner wb)) by done.
  destruct (new_PanelCorner LEFT wb) as [l wc]. cbn [fst snd] in *.
  pose proof (same_timers_modify_panel (set_leftCorner (Some l)) wc)
    as (A3&B3&C3&D3&E3&F3&G3).
  assert (N3 : next_corner (modify_panel (set_leftCorner (Some l)) wc) =
               next_corner wc) by done.
  revert A3 B3 C3 D3 E3 F3 G3 N3.
  generalize (modify_panel (set_leftCorner (Some l)) wc).
  intros wd A3 B3 C3 D3 E3 F3 G3 N3.
  destruct (same_timers_new_PanelCorner RIGHT wd)
    as (L4 & A4&B4&C4&D4&E4&F4&G4).
  assert (N4 : next_corner (snd (new_PanelCorner RIGHT wd)) =
               S (next_corner wd)) by done.
  destruct (new_PanelCorner RIGHT wd) as [r we]. cbn [fst snd] in *.
  pose proof (same_timers_modify_panel (set_rightCorner (Some r)) we)
    as (A5&B5&C5&D5&E5&F5&G5).
  assert (N5 : next_corner (modify_panel (set_rightCorner (Some r)) we) =
               next_corner we) by done.
  revert A5 B5 C5 D5 E5 F5 G5 N5.
  generalize (modify_panel (set_rightCorner (Some r)) we).
  intros wf A5 B5 C5 D5 E5 F5 G5 N5.
  destruct (update_corner_timers duration l wf) as (A6&B6&C6&D6&E6&F6&G6&_).
  destruct (update_corner_view duration l wf) as (_ & N6 & _).
  revert A6 B6 C6 D6 E6 F6 G6 N6. generalize (update_corner duration l wf).
  intros wg A6 B6 C6 D6 E6 F6 G6 N6.
  destruct (update_corner_timers duration r wg) as (A7&B7&C7&D7&E7&F7&G7&H7).
  destruct (update_corner_view duration r wg) as (_ & N7 & _).
  revert A7 B7 C7 D7 E7 F7 G7 H7 N7. generalize (update_corner duration r wg).
  intros wh A7 B7 C7 D7 E7 F7 G7 H7 N7.
  pose proof (same_timers_log "corners updated." wh)
    as (A8&B8&C8&D8&E8&F8&G8).
  pose proof (next_corner_log "corners updated." wh) as N8.
  revert A8 B8 C8 D8 E8 F8 G8 N8.
  generalize (log "corners updated." wh).
  intros wi A8 B8 C8 D8 E8 F8 G8 N8.
  assert (HdL : next_closure wf = next_closure w0) by congruence.
  assert (Hl : l = next_corner w0) by congruence.
  assert (Hr : r = S (next_corner w0)) by congruence.
  rewrite A8, A7, A6, B6, HdL.
  rewrite lookup_total_insert_ne by lia.
  rewrite !lookup_total_insert_eq.
  subst l r. split_and!; try congruence.
  intros d Hd. rewrite !lookup_total_insert_ne by lia.
  rewrite A5, A4, A3, A2. destruct (W1 d) as [-> ->]. by rewrite A0.
Qed.

Lemma wiring_update duration w : wiring w -> wiring (update duration w).
Proof.
  intros [H1 _].
  destruct (update_wrappers duration w) as (A&B&C&D&E&F).
  destruct (update_fits duration w) as (L&_).
  pose proof (update_connections duration w) as G.
  unfold wiring, wrapper_corner in *. rewrite A, B, L, G, F. split.
  - intros d Hd.
    destruct (decide (d = next_closure w)) as [->|N1]; [rewrite C; cbn; lia|].
    destruct (decide (d = S (next_closure w))) as [->|N2];
      [rewrite D; cbn; lia|].
    destruct (E d) as [-> ->]; [lia|].
    destruct (H1 d) as [X Y]; [lia|]. split; [done|lia].
  - exists (next_closure w). rewrite C, D. split_and!; [reflexivity..|].
    intros d Hd. destruct (E d) as [-> _]; [done|]. by apply H1.
Qed.

Lemma wiring_step cfs duration w a : wiring w -> wiring (step cfs duration w a).
Proof.
  intros H. destruct a as [| |s key|sig nw nh|pc|node scale|c|c|ms];
    cbn [step].
  - by apply wiring_update.
  - by apply wiring_remove.
  - eapply wiring_same; [|exact H].
    eapply same_wiring_trans; [|apply same_wiring_notify]. by repeat split.
  - eapply wiring_same; [|exact H].
    eapply same_wiring_trans;
      [|apply same_wiring_of;
        [apply same_timers_panel_emit | apply keeps_panel_emit]].
    by repeat split.
  - eapply wiring_same; [|exact H]. by repeat split.
  - eapply wiring_same; [|exact H]. by repeat split.
  - destruct (is_child c w); [|done].
    eapply wiring_same; [|exact H].
    apply same_wiring_of;
      [apply same_timers_style_changed | apply keeps_style_changed].
  - destruct (is_child c w); [|done].
    eapply wiring_same; [|exact H]. apply same_wiring_repaint.
  - eapply wiring_same; [|exact H]. apply same_wiring_advance.
Qed.

Lemma running_step cfs duration w a :
  running w -> running (step cfs duration w a).
Proof.
  intros (A&B&C). split_and!.
  - by apply timers_ok_step.
  - by apply settled_step.
  - by apply wiring_step.
Qed.

Lemma running_run cfs duration acts : forall w,
  running w -> running (run cfs duration acts w).
Proof.
  induction acts as [|a acts IH]; intros w H; [done|].
  apply IH. by apply running_step.
Qed.

Lemma running_initial s scale node panel_width panel_height pc :
  running (initial s scale node panel_width panel_height pc).
Proof.
  split_and!.
  - apply timers_ok_initial.
  - apply settled_initial.
  - split; [|done]. cbn. lia.
Qed.


(** ** One timer firing *)

Lemma callback_wrapper w d :
  callback (closures w !!! d) = StyleUpdate (wrapper_corner w d).
Proof. unfold wrapper_corner. by destruct (callback (closures w !!! d)). Qed.

Lemma same_wiring_corner w w' d :
  same_wiring w w' -> wrapper_corner w' d = wrapper_corner w d.
Proof.
  intros (_&_&C&_). unfold wrapper_corner. by destruct (C d) as [-> _].
Qed.

Lemma plugged_of_wiring l w :
  wiring w -> _leftCorner (panel w) = Some l -> exists dL, plugged l dL w.
Proof.
  intros [H1 H2] Hl. rewrite Hl in H2.
  destruct H2 as (dL & A & B & C & D & E). exists dL.
  destruct (H1 dL) as [W1 _]; [lia|].
  destruct (H1 (S dL)) as [W2 _]; [lia|].
  by split_and!.
Qed.

Lemma plugged_same l dL w w' :
  same_wiring w w' -> plugged l dL w -> plugged l dL w'.
Proof.
  intros Hs (A&B&C&D&E&F&G).
  pose proof (same_wiring_corner w w') as K.
  destruct Hs as (S1&S2&S3&S4&S5&S6).
  unfold plugged. rewrite !K, S1, S4, S5 by (by split_and!).
  destruct (S3 dL) as [_ ->], (S3 (S dL)) as [_ ->].
  split_and!; try done. intros d Hd. rewrite K by (by split_and!).
  by apply G.
Qed.

(** Every pending timer belongs to a wrapper made so far. *)
Lemma sources_owned w :
  timers_ok w -> Forall (fun s => owner s < next_closure w) (sources w).
Proof.
  intros (_ & Hl & Hz & _). apply List.Forall_forall. intros s Hin.
  destruct (Nat.lt_ge_cases (owner s) (next_closure w)) as [|Hge]; [done|].
  destruct (Hl (owner s)) as [_ Hk]. unfold linked in Hk.
  rewrite (Hz _ Hge) in Hk. cbn in Hk.
  pose proof (mine_In (owner s) s _ Hin eq_refl) as Hm.
  destruct (mine (owner s) (sources w)); [by destruct Hm | done].
Qed.

(** The timer of a wrapper is the one its cell names, and detaching it is
    detaching what the wrapper has pending. *)
Lemma detach_own s w :
  timers_ok w -> In s (sources w) ->
  timeoutId (closures w !!! owner s) = Some (source_id s) /\
  detach (source_id s) (sources w) = others (owner s) (sources w).
Proof.
  intros (_ & Hl & _) Hin. destruct (Hl (owner s)) as [Ht Hk].
  assert (Hcell : timeoutId (closures w !!! owner s) = Some (source_id s)).
  { unfold linked in Hk. pose proof (mine_In (owner s) s _ Hin eq_refl) as Hm.
    destruct (timeoutId (closures w !!! owner s)) as [a|]; cbn in Hk.
    - destruct (mine (owner s) (sources w)) as [|s1 [|s2 rest]]; try done.
      cbn in Hk. destruct Hm as [->|[]]. congruence.
    - destruct (mine (owner s) (sources w)); [by destruct Hm | done]. }
  split; [done|]. unfold tidy in Ht. rewrite Hcell in Ht. by destruct Ht.
Qed.

Lemma In_attached s w : In s (sources w) -> attached (source_id s) w = true.
Proof.
  intros Hin. unfold attached. apply existsb_exists. exists s.
  split; [done | apply Nat.eqb_refl].
Qed.

(** The trace of one firing: the timer, [invalidateCache()], then the
    style-changed pass. *)
Lemma fire_trace duration s w :
  attached (source_id s) w = true ->
  let c := wrapper_corner w (owner s) in
  let w' := dispatch_source duration s w in
  now w' = now w /\
  trace w' =
    (style_events duration c w ++
     [EvInvalidate c; EvTimerFired (source_id s)] ++ trace w)%list.
Proof.
  intros Hatt. cbn zeta.
  pose proof (callback_wrapper w (owner s)) as Hcb.
  set (c := wrapper_corner w (owner s)) in *.
  unfold dispatch_source. rewrite Hatt. unfold timeout_expired.
  rewrite modify_closure_lookup. destruct (decide (owner s = owner s)); [|done].
  cbn [callback set_timeoutId closures emit]. rewrite Hcb.
  unfold run_callback. rewrite vfunc_style_changed_eq.
  set (x := invalidateCache c
              (modify_closure (owner s) (set_timeoutId None)
                 (emit (EvTimerFired (source_id s)) w))).
  assert (Hse : style_events duration c x = style_events duration c w).
  { unfold style_events, box_of, ease_target, in_overview, opacity_of.
    subst x. unfold invalidateCache. cbn.
    by rewrite lookup_total_insert_eq. }
  assert (Ht : now x = now w) by done.
  assert (Htr : trace x =
                EvInvalidate c :: EvTimerFired (source_id s) :: trace w)
    by done.
  rewrite Hse. clearbody x. cbn. by rewrite Ht, Htr.
Qed.

Lemma history_lookup_events c k node prop s :
  List.filter (about c) (lookup_events k node prop s) = [].
Proof. unfold lookup_events. by destruct (use_extension node s). Qed.

Lemma history_fire c' c duration w a tr :
  List.filter (about c')
    (style_events duration c w ++ [EvInvalidate c; EvTimerFired a] ++ tr) =
  ((if Nat.eqb c c' then callback_history duration c w else []) ++
   List.filter (about c') tr)%list.
Proof.
  unfold style_events, callback_history.
  rewrite !List.filter_app, !history_lookup_events. cbn.
  by destruct (Nat.eqb c c').
Qed.

(** One firing, in full. *)
Lemma fire_full duration s w :
  timers_ok w -> In s (sources w) ->
  let c := wrapper_corner w (owner s) in
  let w' := dispatch_source duration s w in
  timers_ok w' /\ sources w' = others (owner s) (sources w) /\
  now w' = now w /\ same_style w w' /\ keeps w w' /\ same_wiring w w' /\
  corners w' = <[c := styled c w (corners w !!! c)]> (corners w) /\
  forall c', history c' w' =
    ((if Nat.eqb c c' then callback_history duration c w else []) ++
     history c' w)%list.
Proof.
  intros Hok Hin. cbn zeta.
  pose proof (In_attached s w Hin) as Hatt.
  destruct (timers_ok_dispatch_source duration s w Hok Hin) as [Hok' Es].
  destruct (detach_own s w Hok Hin) as [_ Ed].
  destruct (fire_trace duration s w Hatt) as [Hn Ht].
  destruct (fire_one_view duration (owner s) _ s w
              (callback_wrapper w (owner s)) Hatt eq_refl) as (Hs & _ & Hc).
  pose proof (keeps_dispatch_source duration s w) as Hk.
  pose proof (same_wiring_dispatch_source duration s w) as Hw.
  cbn zeta in *. revert Hok' Es Hn Ht Hs Hc Hk Hw.
  generalize (dispatch_source duration s w).
  intros w' Hok' Es Hn Ht Hs Hc Hk Hw.
  split_and!; try done; [congruence|].
  intros c'. unfold history. rewrite Ht. apply history_fire.
Qed.

(** ** Nothing happens to the corners in use *)

Lemma calm_refl l w : calm l w w.
Proof.
  split_and!; [apply same_style_refl | apply keeps_refl
              | apply same_wiring_refl | done].
Qed.

Lemma calm_trans l w1 w2 w3 : calm l w1 w2 -> calm l w2 w3 -> calm l w1 w3.
Proof.
  intros (A1&A2&A3&A4) (B1&B2&B3&B4). split_and!.
  - by eapply same_style_trans.
  - by eapply keeps_trans.
  - by eapply same_wiring_trans.
  - intros c Hc. destruct (A4 c Hc) as [X1 X2], (B4 c Hc) as [Y1 Y2].
    split; congruence.
Qed.

Lemma calm_set_now l t w : calm l w (set_now t w).
Proof. by repeat split. Qed.

(** A timer of an earlier wrapper fires. *)
Lemma fire_calm duration l s w :
  timers_ok w -> In s (sources w) -> wrapper_corner w (owner s) < l ->
  let w' := dispatch_source duration s w in
  timers_ok w' /\ sources w' = others (owner s) (sources w) /\
  now w' = now w /\ calm l w w'.
Proof.
  intros Hok Hin Hlt. cbn zeta.
  destruct (fire_full duration s w Hok Hin) as (A&B&C&D&E&F&G&H).
  cbn zeta in *. revert A B C D E F G H.
  generalize (dispatch_source duration s w). intros w' A B C D E F G H.
  split_and!; try done. unfold calm. split_and!; try done.
  intros c Hc. split.
  - rewrite G, lookup_total_insert_ne; [done | lia].
  - rewrite H. destruct (Nat.eqb_spec (wrapper_corner w (owner s)) c);
      [lia | done].
Qed.


(** ** The timers of earlier wrappers *)

Lemma others_early d dL (X : list Source) :
  Forall (fun s => owner s < dL) X -> dL <= d -> others d X = X.
Proof.
  intros H Hd. unfold others. induction H as [|x X Hx _ IH]; [done|].
  cbn. destruct (Nat.eqb_spec (owner x) d); [lia|]. cbn. by rewrite IH.
Qed.

Lemma pending_pair_others dL t a b d w w' :
  pending_pair dL t a b w -> d < dL ->
  sources w' = others d (sources w) -> pending_pair dL t a b w'.
Proof.
  intros (X & Hs & HX) Hd Es. exists (others d X). split.
  - rewrite Es, Hs, others_app. unfold others at 2. cbn -[Nat.eqb].
    destruct (Nat.eqb_spec dL d); [lia|].
    destruct (Nat.eqb_spec (S dL) d); [lia|]. done.
  - by apply Forall_filter_keep.
Qed.

Lemma box_of_ext c w w' :
  same_style w w' -> corners w' !!! c = corners w !!! c ->
  box_of c w' = box_of c w.
Proof. intros (_&_&_&A&B&_) E. unfold box_of. by rewrite E, A, B. Qed.

Lemma callback_history_ext duration c w w' :
  same_style w w' -> corners w' !!! c = corners w !!! c ->
  callback_history duration c w' = callback_history duration c w.
Proof.
  intros Hs E. destruct (same_style_values w w' Hs) as (_&_&_&T).
  unfold callback_history. by rewrite T, (box_of_ext c w w' Hs E).
Qed.

Lemma styled_ext c w w' o :
  same_style w w' -> corners w' !!! c = corners w !!! c ->
  styled c w' o = styled c w o.
Proof.
  intros Hs E. destruct (same_style_values w w' Hs) as (R&B&O&T).
  unfold styled. by rewrite R, B, O, T, (box_of_ext c w w' Hs E).
Qed.

(** Timers of earlier wrappers fire: the corners in use and their timers are
    left alone. *)
Lemma leaked_fold duration l dL t a b (todo : list Source) : forall w,
  timers_ok w -> plugged l dL w -> pending_pair dL t a b w ->
  Forall (fun s => owner s < dL) todo ->
  (forall s, In s todo -> attached (source_id s) w = true ->
             In s (sources w)) ->
  let w' := fold_left (fun acc s => dispatch_source duration s acc) todo w in
  timers_ok w' /\ pending_pair dL t a b w' /\ now w' = now w /\ calm l w w'.
Proof.
  induction todo as [|s0 todo IH]; intros w Hok Hp Hpp Hto Hin; cbn zeta.
  { split_and!; try done; apply calm_refl. }
  cbn [fold_left]. apply Forall_cons in Hto as [Hs0 Hto].
  destruct (attached (source_id s0) w) eqn:Hatt.
  - pose proof (Hin s0 (or_introl eq_refl) Hatt) as Hin0.
    assert (Hlt : wrapper_corner w (owner s0) < l).
    { destruct Hp as (_&_&_&_&_&_&G). by apply G. }
    destruct (fire_calm duration l s0 w Hok Hin0 Hlt) as (A & B & C & D).
    destruct (detach_own s0 w Hok Hin0) as [_ Ed].
    cbn zeta in *. revert A B C D.
    generalize (dispatch_source duration s0 w). intros w1 A B C D.
    assert (Hp1 : plugged l dL w1).
    { eapply plugged_same; [|exact Hp]. by destruct D as (_&_&?&_). }
    assert (Hpp1 : pending_pair dL t a b w1)
      by (by eapply pending_pair_others).
    destruct (IH w1 A Hp1 Hpp1 Hto) as (A' & B' & C' & D').
    { intros s Hs Ha. apply attached_In in Ha as (s' & Hin' & Hid).
      rewrite B, <- Ed in Hin' |- *. unfold detach in *.
      apply filter_In in Hin' as [Hin' Hne].
      apply filter_In. rewrite <- Hid. split; [|done].
      apply Hin; [by right|]. unfold attached. apply existsb_exists.
      exists s'. split; [done|]. rewrite Hid. apply Nat.eqb_refl. }
    cbn zeta in *. split_and!; try done; [congruence|].
    by eapply calm_trans.
  - assert (E : dispatch_source duration s0 w = w)
      by (unfold dispatch_source; by rewrite Hatt).
    rewrite E. apply IH; try done. intros s Hs. apply Hin. by right.
Qed.

Lemma timers_ok_set_now t w : timers_ok w -> timers_ok (set_now t w).
Proof. intros H. eapply timers_ok_same; [|exact H]. by repeat split. Qed.

Lemma filter_early (p : Source -> bool) dL (X : list Source) :
  Forall (fun s => owner s < dL) X ->
  Forall (fun s => owner s < dL) (List.filter p X).
Proof. apply Forall_filter_keep. Qed.

(** One millisecond passes before the two timers are due. *)
Lemma tick_quiet duration l dL t a b w :
  timers_ok w -> plugged l dL w -> pending_pair dL t a b w ->
  S (now w) < t ->
  let w' := dispatch duration (set_now (S (now w)) w) in
  timers_ok w' /\ pending_pair dL t a b w' /\ now w' = S (now w) /\
  calm l w w'.
Proof.
  intros Hok Hp Hpp Ht. cbn zeta. unfold dispatch.
  pose proof (timers_ok_set_now (S (now w)) w Hok) as Hok0.
  assert (Hp0 : plugged l dL (set_now (S (now w)) w)) by exact Hp.
  assert (Hpp0 : pending_pair dL t a b (set_now (S (now w)) w)) by exact Hpp.
  pose proof (calm_set_now l (S (now w)) w) as Hc0.
  assert (Hn0 : now (set_now (S (now w)) w) = S (now w)) by done.
  revert Hok0 Hp0 Hpp0 Hc0 Hn0. generalize (set_now (S (now w)) w).
  intros w0 Hok0 Hp0 Hpp0 Hc0 Hn0.
  pose proof Hpp0 as (X & Hs & HX).
  assert (Hdue : List.filter (fun s => Nat.leb (due s) (now w0)) (sources w0)
                 = List.filter (fun s => Nat.leb (due s) (now w0)) X).
  { rewrite Hs, List.filter_app. cbn.
    destruct (Nat.leb_spec t (now w0)); [lia|]. by rewrite app_nil_r. }
  rewrite Hdue.
  destruct (leaked_fold duration l dL t a b
              (List.filter (fun s => Nat.leb (due s) (now w0)) X)
              w0 Hok0 Hp0 Hpp0) as (A & B & C & D).
  { by apply filter_early. }
  { intros s Hin _. apply filter_In in Hin as [Hin _].
    rewrite Hs. apply in_or_app. by left. }
  cbn zeta in *. split_and!; try done; [congruence|].
  by eapply calm_trans.
Qed.

(** Some milliseconds pass, fewer than are left until the two timers are
    due. *)
Lemma gap_quiet duration l dL t a b g : forall w,
  timers_ok w -> plugged l dL w -> pending_pair dL t a b w ->
  now w + g < t ->
  let w' := advance duration g w in
  timers_ok w' /\ pending_pair dL t a b w' /\ now w' = now w + g /\
  calm l w w'.
Proof.
  induction g as [|g IH]; intros w Hok Hp Hpp Ht; cbn zeta.
  { cbn [advance]. split_and!; try done; try lia; apply calm_refl. }
  cbn [advance].
  destruct (tick_quiet duration l dL t a b w Hok Hp Hpp) as (A & B & C & D);
    [lia|].
  cbn zeta in *. revert A B C D.
  generalize (dispatch duration (set_now (S (now w)) w)). intros w1 A B C D.
  assert (Hp1 : plugged l dL w1).
  { eapply plugged_same; [|exact Hp]. by destruct D as (_&_&?&_). }
  destruct (IH w1 A Hp1 B) as (A' & B' & C' & D'); [lia|].
  cbn zeta in *. split_and!; try done; [lia|]. by eapply calm_trans.
Qed.

(** The millisecond in which the two timers are due: the timers of earlier
    wrappers first, then the one of the left corner, then the one of the
    right corner. *)
Lemma tick_fire duration l dL t a b w :
  timers_ok w -> plugged l dL w -> pending_pair dL t a b w ->
  S (now w) = t ->
  let w' := dispatch duration (set_now (S (now w)) w) in
  timers_ok w' /\ plugged l dL w' /\
  Forall (fun s => owner s < dL) (sources w') /\
  same_style w w' /\ keeps w w' /\
  history l w' = (callback_history duration l w ++ history l w)%list /\
  history (S l) w' =
    (callback_history duration (S l) w ++ history (S l) w)%list /\
  corners w' !!! l = styled l w (corners w !!! l) /\
  corners w' !!! S l = styled (S l) w (corners w !!! S l).
Proof.
  intros Hok Hp Hpp Ht. cbn zeta. unfold dispatch.
  pose proof (timers_ok_set_now (S (now w)) w Hok) as Hok0.
  assert (Hp0 : plugged l dL (set_now (S (now w)) w)) by exact Hp.
  assert (Hpp0 : pending_pair dL t a b (set_now (S (now w)) w)) by exact Hpp.
  pose proof (calm_set_now l (S (now w)) w) as Hc0.
  assert (Hn0 : now (set_now (S (now w)) w) = S (now w)) by done.
  revert Hok0 Hp0 Hpp0 Hc0 Hn0. generalize (set_now (S (now w)) w).
  intros w0 Hok0 Hp0 Hpp0 Hc0 Hn0.
  pose proof Hpp0 as (X & Hs & HX).
  set (sL := {| source_id := a; due := t; owner := dL |}) in *.
  set (sR := {| source_id := b; due := t; owner := S dL |}) in *.
  assert (Hdue : List.filter (fun s => Nat.leb (due s) (now w0)) (sources w0)
                 = (List.filter (fun s => Nat.leb (due s) (now w0)) X ++
                    [sL; sR])%list).
  { rewrite Hs, List.filter_app. cbn.
    destruct (Nat.leb_spec t (now w0)); [done | lia]. }
  rewrite Hdue, fold_left_app.
  destruct (leaked_fold duration l dL t a b
              (List.filter (fun s => Nat.leb (due s) (now w0)) X)
              w0 Hok0 Hp0 Hpp0) as (A & B & C & D).
  { by apply filter_early. }
  { intros s Hin _. apply filter_In in Hin as [Hin _].
    rewrite Hs. apply in_or_app. by left. }
  cbn zeta in *. revert A B C D.
  generalize (fold_left (fun acc s => dispatch_source duration s acc)
                (List.filter (fun s => Nat.leb (due s) (now w0)) X) w0).
  intros w1 A B C D.
  pose proof (calm_trans l w w0 w1 Hc0 D) as Hc1. clear Hc0 D Hdue Hs HX X.
  clear Hok0 Hp0 Hpp0 Hn0 C w0.
  assert (Hp1 : plugged l dL w1).
  { eapply plugged_same; [|exact Hp]. by destruct Hc1 as (_&_&?&_). }
  destruct B as (X & Hs & HX).
  fold sL sR in Hs.
  cbn [fold_left].
  (* the timer of the left corner *)
  assert (HinL : In sL (sources w1)).
  { rewrite Hs. apply in_or_app. right. by left. }
  destruct (fire_full duration sL w1 A HinL) as (A2&B2&C2&D2&E2&F2&G2&H2).
  cbn zeta in *.
  assert (EL : wrapper_corner w1 (owner sL) = l)
    by (by destruct Hp1 as (_&?&_)).
  rewrite EL in *. revert A2 B2 C2 D2 E2 F2 G2 H2.
  generalize (dispatch_source duration sL w1).
  intros w2 A2 B2 C2 D2 E2 F2 G2 H2.
  assert (Hs2 : sources w2 = (X ++ [sR])%list).
  { change (owner sL) with dL in B2.
    rewrite B2, Hs, others_app, (others_early dL dL X HX) by done.
    unfold others. cbn -[Nat.eqb]. rewrite Nat.eqb_refl.
    destruct (Nat.eqb_spec (S dL) dL); [lia | done]. }
  assert (Hp2 : plugged l dL w2) by (by eapply plugged_same).
  (* the timer of the right corner *)
  assert (HinR : In sR (sources w2)).
  { rewrite Hs2. apply in_or_app. right. by left. }
  destruct (fire_full duration sR w2 A2 HinR) as (A3&B3&C3&D3&E3&F3&G3&H3).
  cbn zeta in *.
  assert (ER : wrapper_corner w2 (owner sR) = S l)
    by (by destruct Hp2 as (_&_&?&_)).
  rewrite ER in *. revert A3 B3 C3 D3 E3 F3 G3 H3.
  generalize (dispatch_source duration sR w2).
  intros w3 A3 B3 C3 D3 E3 F3 G3 H3.
  assert (Hs3 : sources w3 = X).
  { change (owner sR) with (S dL) in B3.
    rewrite B3, Hs2, others_app, (others_early (S dL) dL X HX) by lia.
    unfold others. cbn -[Nat.eqb]. rewrite Nat.eqb_refl. cbn.
    by rewrite app_nil_r. }
  destruct Hc1 as (S1 & K1 & W1 & Q1).
  destruct (Q1 l) as [Q1l Q1l']; [lia|].
  destruct (Q1 (S l)) as [Q1r Q1r']; [lia|].
  assert (Q2r : corners w2 !!! S l = corners w !!! S l).
  { rewrite G2, lookup_total_insert_ne by lia. done. }
  assert (S2 : same_style w w2) by (by eapply same_style_trans).
  split_and!.
  - done.
  - by eapply plugged_same.
  - by rewrite Hs3.
  - by eapply same_style_trans.
  - eapply keeps_trans; [exact K1|]. by eapply keeps_trans.
  - rewrite H3, H2, Nat.eqb_refl.
    destruct (Nat.eqb_spec (S l) l); [lia|]. cbn [app].
    by rewrite (callback_history_ext duration l w w1 S1 Q1l), Q1l'.
  - rewrite H3, H2, Nat.eqb_refl.
    destruct (Nat.eqb_spec l (S l)); [lia|]. cbn [app].
    by rewrite (callback_history_ext duration (S l) w w2 S2 Q2r), Q1r'.
  - rewrite G3, lookup_total_insert_ne by lia.
    rewrite G2, lookup_total_insert_eq.
    by rewrite (styled_ext l w w1 _ S1 Q1l), Q1l.
  - rewrite G3, lookup_total_insert_eq.
    by rewrite (styled_ext (S l) w w2 _ S2 Q2r), Q2r.
Qed.


(** ** A settings change on an active controller *)

Lemma history_timer_events c (seg : list Event) :
  Forall (fun e => timer_event e = true) seg ->
  List.filter (about c) seg = [].
Proof.
  induction 1 as [|e seg He _ IH]; [done|]. cbn. rewrite IH.
  by destruct e.
Qed.

Lemma early_owners dL w :
  timers_ok w -> next_closure w = S (S dL) ->
  Forall (fun s => owner s < dL) (others (S dL) (others dL (sources w))).
Proof.
  intros Hok Hn. pose proof (sources_owned w Hok) as Ho. rewrite Hn in Ho.
  unfold others. induction Ho as [|x X Hx _ IH]; [done|].
  cbn -[Nat.eqb]. destruct (Nat.eqb_spec (owner x) dL); cbn -[Nat.eqb];
    [done|].
  destruct (Nat.eqb_spec (owner x) (S dL)); cbn -[Nat.eqb]; [done|].
  constructor; [lia | done].
Qed.

(** A change of a recognised key arms the timers of both corners, due after
    the debounce delay, in place of the ones they had pending; nothing else
    happens. *)
Lemma edit_step cfs duration l dL w s key :
  timers_ok w -> plugged l dL w -> In key (map name (keys (settings w))) ->
  let w' := step cfs duration w (Edit s key) in
  (exists a b, pending_pair dL (now w + SETTINGS_DEBOUNCE_MS) a b w') /\
  now w' = now w /\ same_wiring w w' /\ keeps w w' /\
  forall c, corners w' !!! c = corners w !!! c /\ history c w' = history c w.
Proof.
  intros Hok Hp Hkey. cbn zeta. cbn [step].
  pose proof (early_owners dL w Hok) as Hearly.
  destruct Hp as (N & _ & _ & WL & WR & Hconn & _).
  specialize (Hearly N).
  destruct Hok as (Hf & Hl & _ & _).
  destruct (Hl dL) as [HtL _]. destruct (Hl (S dL)) as [HtR _]. clear Hl.
  set (w0 := set_settings (edit s (settings w)) w).
  assert (Hsw0 : same_wiring w w0) by (by repeat split).
  assert (Hk0 : keeps w w0) by (by repeat split).
  assert (Hf0 : fresh_ids w0) by exact Hf.
  assert (HtL0 : tidy dL w0) by exact HtL.
  assert (HtR0 : tidy (S dL) w0) by exact HtR.
  assert (Hs0 : sources w0 = sources w) by done.
  assert (Hc0 : closures w0 = closures w) by done.
  assert (Hn0 : now w0 = now w) by done.
  assert (Hcr0 : corners w0 = corners w) by done.
  assert (Htr0 : trace w0 = trace w) by done.
  assert (Hconn0 : connections w0 =
            (subscribe dL (keys (settings w)) ++
             subscribe (S dL) (keys (settings w)))%list) by exact Hconn.
  clearbody w0.
  pose proof (notify_changed_timers_only key w0) as Hto.
  pose proof (same_wiring_notify key w0) as Hsw.
  assert (Hsrc : exists a b,
            sources (notify_changed key w0) =
            (others (S dL) (others dL (sources w)) ++
             [ {| source_id := a; due := now w + SETTINGS_DEBOUNCE_MS;
                  owner := dL |};
               {| source_id := b; due := now w + SETTINGS_DEBOUNCE_MS;
                  owner := S dL |} ])%list).
  { rewrite notify_changed_targets, Hconn0, targets_app, !targets_subscribe.
    destruct (recognised_key key _ Hkey) as [n ->].
    rewrite fold_left_app.
    destruct (debounced_repeat dL n w0 Hf0 HtL0)
      as ((a & Ha & _) & _ & _ & Ho1 & Hf1 & _ & Hoth1 & Hto1).
    cbn zeta in *. revert Ha Ho1 Hf1 Hoth1 Hto1.
    generalize (fold_left (fun acc x => debounced x acc)
                  (replicate (S n) dL) w0).
    intros w1 Ha Ho1 Hf1 Hoth1 Hto1.
    assert (HtR1 : tidy (S dL) w1) by (apply Hoth1; [lia | done]).
    destruct (debounced_repeat (S dL) n w1 Hf1 HtR1)
      as ((b & Hb & _) & _).
    cbn zeta in *. revert Hb.
    generalize (fold_left (fun acc x => debounced x acc)
                  (replicate (S n) (S dL)) w1).
    intros w2 Hb.
    assert (Hnow1 : now w1 = now w0)
      by (by destruct Hto1 as (_&_&_&_&_&_&_&_&?&_)).
    exists a, b.
    rewrite Hb, Ha, others_app, (Ho1 (S dL)) by lia.
    rewrite Hnow1, Hn0, Hc0, WL, WR, Hs0.
    unfold others at 3. cbn -[Nat.eqb].
    destruct (Nat.eqb_spec dL (S dL)); [lia|]. cbn.
    by rewrite <- app_assoc. }
  revert Hto Hsw Hsrc. generalize (notify_changed key w0).
  intros w' Hto Hsw (a & b & Hsrc).
  pose proof (keeps_timers_only w0 w' Hto) as Hk.
  destruct Hto as (_&_&_&_&T5&_&_&_&T9&_&seg&Ht&Hseg).
  split_and!.
  - exists a, b, (others (S dL) (others dL (sources w))). by split.
  - congruence.
  - by eapply same_wiring_trans.
  - by eapply keeps_trans.
  - intros c. split; [congruence|]. unfold history.
    by rewrite Ht, List.filter_app, (history_timer_events c seg Hseg), Htr0.
Qed.

(** The settings changes of a burst, each less than the debounce delay after
    the previous one: the two timers are pushed back every time, and nothing
    happens to the two corners. *)
Lemma burst_hold cfs duration l dL ks wref
    (b : list (nat * Settings * string)) : forall w a0 b0,
  running w -> plugged l dL w -> keys (settings w) = ks ->
  _leftCorner (panel w) = Some l ->
  pending_pair dL (now w + SETTINGS_DEBOUNCE_MS) a0 b0 w ->
  (forall c, l <= c ->
     corners w !!! c = corners wref !!! c /\ history c w = history c wref) ->
  within_window ks b ->
  let w' := run cfs duration (burst_actions b) w in
  running w' /\ plugged l dL w' /\ _leftCorner (panel w') = Some l /\
  (exists a b, pending_pair dL (now w' + SETTINGS_DEBOUNCE_MS) a b w') /\
  (forall c, l <= c ->
     corners w' !!! c = corners wref !!! c /\ history c w' = history c wref).
Proof.
  induction b as [|[[gap s] key] b IH];
    intros w a0 b0 Hrun Hp Hks Hl Hpp Hfr Hwin; cbn zeta.
  { split_and!; try done. by exists a0, b0. }
  apply Forall_cons in Hwin as [[Hgap Hkey] Hwin].
  change (run cfs duration (burst_actions ((gap, s, key) :: b)) w)
    with (run cfs duration (burst_actions b)
            (step cfs duration (step cfs duration w (Elapse gap))
               (Edit s key))).
  (* the gap *)
  pose proof (running_step cfs duration w (Elapse gap) Hrun) as Hrun1.
  assert (Hok : timers_ok w) by (by destruct Hrun).
  destruct (gap_quiet duration l dL _ a0 b0 gap w Hok Hp Hpp)
    as (A1 & B1 & C1 & D1); [lia|].
  cbn zeta in *. change (advance duration gap w)
    with (step cfs duration w (Elapse gap)) in *.
  revert Hrun1 A1 B1 C1 D1. generalize (step cfs duration w (Elapse gap)).
  intros w1 Hrun1 A1 B1 C1 D1.
  destruct D1 as (_ & K1 & W1 & Q1).
  pose proof (plugged_same l dL w w1 W1 Hp) as Hp1.
  assert (Hks1 : keys (settings w1) = ks)
    by (destruct W1 as (_&_&_&_&->&_); done).
  assert (Hl1 : _leftCorner (panel w1) = Some l)
    by (destruct W1 as (_&_&_&_&_&->); done).
  (* the change *)
  pose proof (running_step cfs duration w1 (Edit s key) Hrun1) as Hrun2.
  destruct (edit_step cfs duration l dL w1 s key A1 Hp1)
    as ((a & b' & A2) & B2 & W2 & K2 & Q2); [by rewrite Hks1|].
  cbn zeta in *. revert Hrun2 A2 B2 W2 K2 Q2.
  generalize (step cfs duration w1 (Edit s key)).
  intros w2 Hrun2 A2 B2 W2 K2 Q2.
  apply (IH w2 a b'); try done.
  - by eapply plugged_same.
  - destruct W2 as (_&_&_&_&->&_); done.
  - destruct W2 as (_&_&_&_&_&->); done.
  - by rewrite B2.
  - intros c Hc. destruct (Q1 c Hc) as [X1 X2], (Q2 c) as [Y1 Y2].
    destruct (Hfr c Hc) as [Z1 Z2]. split; congruence.
Qed.

(** ** The pending timers of the two corners *)

Lemma timers_of_early c dL w (X : list Source) :
  Forall (fun s => owner s < dL) X ->
  (forall d, d < dL -> wrapper_corner w d < c) ->
  List.filter (fun s => Nat.eqb (target_corner w s) c) X = [].
Proof.
  intros HX Hc. induction HX as [|x X Hx _ IH]; [done|].
  cbn -[Nat.eqb]. unfold target_corner at 1.
  destruct (Nat.eqb_spec (wrapper_corner w (owner x)) c) as [E|];
    [|done].
  specialize (Hc _ Hx). lia.
Qed.

Lemma timers_of_pending l dL t a b w :
  plugged l dL w -> pending_pair dL t a b w ->
  timers_of l w = [ {| source_id := a; due := t; owner := dL |} ] /\
  timers_of (S l) w = [ {| source_id := b; due := t; owner := S dL |} ].
Proof.
  intros (_ & CL & CR & _ & _ & _ & G) (X & Hs & HX).
  unfold timers_of. rewrite Hs, !List.filter_app.
  rewrite (timers_of_early l dL w X HX G).
  rewrite (timers_of_early (S l) dL w X HX)
    by (intros d Hd; specialize (G d Hd); lia).
  unfold target_corner. cbn -[Nat.eqb]. rewrite CL, CR, !Nat.eqb_refl.
  destruct (Nat.eqb_spec (S l) l); [lia|].
  destruct (Nat.eqb_spec l (S l)); [lia|]. done.
Qed.

Lemma tally_history p c w :
  (forall e, p e = true -> about c e = true) ->
  tally p (trace w) = tally p (history c w).
Proof.
  intros Hp. unfold tally, history. f_equal.
  induction (trace w) as [|e tr IH]; [done|]. cbn.
  destruct (p e) eqn:E.
  - rewrite (Hp e E). cbn. by rewrite E, IH.
  - destruct (about c e); cbn; by rewrite ?E, IH.
Qed.

Lemma invalidations_history c w :
  invalidations c (trace w) = tally (is_invalidate c) (history c w).
Proof. apply tally_history. by intros []. Qed.

Lemma style_passes_history c w :
  style_passes c (trace w) = tally (is_style_pass c) (history c w).
Proof. apply tally_history. by intros []. Qed.

Lemma callback_history_counts duration c w :
  tally (is_invalidate c) (callback_history duration c w) = 2 /\
  tally (is_style_pass c) (callback_history duration c w) = 1.
Proof.
  unfold tally, callback_history. cbn -[Nat.eqb]. by rewrite !Nat.eqb_refl.
Qed.

Lemma settled_corners l w :
  settled w -> _leftCorner (panel w) = Some l ->
  _rightCorner (panel w) = Some (S l) /\
  side (corners w !!! l) = LEFT /\ destroyed (corners w !!! l) = false /\
  side (corners w !!! S l) = RIGHT /\
  destroyed (corners w !!! S l) = false.
Proof.
  intros [_ [(E&_)|(l' & n & E1 & E2 & _ & _ & _ & I1 & I2)]] Hl;
    [congruence|].
  assert (l' = l) as -> by congruence.
  unfold identity_of in *.
  split_and!; [done | congruence..].
Qed.


(** C6, amended: in every execution, whenever the controller is active (the
    panel refers to its corners [l] and [r]), any N >= 1 changes of
    recognised settings keys, each less than the debounce delay after the
    previous one, do nothing to either corner while the burst lasts and for
    as long as the delay has not elapsed: each corner has exactly one timer
    pending, due one delay after the last change.  Once the delay has elapsed
    each of the two corners has had exactly one run of its debounced
    callback, not N: [invalidateCache()] first, then one style-changed
    recomputation (which invalidates the cache once more), which leaves the
    corner styled for the settings of the last change and with no timer
    pending.  And invoking a debounced wrapper whose timer is pending cancels
    that timer. *)
Theorem C6_debounce_coalescing cfs duration s0 scale node panel_width
    panel_height pc (acts : list Action) (l : nat) (s : Settings)
    (key : string) (b : list (nat * Settings * string)) :
  let w1 := run cfs duration acts
              (initial s0 scale node panel_width panel_height pc) in
  _leftCorner (panel w1) = Some l ->
  In key (map name (keys (settings w1))) ->
  within_window (keys (settings w1)) b ->
  let r := S l in
  let w2 := run cfs duration (Edit s key :: burst_actions b) w1 in
  let w3 := advance duration SETTINGS_DEBOUNCE_MS w2 in
  _rightCorner (panel w1) = Some r /\
  (forall g, g < SETTINGS_DEBOUNCE_MS ->
     let w := advance duration g w2 in
     history l w = history l w1 /\ history r w = history r w1 /\
     corners w !!! l = corners w1 !!! l /\
     corners w !!! r = corners w1 !!! r /\
     map due (timers_of l w) = [now w2 + SETTINGS_DEBOUNCE_MS] /\
     map due (timers_of r w) = [now w2 + SETTINGS_DEBOUNCE_MS]) /\
  (history l w3 = (callback_history duration l w2 ++ history l w1)%list /\
   history r w3 = (callback_history duration r w2 ++ history r w1)%list /\
   invalidations l (trace w3) = invalidations l (trace w1) + 2 /\
   style_passes l (trace w3) = style_passes l (trace w1) + 1 /\
   invalidations r (trace w3) = invalidations r (trace w1) + 2 /\
   style_passes r (trace w3) = style_passes r (trace w1) + 1 /\
   fitted LEFT w2 (corners w3 !!! l) /\
   fitted RIGHT w2 (corners w3 !!! r) /\
   timers_of l w3 = [] /\ timers_of r w3 = []) /\
  (forall d w a,
     timeoutId (closures w !!! d) = Some a -> a < next_source w ->
     attached a (debounced d w) = false).
Proof.
  cbn zeta.
  pose proof (running_run cfs duration acts _
                (running_initial s0 scale node panel_width panel_height pc))
    as Hrun1.
  revert Hrun1.
  generalize (run cfs duration acts
                (initial s0 scale node panel_width panel_height pc)).
  intros w1 Hrun1 Hl Hkey Hwin.
  pose proof Hrun1 as (Hok1 & Hset1 & Hwir1).
  destruct (plugged_of_wiring l w1 Hwir1 Hl) as [dL Hp1].
  destruct (settled_corners l w1 Hset1 Hl) as (Hr1 & _).
  change (run cfs duration (Edit s key :: burst_actions b) w1)
    with (run cfs duration (burst_actions b)
            (step cfs duration w1 (Edit s key))).
  (* the first change *)
  pose proof (running_step cfs duration w1 (Edit s key) Hrun1) as Hrune.
  destruct (edit_step cfs duration l dL w1 s key Hok1 Hp1 Hkey)
    as ((a & b' & Ae) & Be & We & Ke & Qe).
  cbn zeta in *. revert Hrune Ae Be We Ke Qe.
  generalize (step cfs duration w1 (Edit s key)).
  intros we Hrune Ae Be We Ke Qe.
  (* the rest of the burst *)
  destruct (burst_hold cfs duration l dL (keys (settings w1)) w1 b we a b'
              Hrune)
    as (Hrun2 & Hp2 & Hl2 & (a2 & b2 & Hpp2) & Hfr2).
  { by eapply plugged_same. }
  { by destruct We as (_&_&_&_&->&_). }
  { by destruct We as (_&_&_&_&_&->). }
  { by rewrite Be. }
  { intros c _. apply Qe. }
  { done. }
  cbn zeta in *. revert Hrun2 Hp2 Hl2 Hpp2 Hfr2.
  generalize (run cfs duration (burst_actions b) we).
  intros w2 Hrun2 Hp2 Hl2 Hpp2 Hfr2.
  clear Hrune Ae Be We Ke Qe we a b' Hwin Hkey.
  pose proof Hrun2 as (Hok2 & Hset2 & _).
  destruct (settled_corners l w2 Hset2 Hl2) as (_ & SL & DL & SR & DR).
  destruct (Hfr2 l) as [FL FL']; [lia|].
  destruct (Hfr2 (S l)) as [FR FR']; [lia|].
  split; [done|]. split; [|split].
  - (* before the delay has elapsed *)
    intros g Hg.
    destruct (gap_quiet duration l dL _ a2 b2 g w2 Hok2 Hp2 Hpp2)
      as (A & B & C & D); [lia|].
    cbn zeta in *. revert A B C D. generalize (advance duration g w2).
    intros w A B C D. destruct D as (_ & _ & W & Q).
    pose proof (plugged_same l dL w2 w W Hp2) as Hp.
    destruct (timers_of_pending l dL _ a2 b2 w Hp B) as [TL TR].
    destruct (Q l) as [QL QL']; [lia|].
    destruct (Q (S l)) as [QR QR']; [lia|].
    rewrite TL, TR. split_and!; [congruence.. | done | done].
  - (* the delay has elapsed *)
    assert (E3 : advance duration SETTINGS_DEBOUNCE_MS w2 =
                 dispatch duration
                   (set_now (S (now (advance duration 49 w2)))
                      (advance duration 49 w2))).
    { change SETTINGS_DEBOUNCE_MS with (49 + 1).
      by rewrite advance_add. }
    rewrite E3. clear E3.
    destruct (gap_quiet duration l dL _ a2 b2 49 w2 Hok2 Hp2 Hpp2)
      as (A & B & C & D); [unfold SETTINGS_DEBOUNCE_MS; lia|].
    cbn zeta in *. revert A B C D. generalize (advance duration 49 w2).
    intros w A B C D. destruct D as (S2 & _ & W & Q).
    pose proof (plugged_same l dL w2 w W Hp2) as Hp.
    destruct (Q l) as [QL QL']; [lia|].
    destruct (Q (S l)) as [QR QR']; [lia|].
    destruct (tick_fire duration l dL _ a2 b2 w A Hp B)
      as (A3 & Hp3 & HX3 & S3 & K3 & HL3 & HR3 & CL3 & CR3);
      [unfold SETTINGS_DEBOUNCE_MS; lia|].
    cbn zeta in *. revert A3 Hp3 HX3 S3 K3 HL3 HR3 CL3 CR3.
    generalize (dispatch duration (set_now (S (now w)) w)).
    intros w3 A3 Hp3 HX3 S3 K3 HL3 HR3 CL3 CR3.
    rewrite (callback_history_ext duration l w2 w S2 QL), QL', FL' in HL3.
    rewrite (callback_history_ext duration (S l) w2 w S2 QR), QR', FR'
      in HR3.
    rewrite (styled_ext l w2 w _ S2 QL), QL in CL3.
    rewrite (styled_ext (S l) w2 w _ S2 QR), QR in CR3.
    destruct (callback_history_counts duration l w2) as [NL1 NL2].
    destruct (callback_history_counts duration (S l) w2) as [NR1 NR2].
    destruct Hp3 as (_ & _ & _ & _ & _ & _ & G3).
    split_and!.
    + done.
    + done.
    + by rewrite !invalidations_history, HL3, tally_app, NL1, Nat.add_comm.
    + by rewrite !style_passes_history, HL3, tally_app, NL2, Nat.add_comm.
    + by rewrite !invalidations_history, HR3, tally_app, NR1, Nat.add_comm.
    + by rewrite !style_passes_history, HR3, tally_app, NR2, Nat.add_comm.
    + rewrite CL3, <- SL.
      apply (fitted_styled l w2 w2); [apply same_style_refl | done].
    + rewrite CR3, <- SR.
      apply (fitted_styled (S l) w2 w2); [apply same_style_refl | done].
    + apply (timers_of_early l dL w3 _ HX3 G3).
    + apply (timers_of_early (S l) dL w3 _ HX3).
      intros d Hd. specialize (G3 d Hd). lia.
  - intros d w a Hc Ha. by apply debounced_cancels_previous.
Qed.


(** C6, amended, at work on a controller that has been running: a settings
    change, then [update()] again, which leaves the timer of the removed left
    corner behind, and 10 ms; then four settings changes, 10, 49 and 0 ms
    after one another, and the delay.  The left-over timer fires during the
    burst, on the removed corner. *)
Lemma C6_debounce_coalescing_witness :
  let w1 := run hex_color_from_string 250
              [ Update;
                Edit (demo_settings false 11 2 "#112233ff")
                  "panel-corner-radius";
                Update; Elapse 10 ]
              (initial (demo_settings false 12 2 "#112233ff") 1
                 (Some demo_theme) 1000 40 None) in
  let r := 3 in
  let w2 := run hex_color_from_string 250
              (Edit (demo_settings false 10 2 "#112233ff")
                 "panel-corner-radius" ::
               burst_actions
                 [ (10, demo_settings false 10 2 "#112233ff",
                        "panel-corner-radius");
                   (49, demo_settings false 10 3 "#112233ff",
                        "panel-corner-border-width");
                   (0, demo_settings true 10 3 "#112233ff",
                       "force-extension-values") ]) w1 in
  let w3 := advance 250 SETTINGS_DEBOUNCE_MS w2 in
  _rightCorner (panel w1) = Some r /\
  (forall g, g < SETTINGS_DEBOUNCE_MS ->
     let w := advance 250 g w2 in
     history 2 w = history 2 w1 /\ history r w = history r w1 /\
     corners w !!! 2 = corners w1 !!! 2 /\
     corners w !!! r = corners w1 !!! r /\
     map due (timers_of 2 w) = [now w2 + SETTINGS_DEBOUNCE_MS] /\
     map due (timers_of r w) = [now w2 + SETTINGS_DEBOUNCE_MS]) /\
  (history 2 w3 = (callback_history 250 2 w2 ++ history 2 w1)%list /\
   history r w3 = (callback_history 250 r w2 ++ history r w1)%list /\
   invalidations 2 (trace w3) = invalidations 2 (trace w1) + 2 /\
   style_passes 2 (trace w3) = style_passes 2 (trace w1) + 1 /\
   invalidations r (trace w3) = invalidations r (trace w1) + 2 /\
   style_passes r (trace w3) = style_passes r (trace w1) + 1 /\
   fitted LEFT w2 (corners w3 !!! 2) /\
   fitted RIGHT w2 (corners w3 !!! r) /\
   timers_of 2 w3 = [] /\ timers_of r w3 = []) /\
  (forall d w a,
     timeoutId (closures w !!! d) = Some a -> a < next_source w ->
     attached a (debounced d w) = false).
Proof.
  refine (C6_debounce_coalescing hex_color_from_string 250
            (demo_settings false 12 2 "#112233ff") 1 (Some demo_theme)
            1000 40 None
            [ Update;
              Edit (demo_settings false 11 2 "#112233ff")
                "panel-corner-radius";
              Update; Elapse 10 ]
            2 (demo_settings false 10 2 "#112233ff") "panel-corner-radius"
            [ (10, demo_settings false 10 2 "#112233ff",
                   "panel-corner-radius");
              (49, demo_settings false 10 3 "#112233ff",
                   "panel-corner-border-width");
              (0, demo_settings true 10 3 "#112233ff",
                  "force-extension-values") ] _ _ _).
  - vm_compute. reflexivity.
  - vm_compute. tauto.
  - vm_compute.
    repeat (apply List.Forall_cons; [split; [lia | tauto] |]).
    apply List.Forall_nil.
Defined.
